(** * Publisher.ts: the publish reconciliation engine

    A shallow embedding of [src/Publisher.ts] (folder tree construction,
    remote page reconciliation, wikilink resolution, the media/diagram upload
    pipeline and the page content synchroniser) together with the properties
    the specification states about it. *)

From Stdlib Require Import String Ascii ZArith.
From stdpp Require Import gmap strings list.
From Equations Require Import Equations.
From Equations.Prop Require Import Logic.

Set Warnings "-register-all".

Local Open Scope string_scope.
Local Open Scope list_scope.

(** ** JavaScript values the module manipulates *)

(** What a JavaScript [throw] can carry in this module: the [Error]s the
    module constructs itself, the [TypeError]s of the language (reading a
    property of [undefined], an invalid [URL]), and whatever a collaborator
    (remote client, adaptor, renderer) rejects with. *)
Inductive Exn : Type :=
| Error (message : string)
| TypeError (message : string)
| Rejected (payload : string).

(** The three ways a modelled computation can end. [Diverged] is kept apart
    from [Threw]: it only marks a traversal that was given too small a
    recursion budget, and a [try]/[catch] does not see it. *)
Inductive Res (A : Type) : Type :=
| Returned (a : A)
| Threw (e : Exn)
| Diverged.
Arguments Returned {A} a.
Arguments Threw {A} e.
Arguments Diverged {A}.

(** Template-literal interpolation of a possibly [undefined] string. *)
Definition interpolate (o : option string) : string :=
  match o with
  | Some s => s
  | None => "undefined"
  end.

(** JavaScript truthiness of a possibly [undefined] string. *)
Definition truthy (o : option string) : bool :=
  match o with
  | Some EmptyString => false
  | Some _ => true
  | None => false
  end.

(** ** Strings and paths *)

Module Path.

(** [const [first, ...rest] = s.split(path.sep)]: [path.sep] is a
    one-character string, and a split always has a first piece. *)
Fixpoint split1 (sep : ascii) (s : string) : string * list string :=
  match s with
  | EmptyString => (EmptyString, [])
  | String c s' =>
      let '(hd, tl) := split1 sep s' in
      if Ascii.eqb c sep then (EmptyString, hd :: tl) else (String c hd, tl)
  end.

(** [s.split(path.sep)] *)
Definition split (sep : ascii) (s : string) : list string :=
  let '(first, rest) := split1 sep s in first :: rest.

(** [parts.join(path.sep)]. *)
Fixpoint join (sep : ascii) (parts : list string) : string :=
  match parts with
  | [] => EmptyString
  | p :: rest =>
      match rest with
      | [] => p
      | _ :: _ => p +:+ String sep (join sep rest)
      end
  end.

(** [s.split(sep)] for a separator of any positive length; [skip] counts
    the characters of a separator occurrence still to be dropped and [cur]
    is the piece being read. *)
Fixpoint splitOn (sep : string) (skip : nat) (cur : string) (s : string)
  : list string :=
  match s with
  | EmptyString => [cur]
  | String c s' =>
      match skip with
      | S k => splitOn sep k cur s'
      | O =>
          if String.prefix sep s
          then cur :: splitOn sep (String.length sep - 1) EmptyString s'
          else splitOn sep 0 (cur +:+ String c EmptyString) s'
      end
  end.

End Path.

(** ** Tree Builder: the common path *)

Section CommonPath.

Variable sep : ascii.

(** The inner [for] loop of [findCommonPath]: at the first index where the
    two component arrays differ, [commonPathParts.splice(i)] truncates and
    the loop breaks. [steps] bounds the iterations that remain. *)
Fixpoint truncateAtDivergence (steps i : nat)
    (pathParts commonPathParts : list string) : list string :=
  match steps with
  | O => commonPathParts
  | S k =>
      if bool_decide (i < length commonPathParts) then
        if bool_decide (pathParts !! i = commonPathParts !! i)
        then truncateAtDivergence k (S i) pathParts commonPathParts
        else take i commonPathParts
      else commonPathParts
  end.

Definition findCommonPathParts (firstPath : string) (rest : list string)
  : list string :=
  fold_left
    (fun commonPathParts filePath =>
       truncateAtDivergence (length commonPathParts) 0
         (Path.split sep filePath) commonPathParts)
    rest (Path.split sep firstPath).

(** [findCommonPath]. Destructuring an empty array leaves [firstPath]
    undefined and [firstPath.split] throws. *)
Definition findCommonPath (paths : list string) : Res string :=
  match paths with
  | [] => Threw (TypeError "Cannot read properties of undefined (reading 'split')")
  | firstPath :: rest =>
      Returned (Path.join sep (findCommonPathParts firstPath rest))
  end.

End CommonPath.

Example findCommonPath_two :
  findCommonPath "/" ["/vault/docs/a.md"; "/vault/notes/b.md"] = Returned "/vault".
Proof. reflexivity. Qed.

Example splitOn_scheme :
  Path.splitOn "://" 0 EmptyString "file://img/logo.png" = ["file"; "img/logo.png"].
Proof. reflexivity. Qed.

(** ** The structured document format (ADF) *)

(** An attribute value: a string, or any other JSON value, of which only its
    string conversion (as used for a property key) is kept. *)
Inductive AttrVal : Type :=
| AStr (s : string)
| AOther (repr : string).

(** An attribute object: its own properties in insertion order. *)
Definition Attrs : Type := list (string * AttrVal).

Module Obj.

(** [o[k]] *)
Fixpoint get (k : string) (o : Attrs) : option AttrVal :=
  match o with
  | [] => None
  | (k', v) :: rest => if String.eqb k' k then Some v else get k rest
  end.

(** [o[k] = v]: an existing property keeps its position. *)
Fixpoint set (k : string) (v : AttrVal) (o : Attrs) : Attrs :=
  match o with
  | [] => [(k, v)]
  | (k', v') :: rest =>
      if String.eqb k' k then (k', v) :: rest else (k', v') :: set k v rest
  end.

(** [delete o[k]] *)
Fixpoint delete (k : string) (o : Attrs) : Attrs :=
  match o with
  | [] => []
  | (k', v') :: rest =>
      if String.eqb k' k then delete k rest else (k', v') :: delete k rest
  end.

(** [o[k] === s] for a string literal [s]. *)
Definition is_str (k s : string) (o : Attrs) : bool :=
  match get k o with
  | Some (AStr s') => String.eqb s' s
  | _ => false
  end.

End Obj.

(** Conversion of a (possibly [undefined]) attribute to a property key. *)
Definition propertyKey (v : option AttrVal) : string :=
  match v with
  | Some (AStr s) => s
  | Some (AOther repr) => repr
  | None => "undefined"
  end.

Record Mark : Type := mkMark {
  mark_type : string;
  mark_attrs : option Attrs
}.

(** [ADFEntity]: every field but [type] is optional. *)
Inductive ADFEntity : Type :=
| Node (type : string) (attrs : option Attrs)
       (content : option (list ADFEntity))
       (marks : option (list Mark)) (text : option string).

Definition type (n : ADFEntity) : string :=
  match n with Node t _ _ _ _ => t end.
Definition attrs (n : ADFEntity) : option Attrs :=
  match n with Node _ a _ _ _ => a end.
Definition content (n : ADFEntity) : option (list ADFEntity) :=
  match n with Node _ _ c _ _ => c end.
Definition marks (n : ADFEntity) : option (list Mark) :=
  match n with Node _ _ _ m _ => m end.
Definition text (n : ADFEntity) : option string :=
  match n with Node _ _ _ _ t => t end.

Definition with_content (n : ADFEntity) (c : option (list ADFEntity)) : ADFEntity :=
  match n with Node t a _ m x => Node t a c m x end.

(** [(node.attrs || {})] *)
Definition attrsOrEmpty (n : ADFEntity) : Attrs :=
  match attrs n with Some a => a | None => [] end.

(** [node?.attrs?.k] *)
Definition attr (k : string) (n : ADFEntity) : option AttrVal :=
  Obj.get k (attrsOrEmpty n).

(** [node?.content?.at(0)?.text] *)
Definition firstText (n : ADFEntity) : option string :=
  match content n with
  | Some (c :: _) => text c
  | _ => None
  end.

(** Number of levels of a document tree. *)
Fixpoint depth (n : ADFEntity) : nat :=
  match n with
  | Node _ _ c _ _ =>
      S (match c with
         | Some cs =>
             (fix depths (l : list ADFEntity) : nat :=
                match l with
                | [] => 0
                | x :: l' => Nat.max (depth x) (depths l')
                end) cs
         | None => 0
         end)
  end.

(** *** [@atlaskit/adf-utils]: [traverse] and [filter]

    The library walks a document top-down. The visitor registered for a
    node's type (or else the one registered under [any]) receives a shallow
    copy of the node; when it returns [false] the node is dropped from its
    parent's content, when it returns nothing ([undefined]) the node stays as
    it was ([newNode = processedNode || adfNode]), and when it returns a node
    that node takes its place. The content of the node that results is then
    traversed in turn. *)
Inductive Visit : Type :=
| Replace (n : ADFEntity)
| Remove
| Keep.

Definition Visitor : Type := ADFEntity -> Res Visit.

Definition visitorFor (visitors : gmap string Visitor) (n : ADFEntity)
  : option Visitor :=
  match visitors !! type n with
  | Some v => Some v
  | None => visitors !! "any"
  end.

(** The [reduce] over a node's content: children for which the traversal
    answers [false] are not pushed. *)
Fixpoint traverseContent (f : ADFEntity -> Res (option ADFEntity))
    (cs : list ADFEntity) : Res (list ADFEntity) :=
  match cs with
  | [] => Returned []
  | c :: rest =>
      match f c with
      | Returned processed =>
          match traverseContent f rest with
          | Returned acc =>
              Returned (match processed with
                        | Some n => n :: acc
                        | None => acc
                        end)
          | Threw e => Threw e
          | Diverged => Diverged
          end
      | Threw e => Threw e
      | Diverged => Diverged
      end
  end.

(** [traverseNode]; [None] stands for [false]. The node a visitor returns is
    not a part of the node it was given, so the recursion is bounded by
    [fuel], the number of levels it may still descend. *)
Fixpoint traverseNode (fuel : nat) (visitors : gmap string Visitor)
    (adfNode : ADFEntity) : Res (option ADFEntity) :=
  match fuel with
  | O => Diverged
  | S fuel' =>
      let visited :=
        match visitorFor visitors adfNode with
        | Some visitor => visitor adfNode
        | None => Returned Keep
        end in
      match visited with
      | Threw e => Threw e
      | Diverged => Diverged
      | Returned Remove => Returned None
      | Returned processedNode =>
          let newNode :=
            match processedNode with
            | Replace n => n
            | _ => adfNode
            end in
          match content newNode with
          | None => Returned (Some newNode)
          | Some cs =>
              match traverseContent (traverseNode fuel' visitors) cs with
              | Returned cs' => Returned (Some (with_content newNode (Some cs')))
              | Threw e => Threw e
              | Diverged => Diverged
              end
          end
      end
  end.

(** [traverse(adf, visitors)], with the budget made explicit. *)
Definition traverse (fuel : nat) (adf : ADFEntity)
    (visitors : gmap string Visitor) : Res (option ADFEntity) :=
  traverseNode fuel visitors adf.

(** [filter(adf, callback)]: traverses with an [any] visitor that pushes the
    nodes the callback accepts and returns nothing, so every node is visited
    once, parents before children, and none is changed. *)
Fixpoint filter_adf (callback : ADFEntity -> bool) (adf : ADFEntity)
  : list ADFEntity :=
  (if callback adf then [adf] else []) ++
  match adf with
  | Node _ _ c _ _ =>
      match c with
      | Some cs =>
          (fix each (l : list ADFEntity) : list ADFEntity :=
             match l with
             | [] => []
             | x :: l' => filter_adf callback x ++ each l'
             end) cs
      | None => []
      end
  end.

(** ** Documents, tree nodes and what the collaborators exchange *)

Definition Buffer : Type := list Byte.byte.

(** [MarkdownFile], as the adaptor lists it. *)
Record MarkdownFile : Type := mkMarkdownFile {
  md_folderName : string;
  md_absoluteFilePath : string;
  md_fileName : string;
  md_contents : string;
  md_pageTitle : string;
  md_frontmatter : Attrs;
  md_tags : list string
}.

Record AdfFile : Type := mkAdfFile {
  folderName : string;
  absoluteFilePath : string;
  fileName : string;
  contents : ADFEntity;
  pageTitle : string;
  frontmatter : Attrs;
  tags : list string;
  pageId : option string;
  dontChangeParentPageId : bool;
  spaceKey : option string
}.

Definition with_page (f : AdfFile) (id : option string) (space : option string)
  : AdfFile :=
  mkAdfFile (folderName f) (absoluteFilePath f) (fileName f) (contents f)
    (pageTitle f) (frontmatter f) (tags f) id (dontChangeParentPageId f) space.

Definition with_contents (f : AdfFile) (c : ADFEntity) : AdfFile :=
  mkAdfFile (folderName f) (absoluteFilePath f) (fileName f) c
    (pageTitle f) (frontmatter f) (tags f) (pageId f)
    (dontChangeParentPageId f) (spaceKey f).

Record ConfluenceNode : Type := mkConfluenceNode {
  cn_file : AdfFile;
  cn_version : Z;
  cn_existingAdf : string;
  cn_parentPageId : string
}.

Inductive ConfluenceTreeNode : Type :=
| CTNode (file : AdfFile) (version : Z) (existingAdf : string)
         (children : list ConfluenceTreeNode).

Inductive TreeNode : Type :=
| TNode (name : string) (children : list TreeNode) (file : option AdfFile).

Definition tn_name (n : TreeNode) : string :=
  match n with TNode nm _ _ => nm end.
Definition tn_children (n : TreeNode) : list TreeNode :=
  match n with TNode _ cs _ => cs end.
Definition tn_file (n : TreeNode) : option AdfFile :=
  match n with TNode _ _ f => f end.

Record FilePublishResult : Type := mkFilePublishResult {
  successfulUpload : bool;
  fpr_absoluteFilePath : string;
  reason : option string
}.

Record FailedFile : Type := mkFailedFile {
  ff_fileName : string;
  ff_reason : string
}.

Record UploadResults : Type := mkUploadResults {
  successfulUploads : Z;
  errorMessage : option string;
  failedFiles : list FailedFile
}.

Record UploadedImageData : Type := mkUploadedImageData {
  img_filename : option string;
  img_id : string;
  img_collection : string
}.

Record ChartData : Type := mkChartData {
  chart_name : string;
  chart_data : string
}.

(** A page as the remote client reports it: [space.key], [version.number],
    [body.atlas_doc_format.value] and the ids of [ancestors], each possibly
    missing from the response. *)
Record Page : Type := mkPage {
  page_id : string;
  page_space : option string;
  page_version : option Z;
  page_body : option string;
  page_ancestors : option (list string)
}.

Record SearchResult : Type := mkSearchResult {
  sr_size : Z;
  sr_results : list Page
}.

(** One entry of a page's attachment listing: [title], [metadata.comment],
    [extensions.fileId], [extensions.collectionName]. *)
Record Attachment : Type := mkAttachment {
  att_title : string;
  att_comment : option string;
  att_fileId : string;
  att_collectionName : string
}.

(** One result of an attachment upload: [extensions.fileId], [container.id]. *)
Record Uploaded : Type := mkUploaded {
  up_fileId : string;
  up_containerId : string
}.

Record Label : Type := mkLabel {
  label_label : string;
  label_name : string
}.

Record Binary : Type := mkBinary {
  bin_contents : Buffer;
  bin_filePath : string;
  bin_filename : string
}.

(** The request [updatePageContent] sends; [upd_ancestors] is [None] when the
    [ancestors] property is left out of the request. *)
Record UpdateContentDetails : Type := mkUpdateContentDetails {
  upd_id : string;
  upd_ancestors : option (list string);
  upd_version : Z;
  upd_title : string;
  upd_body : string
}.

(** What [currentAttachments] keeps per title. *)
Record CurrentAttachment : Type := mkCurrentAttachment {
  filehash : option string;
  attachmentId : string;
  collectionName : string
}.

(** ** Effects: calls to the collaborators *)

(** Every call the module makes to a collaborator, with its arguments. *)
Inductive Event : Type :=
| GetContentById (id : string)
| GetContent (space title : string)
| CreateContent (space parentPageId title body : string)
| UpdateContent (details : UpdateContentDetails)
| GetLabelsForContent (id : string)
| RemoveLabelFromContent (id : string) (name : string)
| AddLabelsToContent (id : string) (names : list string)
| GetAttachments (id : string)
| CreateOrUpdateAttachments (id filename comment : string) (file : Buffer)
                            (contentType : option string)
| GetMarkdownFilesToUpload
| ReadBinary (name : option string) (pagePath : string)
| UpdateMarkdownPageId (absoluteFilePath id : string)
| CaptureMermaidCharts (charts : list ChartData).

(** A write against the remote wiki or the source documents. *)
Definition is_write (ev : Event) : bool :=
  match ev with
  | CreateContent _ _ _ _ | UpdateContent _ | RemoveLabelFromContent _ _
  | AddLabelsToContent _ _ | CreateOrUpdateAttachments _ _ _ _ _
  | UpdateMarkdownPageId _ _ => true
  | _ => false
  end.

Definition is_update (ev : Event) : bool :=
  match ev with UpdateContent _ => true | _ => false end.

Definition is_label_call (ev : Event) : bool :=
  match ev with
  | GetLabelsForContent _ | RemoveLabelFromContent _ _ | AddLabelsToContent _ _ => true
  | _ => false
  end.

Definition is_upload (ev : Event) : bool :=
  match ev with CreateOrUpdateAttachments _ _ _ _ _ => true | _ => false end.

(** The pure services of the platform and of the imported libraries. *)
Class Platform : Type := {
  path_sep : ascii;
  path_relative : string -> string -> string;
  path_join : string -> string -> string;
  path_parse_name : string -> string;
  (** [SparkMD5.hash] and [SparkMD5.ArrayBuffer] *)
  md5 : string -> string;
  md5_buffer : Buffer -> string;
  (** [JSON.stringify] of a traversal result ([None] is [false]) *)
  JSON_stringify : option ADFEntity -> string;
  (** [new URL(href)]: [pathname] and [hash], or a [TypeError] *)
  URL_parse : string -> option (string * string);
  stringifyObject : Exn -> string;
  convertMDtoADF : MarkdownFile -> Exn + AdfFile;
  blankPageAdf : string;
  FolderFile : ADFEntity
}.

(** The stateful collaborators: each call answers from, and may change, a
    state of type [W] that the module never inspects. A call resolves with
    a value or rejects with a payload of the collaborator's own. *)
Class Collaborators (W : Type) : Type := {
  on_getContentById : string -> W -> (string + Page) * W;
  on_getContent : string -> string -> W -> (string + SearchResult) * W;
  on_createContent : string -> string -> string -> string -> W -> (string + Page) * W;
  on_updateContent : UpdateContentDetails -> W -> (string + unit) * W;
  on_getLabelsForContent : string -> W -> (string + (Z * list Label)) * W;
  on_removeLabelFromContent : string -> string -> W -> (string + unit) * W;
  on_addLabelsToContent : string -> list string -> W -> (string + unit) * W;
  on_getAttachments : string -> W -> (string + list Attachment) * W;
  on_createOrUpdateAttachments :
    string -> string -> string -> Buffer -> option string -> W ->
    (string + list Uploaded) * W;
  on_getMarkdownFilesToUpload : W -> (string + list MarkdownFile) * W;
  on_readBinary : option string -> string -> W -> (string + option Binary) * W;
  on_updateMarkdownPageId : string -> string -> W -> (string + unit) * W;
  on_captureMermaidCharts : list ChartData -> W -> (string + list (string * Buffer)) * W
}.

(** The state a run threads through: the collaborators' state and the calls
    made so far, oldest first. *)
Record State (W : Type) : Type := mkState {
  world : W;
  trace : list Event
}.
Arguments mkState {W} world trace.
Arguments world {W} s.
Arguments trace {W} s.

Definition M (W A : Type) : Type := State W -> Res A * State W.

Definition ret {W A} (a : A) : M W A := fun s => (Returned a, s).

Definition throw {W A} (e : Exn) : M W A := fun s => (Threw e, s).

Definition bind {W A B} (m : M W A) (k : A -> M W B) : M W B :=
  fun s =>
    match m s with
    | (Returned a, s') => k a s'
    | (Threw e, s') => (Threw e, s')
    | (Diverged, s') => (Diverged, s')
    end.

(** [try { m } catch (e) { h e }] *)
Definition try_catch {W A} (m : M W A) (h : Exn -> M W A) : M W A :=
  fun s =>
    match m s with
    | (Threw e, s') => h e s'
    | r => r
    end.

(** A pure computation that may throw, run inside [M]. *)
Definition lift {W A} (r : Res A) : M W A := fun s => (r, s).

(** An awaited call: it is logged, and the collaborator's answer either
    resolves or rejects. *)
Definition call {W A} (ev : Event) (handler : W -> (string + A) * W) : M W A :=
  fun s =>
    let '(answer, w') := handler (world s) in
    (match answer with
     | inl payload => Threw (Rejected payload)
     | inr a => Returned a
     end,
     mkState w' (trace s ++ [ev])).

Declare Scope js_scope.
Delimit Scope js_scope with js.
Notation "'let*' x := m 'in' k" := (bind m (fun x => k))
  (at level 10, x pattern, m at level 100, k at level 200) : js_scope.
Notation "'do' m 'then' k" := (bind m (fun _ => k))
  (at level 10, m at level 100, k at level 200) : js_scope.

(** [for (const x of xs) { body x }], sequentially. *)
Fixpoint for_of {W A} (xs : list A) (body : A -> M W unit) : M W unit :=
  match xs with
  | [] => ret tt
  | x :: rest => bind (body x) (fun _ => for_of rest body)
  end.

(** A loop that carries an accumulator. *)
Fixpoint fold_of {W A B} (xs : list A) (acc : B) (body : B -> A -> M W B)
  : M W B :=
  match xs with
  | [] => ret acc
  | x :: rest => bind (body acc x) (fun acc' => fold_of rest acc' body)
  end.

(** [await Promise.all(xs.map(task))]. The results come back in array
    order. The code starts every task before any of them goes on, so the
    calls of different tasks interleave as the collaborators answer, and a
    task goes on after another one has rejected. The model follows one of
    these schedules, the one in which the collaborators answer every call
    of a task before the first call of the next task, and it ends with the
    first rejection in array order: what the other tasks still do after a
    rejection is not part of the state it returns. What is proved through
    [promise_all] is about the records that come back and about which
    calls are made, not about the order of the calls of different tasks. *)
Fixpoint promise_all {W A B} (xs : list A) (task : A -> M W B) : M W (list B) :=
  match xs with
  | [] => ret []
  | x :: rest =>
      bind (task x) (fun r =>
      bind (promise_all rest task) (fun rs => ret (r :: rs)))
  end.

(** Sequencing of pure computations that may throw. *)
Definition and_then {A B} (r : Res A) (k : A -> Res B) : Res B :=
  match r with
  | Returned a => k a
  | Threw e => Threw e
  | Diverged => Diverged
  end.

(** [xs.forEach(body)] with an accumulator, for a body that may throw. *)
Fixpoint forEach {A B} (xs : list A) (acc : B) (body : B -> A -> Res B) : Res B :=
  match xs with
  | [] => Returned acc
  | x :: rest => and_then (body acc x) (fun acc' => forEach rest acc' body)
  end.

(** ** Tree Builder: inserting documents *)

(** Joining the pieces that follow the first one gives a shorter string:
    what makes the recursion of [addFileToTree] end. *)
Lemma split1_join sep s :
  Path.join sep (Path.split sep s) = s.
Proof.
  unfold Path.split. induction s as [|c s IH]; simpl; [done|].
  destruct (Path.split1 sep s) as [hd tl].
  destruct (Ascii.eqb_spec c sep) as [->|Hne].
  - change (Path.join sep (EmptyString :: hd :: tl))
      with (String sep (Path.join sep (hd :: tl))).
    by rewrite IH.
  - destruct tl as [|t tl]; simpl in IH |- *; by rewrite <- IH.
Qed.

Lemma length_append (s1 s2 : string) :
  String.length (s1 +:+ s2) = String.length s1 + String.length s2.
Proof. induction s1 as [|c s1 IH]; simpl; [done | by rewrite IH]. Qed.

Lemma split1_rest_shorter sep s first rest :
  Path.split1 sep s = (first, rest) ->
  rest <> [] ->
  String.length (Path.join sep rest) < String.length s.
Proof.
  intros Hs Hrest.
  pose proof (split1_join sep s) as Hj.
  unfold Path.split in Hj. rewrite Hs in Hj.
  destruct rest as [|r rest]; [done|].
  change (Path.join sep (first :: r :: rest))
    with (first +:+ String sep (Path.join sep (r :: rest))) in Hj.
  rewrite <- Hj, length_append. simpl. lia.
Qed.

(** [xs.find(p)]: the first element the predicate accepts, with its
    position (the source goes on to mutate that very element). *)
Fixpoint find_first {A} (p : A -> bool) (xs : list A) : option (nat * A) :=
  match xs with
  | [] => None
  | x :: rest =>
      if p x then Some (0, x)
      else match find_first p rest with
           | Some (i, y) => Some (S i, y)
           | None => None
           end
  end.

Section TreeBuilder.

Context `{Platform}.

Definition createTreeNode (name : string) : TreeNode := TNode name [] None.

Definition notUnique (fileName : string) : Exn :=
  Error ("File name " +:+ String "034" (fileName +:+ String "034"
           " is not unique across all folders.")).

(** [addFileToTree]. The tree node and the set of file names are mutated
    in place by the source; here the updated pair is returned. *)
Equations? addFileToTree (treeNode : TreeNode) (file : MarkdownFile)
    (relativePath : string) (fileNames : gset string)
  : Res (TreeNode * gset string) by wf (String.length relativePath) lt :=
  addFileToTree (TNode name children nodeFile) file relativePath fileNames
    with inspect (Path.split1 path_sep relativePath) := {
    | exist _ (folderName, []) Hsplit =>
        if bool_decide (md_fileName file ∈ fileNames)
        then Threw (notUnique (md_fileName file))
        else
          match convertMDtoADF file with
          | inl e => Threw e
          | inr adfFile =>
              Returned
                (TNode name
                   (children ++ [TNode folderName [] (Some adfFile)])
                   nodeFile,
                 {[md_fileName file]} ∪ fileNames)
          end
    | exist _ (folderName, next :: more) Hsplit =>
        let remainingPath := next :: more in
        let found :=
          find_first (fun node => String.eqb (tn_name node) folderName)
            children in
        let childNode :=
          match found with
          | Some (_, node) => node
          | None => createTreeNode folderName
          end in
        match addFileToTree childNode file
                (Path.join path_sep remainingPath) fileNames with
        | Returned (childNode', fileNames') =>
            Returned
              (TNode name
                 (match found with
                  | Some (i, _) => <[i := childNode']> children
                  | None => children ++ [childNode']
                  end)
                 nodeFile,
               fileNames')
        | Threw e => Threw e
        | Diverged => Diverged
        end
    }.
Proof.
  exact (split1_rest_shorter _ _ _ _ Hsplit ltac:(done)).
Qed.

(** The placeholder document of a folder without an index document. *)
Definition folderPlaceholder (commonPath name : string) : AdfFile :=
  {| folderName := name;
     absoluteFilePath := path_join commonPath name;
     fileName := name +:+ ".md";
     contents := FolderFile;
     pageTitle := name;
     frontmatter := [];
     tags := [];
     pageId := None;
     dontChangeParentPageId := false;
     spaceKey := None |}.

(** [processNode]: a node without a document takes the document of its
    first child named like it (that child leaves the children), or else a
    placeholder; then every remaining child is processed. *)
Fixpoint processNode (commonPath : string) (node : TreeNode) : TreeNode :=
  match node with
  | TNode name children nodeFile =>
      let indexFile :=
        match nodeFile with
        | Some _ => None
        | None =>
            find_first
              (fun child => String.eqb (path_parse_name (tn_name child)) name)
              children
        end in
      let nodeFile' :=
        match nodeFile with
        | Some f => Some f
        | None =>
            match indexFile with
            | Some (_, child) => tn_file child
            | None => Some (folderPlaceholder commonPath name)
            end
        end in
      TNode name
        ((fix each (l : list TreeNode) (promoted : option nat) : list TreeNode :=
            match l with
            | [] => []
            | child :: l' =>
                match promoted with
                | Some O => each l' None
                | Some (S k) => processNode commonPath child :: each l' (Some k)
                | None => processNode commonPath child :: each l' None
                end
            end) children (fst <$> indexFile))
        nodeFile'
  end.

(** The callback of [markdownFiles.forEach] in [createFolderStructure];
    the root node and the set of names are what it mutates. *)
Definition insertFile (commonPath : string)
    (acc : TreeNode * gset string) (file : MarkdownFile)
  : Res (TreeNode * gset string) :=
  let relativePath := path_relative commonPath (md_absoluteFilePath file) in
  addFileToTree (fst acc) file relativePath (snd acc).

(** [createFolderStructure] *)
Definition createFolderStructure (markdownFiles : list MarkdownFile)
  : Res TreeNode :=
  and_then (findCommonPath path_sep (md_absoluteFilePath <$> markdownFiles))
    (fun commonPath =>
  and_then
    (forEach markdownFiles (createTreeNode commonPath, (∅ : gset string))
       (insertFile commonPath))
    (fun built => Returned (processNode commonPath (fst built)))).

End TreeBuilder.

(** ** Diagram file names and JavaScript sets *)

Definition missingChart : string :=
  "flowchart LR" +:+ String "010" "id1[Missing Chart]".

Section Mermaid.

Context `{Platform}.

(** [getMermaidFileName]: [??] replaces [undefined] only. *)
Definition getMermaidFileName (mermaidContent : option string)
  : string * string :=
  let mermaidText := default missingChart mermaidContent in
  let pathMd5 := md5 mermaidText in
  let uploadFilename := "RenderedMermaidChart-" +:+ pathMd5 +:+ ".png" in
  (uploadFilename, mermaidText).

End Mermaid.

(** [new Set(xs).values()] for values compared by content (strings,
    [undefined]): the first occurrence of each value, in order. *)
Fixpoint Set_values {A} `{EqDecision A} (seen : list A) (xs : list A) : list A :=
  match xs with
  | [] => []
  | x :: rest =>
      if bool_decide (x ∈ seen) then Set_values seen rest
      else x :: Set_values (x :: seen) rest
  end.

(** Objects are compared by identity. An object literal evaluated in a
    [map] callback is a new object each time: [allocate] gives the objects
    of one [map] call their addresses, and a set of objects keeps the first
    occurrence of each address. *)
Definition allocate {A} (xs : list A) : list (nat * A) :=
  imap (fun address x => (address, x)) xs.

Fixpoint Set_values_by_identity {A} (seen : list nat) (xs : list (nat * A))
  : list (nat * A) :=
  match xs with
  | [] => []
  | (address, x) :: rest =>
      if bool_decide (address ∈ seen) then Set_values_by_identity seen rest
      else (address, x) :: Set_values_by_identity (address :: seen) rest
  end.

(** ** The Publisher *)

Record Settings : Type := mkSettings {
  confluenceBaseUrl : string;
  confluenceParentId : string
}.

(** What [ensurePageExists] returns. *)
Record PageDetails : Type := mkPageDetails {
  pd_id : string;
  pd_title : string;
  pd_version : Z;
  pd_existingAdf : option string;
  pd_spaceKey : string
}.

#[global] Instance AttrVal_eq_dec : EqDecision AttrVal.
Proof. solve_decision. Defined.

(** [flattenTree]: a node is listed when the parent page id it was reached
    with is truthy; its children are reached with the node's own page id. *)
Fixpoint flattenTree (node : ConfluenceTreeNode) (parentPageId : option string)
  : list ConfluenceNode :=
  match node with
  | CTNode file version existingAdf children =>
      (if truthy parentPageId
       then [mkConfluenceNode file version existingAdf (interpolate parentPageId)]
       else []) ++
      (fix each (l : list ConfluenceTreeNode) : list ConfluenceNode :=
         match l with
         | [] => []
         | child :: l' => flattenTree child (pageId file) ++ each l'
         end) children
  end.

Definition outsidePageTree (pageTitle : string) : Exn :=
  Error (pageTitle +:+
    " is trying to overwrite a page outside the page tree from the selected top page").

(** [currentPage.ancestors?.some((ancestor) => ancestor.id == topPageId)];
    a missing chain gives [undefined], which is falsy. *)
Definition ancestorsInclude (topPageId : string) (page : Page) : bool :=
  match page_ancestors page with
  | Some ancestors => existsb (fun ancestor => String.eqb ancestor topPageId) ancestors
  | None => false
  end.

(** [currentAttachments[uploadFilename]] when it is there with
    [filehash === currentFileMd5]. *)
Definition sameAttachment (currentAttachments : gmap string CurrentAttachment)
    (uploadFilename currentFileMd5 : string) : option CurrentAttachment :=
  match currentAttachments !! uploadFilename with
  | Some a =>
      if bool_decide (filehash a = Some currentFileMd5) then Some a else None
  | None => None
  end.

Section Publisher.

Context `{Platform} {W : Type} `{Collaborators W}.
Variable settings : Settings.

Local Open Scope js_scope.

(** [ensurePageExists] *)
Definition ensurePageExists (file : AdfFile)
    (spaceKey parentPageId topPageId : string) : M W PageDetails :=
  if truthy (pageId file) then
    let id := interpolate (pageId file) in
    let* contentById := call (GetContentById id) (on_getContentById id) in
    if negb (truthy (page_space contentById)) then
      throw (Error "Missing Space Key")
    else
      ret {| pd_id := page_id contentById;
             pd_title := pageTitle file;
             pd_version := default 1%Z (page_version contentById);
             pd_existingAdf := page_body contentById;
             pd_spaceKey := interpolate (page_space contentById) |}
  else
    let* contentByTitle :=
      call (GetContent spaceKey (pageTitle file))
           (on_getContent spaceKey (pageTitle file)) in
    if bool_decide (0 < sr_size contentByTitle)%Z then
      match sr_results contentByTitle with
      | [] =>
          throw (TypeError
            "Cannot read properties of undefined (reading 'ancestors')")
      | currentPage :: _ =>
          if negb (ancestorsInclude topPageId currentPage) then
            throw (outsidePageTree (pageTitle file))
          else
            do call (UpdateMarkdownPageId (absoluteFilePath file)
                       (page_id currentPage))
                    (on_updateMarkdownPageId (absoluteFilePath file)
                       (page_id currentPage)) then
            ret {| pd_id := page_id currentPage;
                   pd_title := pageTitle file;
                   pd_version := default 1%Z (page_version currentPage);
                   pd_existingAdf := page_body currentPage;
                   pd_spaceKey := spaceKey |}
      end
    else
      let* pageDetails :=
        call (CreateContent spaceKey parentPageId (pageTitle file) blankPageAdf)
             (on_createContent spaceKey parentPageId (pageTitle file)
                blankPageAdf) in
      do call (UpdateMarkdownPageId (absoluteFilePath file)
                 (page_id pageDetails))
              (on_updateMarkdownPageId (absoluteFilePath file)
                 (page_id pageDetails)) then
      ret {| pd_id := page_id pageDetails;
             pd_title := pageTitle file;
             pd_version := default 1%Z (page_version pageDetails);
             pd_existingAdf := page_body pageDetails;
             pd_spaceKey := spaceKey |}.

(** [createFileStructureInConfluence]: the node's document receives its
    page id and space key, then the children are reconciled under it
    ([Promise.all] over [node.children], under the schedule of
    [promise_all]: one child after the other, in order, up to the first
    rejection). *)
Fixpoint createFileStructureInConfluence (node : TreeNode)
    (spaceKey parentPageId topPageId : string) (createPage : bool)
  : M W ConfluenceTreeNode :=
  match node with
  | TNode _ children nodeFile =>
      match nodeFile with
      | None => throw (Error "Missing file on node")
      | Some file =>
          let* (file', version, existingAdf) :=
            (if createPage then
               let* pageDetails :=
                 ensurePageExists file spaceKey parentPageId topPageId in
               ret (with_page file (Some (pd_id pageDetails))
                      (Some (pd_spaceKey pageDetails)),
                    pd_version pageDetails,
                    pd_existingAdf pageDetails)
             else
               ret (with_page file (Some parentPageId) (Some spaceKey),
                    0%Z, Some EmptyString)) in
          match pageId file' with
          | None => throw (Error "Missing myPageId")
          | Some nonNullMyPageId =>
              let* childDetails :=
                (fix each (l : list TreeNode) : M W (list ConfluenceTreeNode) :=
                   match l with
                   | [] => ret []
                   | childNode :: l' =>
                       let* r := createFileStructureInConfluence childNode
                                   spaceKey nonNullMyPageId topPageId true in
                       let* rs := each l' in
                       ret (r :: rs)
                   end) children in
              ret (CTNode file' version (default EmptyString existingAdf)
                     childDetails)
          end
      end
  end.

(** The upload both [uploadBuffer] and [uploadFile] end with, and the
    identifiers read from [attachmentResponse.results[0]]. *)
Definition createAttachment (pageId uploadFilename currentFileMd5 : string)
    (file : Buffer) (contentType : option string)
    (filename : option string) : M W (option UploadedImageData) :=
  let* attachmentResponse :=
    call (CreateOrUpdateAttachments pageId uploadFilename currentFileMd5
            file contentType)
         (on_createOrUpdateAttachments pageId uploadFilename currentFileMd5
            file contentType) in
  match attachmentResponse with
  | [] =>
      throw (TypeError
        "Cannot read properties of undefined (reading 'extensions')")
  | uploaded :: _ =>
      ret (Some {| img_filename := filename;
                   img_id := up_fileId uploaded;
                   img_collection :=
                     "contentId-" +:+ up_containerId uploaded |})
  end.

(** [uploadBuffer] *)
Definition uploadBuffer (pageId uploadFilename : string) (fileBuffer : Buffer)
    (currentAttachments : gmap string CurrentAttachment)
  : M W (option UploadedImageData) :=
  let currentFileMd5 := md5_buffer fileBuffer in
  match sameAttachment currentAttachments uploadFilename currentFileMd5 with
  | Some existing =>
      ret (Some {| img_filename := Some uploadFilename;
                   img_id := attachmentId existing;
                   img_collection := collectionName existing |})
  | None =>
      createAttachment pageId uploadFilename currentFileMd5 fileBuffer
        (Some "image/png") (Some uploadFilename)
  end.

(** [uploadFile]: [null] when the adaptor cannot read the binary. *)
Definition uploadFile (pageId pageFilePath : string)
    (fileNameToUpload : option string)
    (currentAttachments : gmap string CurrentAttachment)
  : M W (option UploadedImageData) :=
  let* testing :=
    call (ReadBinary fileNameToUpload pageFilePath)
         (on_readBinary fileNameToUpload pageFilePath) in
  match testing with
  | Some binary =>
      let currentFileMd5 := md5_buffer (bin_contents binary) in
      let pathMd5 := md5 (bin_filePath binary) in
      let uploadFilename := pathMd5 +:+ "-" +:+ bin_filename binary in
      match sameAttachment currentAttachments uploadFilename currentFileMd5 with
      | Some existing =>
          ret (Some {| img_filename := fileNameToUpload;
                       img_id := attachmentId existing;
                       img_collection := collectionName existing |})
      | None =>
          createAttachment pageId uploadFilename currentFileMd5
            (bin_contents binary) None fileNameToUpload
      end
  | None => ret None
  end.

Definition isFileMedia (node : ADFEntity) : bool :=
  String.eqb (type node) "media" && Obj.is_str "type" "file" (attrsOrEmpty node).

Definition isMermaidBlock (node : ADFEntity) : bool :=
  String.eqb (type node) "codeBlock" &&
  Obj.is_str "language" "mermaid" (attrsOrEmpty node).

(** The [media] visitor of the body rewrite. A missing and a [null] entry
    of [imageMap] are both falsy, and the visitor then returns nothing. *)
Definition mediaVisitor (imageMap : gmap string (option UploadedImageData))
  : Visitor :=
  fun node =>
    if Obj.is_str "type" "file" (attrsOrEmpty node) then
      match imageMap !! propertyKey (attr "url" node) with
      | Some (Some mappedImage) =>
          Returned (Replace
            (Node (type node)
               (Some (Obj.delete "url"
                  (Obj.set "id" (AStr (img_id mappedImage))
                     (Obj.set "collection" (AStr (img_collection mappedImage))
                        (attrsOrEmpty node)))))
               (content node) (marks node) (text node)))
      | _ => Returned Keep
      end
    else Returned Keep.

(** The [codeBlock] visitor of the body rewrite. *)
Definition codeBlockVisitor (imageMap : gmap string (option UploadedImageData))
  : Visitor :=
  fun node =>
    if Obj.is_str "language" "mermaid" (attrsOrEmpty node) then
      let mermaidContent := firstText node in
      if negb (truthy mermaidContent) then Returned Keep
      else
        let mermaidFilename := getMermaidFileName mermaidContent in
        match imageMap !! fst mermaidFilename with
        | Some (Some mappedImage) =>
            Returned (Replace
              (Node "mediaSingle"
                 (Some (Obj.delete "language"
                    (Obj.set "layout" (AStr "center") (attrsOrEmpty node))))
                 (match content node with
                  | Some _ =>
                      Some [Node "media"
                              (Some [("type", AStr "file");
                                     ("collection",
                                      AStr (img_collection mappedImage));
                                     ("id", AStr (img_id mappedImage))])
                              None None None]
                  | None => None
                  end)
                 (marks node) (text node)))
        | _ => Returned Keep
        end
    else Returned Keep.

Definition rewriteVisitors (imageMap : gmap string (option UploadedImageData))
  : gmap string Visitor :=
  <["codeBlock" := codeBlockVisitor imageMap]>
    (<["media" := mediaVisitor imageMap]> ∅).

(** The charts handed to the renderer: one object per mermaid block, put
    in a [Set] and spread back into an array. *)
Definition mermaidNodesToUpload (mermaidNodes : list ADFEntity)
  : list ChartData :=
  snd <$>
    Set_values_by_identity []
      (allocate
         ((fun node =>
             let mermaidDetails := getMermaidFileName (firstText node) in
             {| chart_name := fst mermaidDetails;
                chart_data := snd mermaidDetails |}) <$> mermaidNodes)).

(** [currentAttachments]: the listing reduced into an object keyed by title. *)
Definition attachmentsByTitle (results : list Attachment)
  : gmap string CurrentAttachment :=
  fold_left
    (fun prev curr =>
       <[att_title curr :=
           {| filehash := att_comment curr;
              attachmentId := att_fileId curr;
              collectionName := att_collectionName curr |}]> prev)
    results ∅.

(** [uploadFiles] *)
Definition uploadFiles (pageId pageFilePath : string) (adr : ADFEntity)
  : M W (option ADFEntity) :=
  let mediaNodes := filter_adf isFileMedia adr in
  let mermaidNodes := filter_adf isMermaidBlock adr in
  let charts := mermaidNodesToUpload mermaidNodes in
  let* mermaidChartsAsImages :=
    call (CaptureMermaidCharts charts) (on_captureMermaidCharts charts) in
  let* currentUploadedAttachments :=
    call (GetAttachments pageId) (on_getAttachments pageId) in
  let currentAttachments := attachmentsByTitle currentUploadedAttachments in
  let imagesToUpload := Set_values [] (attr "url" <$> mediaNodes) in
  let* imageMap :=
    fold_of imagesToUpload (∅ : gmap string (option UploadedImageData))
      (fun imageMap imageUrl =>
         match imageUrl with
         | Some (AStr url) =>
             let filename := Path.splitOn "://" 0 EmptyString url !! 1 in
             let* uploadedContent :=
               uploadFile pageId pageFilePath filename currentAttachments in
             ret (<[url := uploadedContent]> imageMap)
         | _ => throw (TypeError "imageUrl.split is not a function")
         end) in
  let* imageMap :=
    fold_of mermaidChartsAsImages imageMap
      (fun imageMap mermaidImage =>
         let* uploadedContent :=
           uploadBuffer pageId (fst mermaidImage) (snd mermaidImage)
             currentAttachments in
         ret (<[fst mermaidImage := uploadedContent]> imageMap)) in
  lift (traverse (depth adr) adr (rewriteVisitors imageMap)).

(** [labels.includes(x)] and the labels still to add. *)
Definition includes (labels : list string) (x : string) : bool :=
  existsb (String.eqb x) labels.

Definition labelsToAdd (labels : list string) (results : list Label)
  : list string :=
  List.filter
    (fun newLabel =>
       negb (existsb (fun item => String.eqb (label_label item) newLabel) results))
    labels.

(** [updatePageContent]: [Some true] is the early [return true]. *)
Definition updatePageContent (pageId originFileAbsoluteFilePath : string)
    (adf : ADFEntity) (parentPageId : string) (pageVersionNumber : Z)
    (pageTitle currentContents : string) (labels : list string)
    (adfFile : AdfFile) : M W (option bool) :=
  let* updatedAdf := uploadFiles pageId originFileAbsoluteFilePath adf in
  let adr := JSON_stringify updatedAdf in
  if String.eqb currentContents adr then ret (Some true)
  else
    let updateContentDetails :=
      {| upd_id := pageId;
         upd_ancestors :=
           if dontChangeParentPageId adfFile then None else Some [parentPageId];
         upd_version := (pageVersionNumber + 1)%Z;
         upd_title := pageTitle;
         upd_body := adr |} in
    do call (UpdateContent updateContentDetails)
            (on_updateContent updateContentDetails) then
    let* currentLabels :=
      call (GetLabelsForContent pageId) (on_getLabelsForContent pageId) in
    do for_of (snd currentLabels)
         (fun existingLabel =>
            if negb (includes labels (label_label existingLabel)) then
              call (RemoveLabelFromContent pageId (label_name existingLabel))
                   (on_removeLabelFromContent pageId (label_name existingLabel))
            else ret tt) then
    let toAdd := labelsToAdd labels (snd currentLabels) in
    do (if bool_decide (0 < length toAdd) then
          call (AddLabelsToContent pageId toAdd)
               (on_addLabelsToContent pageId toAdd)
        else ret tt) then
    ret None.

(** [publishFile] *)
Definition publishFile (node : ConfluenceNode) : M W FilePublishResult :=
  try_catch
    (if negb (truthy (pageId (cn_file node))) then
       throw (Error "Missing Page ID")
     else
       do updatePageContent
            (interpolate (pageId (cn_file node)))
            (absoluteFilePath (cn_file node))
            (contents (cn_file node))
            (cn_parentPageId node)
            (cn_version node)
            (pageTitle (cn_file node))
            (cn_existingAdf node)
            (tags (cn_file node))
            (cn_file node) then
       ret {| successfulUpload := true;
              fpr_absoluteFilePath := absoluteFilePath (cn_file node);
              reason := None |})
    (fun e =>
       ret {| successfulUpload := false;
              fpr_absoluteFilePath := absoluteFilePath (cn_file node);
              reason := Some (stringifyObject e) |}).

(** The [text] visitor of [doPublish]. Only [node.marks[0]] is looked at.
    [fileToPageIdMap] is a plain object, but a looked-up name ends in
    [.md], so no inherited property can answer for a missing one.
    For a name that is not in the map the visitor calls
    [node.marks.remove(node.marks[0])]: [marks] is an array, arrays have no
    [remove] method and the module adds none, so the call throws. *)
Definition wikilinkVisitor (fileToPageIdMap : gmap string AdfFile) : Visitor :=
  fun node =>
    match marks node with
    | None => Returned Keep
    | Some [] =>
        Threw (TypeError "Cannot read properties of undefined (reading 'type')")
    | Some (mark0 :: otherMarks) =>
        if String.eqb (mark_type mark0) "link" then
          match mark_attrs mark0 with
          | None => Returned Keep
          | Some linkAttrs =>
              match Obj.get "href" linkAttrs with
              | Some (AStr href) =>
                  if String.prefix "wikilink" href then
                    match URL_parse href with
                    | None => Threw (TypeError "Invalid URL")
                    | Some (pathname, hash) =>
                        let pagename := pathname +:+ ".md" in
                        match fileToPageIdMap !! pagename with
                        | Some linkPage =>
                            let confluenceUrl :=
                              confluenceBaseUrl settings +:+ "/wiki/spaces/" +:+
                              interpolate (spaceKey linkPage) +:+ "/pages/" +:+
                              interpolate (pageId linkPage) +:+ hash in
                            if bool_decide (text node = Some pathname) then
                              Returned (Replace
                                (Node "inlineCard"
                                   (Some [("url", AStr confluenceUrl)])
                                   (content node) None None))
                            else
                              Returned (Replace
                                (Node (type node) (attrs node) (content node)
                                   (Some
                                      (mkMark (mark_type mark0)
                                         (Some (Obj.set "href"
                                            (AStr confluenceUrl) linkAttrs))
                                       :: otherMarks))
                                   (text node)))
                        | None =>
                            Threw (TypeError
                              "node.marks.remove is not a function")
                        end
                    end
                  else Returned Keep
              | _ => Returned Keep
              end
          end
        else Returned Keep
    end.

Definition linkVisitors (fileToPageIdMap : gmap string AdfFile)
  : gmap string Visitor :=
  <["text" := wikilinkVisitor fileToPageIdMap]> ∅.

(** The first [forEach] of [doPublish]. *)
Definition buildFileToPageIdMap (pages : list ConfluenceNode)
  : Res (gmap string AdfFile) :=
  forEach pages (∅ : gmap string AdfFile)
    (fun fileToPageIdMap node =>
       if negb (truthy (pageId (cn_file node))) then
         Threw (Error "Missing Page ID")
       else
         Returned (<[fileName (cn_file node) := cn_file node]> fileToPageIdMap)).

(** One round of the second [forEach]: the document's body is replaced by
    its traversal. The cast [as JSONDocNode] says the traversal did not
    answer [false]; no visitor here ever does, and the body is kept if it
    did. *)
Definition resolveLinks (fileToPageIdMap : gmap string AdfFile)
    (node : ConfluenceNode) : Res ConfluenceNode :=
  let body := contents (cn_file node) in
  and_then (traverse (depth body) body (linkVisitors fileToPageIdMap))
    (fun traversed =>
       Returned
         {| cn_file := with_contents (cn_file node) (default body traversed);
            cn_version := cn_version node;
            cn_existingAdf := cn_existingAdf node;
            cn_parentPageId := cn_parentPageId node |}).

Fixpoint resolveAllLinks (fileToPageIdMap : gmap string AdfFile)
    (pages : list ConfluenceNode) : Res (list ConfluenceNode) :=
  match pages with
  | [] => Returned []
  | node :: rest =>
      and_then (resolveLinks fileToPageIdMap node) (fun node' =>
      and_then (resolveAllLinks fileToPageIdMap rest) (fun rest' =>
      Returned (node' :: rest')))
  end.

(** The last [forEach] of [doPublish]: the outcome summary. *)
Definition tally (adrFiles : list FilePublishResult) : UploadResults :=
  fold_left
    (fun returnVal element =>
       if successfulUpload element then
         {| successfulUploads := (successfulUploads returnVal + 1)%Z;
            errorMessage := errorMessage returnVal;
            failedFiles := failedFiles returnVal |}
       else
         {| successfulUploads := successfulUploads returnVal;
            errorMessage := errorMessage returnVal;
            failedFiles :=
              failedFiles returnVal ++
              [{| ff_fileName := fpr_absoluteFilePath element;
                  ff_reason :=
                    default "No Reason Provided" (reason element) |}] |})
    adrFiles
    {| successfulUploads := 0; errorMessage := None; failedFiles := [] |}.

(** [doPublish] *)
Definition doPublish (publishFilter : option string) : M W UploadResults :=
  let* parentPage :=
    call (GetContentById (confluenceParentId settings))
         (on_getContentById (confluenceParentId settings)) in
  match page_space parentPage with
  | None => throw (Error "Missing Space Key")
  | Some spaceToPublishTo =>
      let* files :=
        call GetMarkdownFilesToUpload on_getMarkdownFilesToUpload in
      let* folderTree := lift (createFolderStructure files) in
      let* confluencePageTree :=
        createFileStructureInConfluence folderTree spaceToPublishTo
          (page_id parentPage) (page_id parentPage) false in
      let confluencePagesToPublish := flattenTree confluencePageTree None in
      let* fileToPageIdMap :=
        lift (buildFileToPageIdMap confluencePagesToPublish) in
      let* confluencePagesToPublish :=
        lift (resolveAllLinks fileToPageIdMap confluencePagesToPublish) in
      let confluencePagesToPublish :=
        if truthy publishFilter then
          List.filter
            (fun file =>
               bool_decide
                 (Some (absoluteFilePath (cn_file file)) = publishFilter))
            confluencePagesToPublish
        else confluencePagesToPublish in
      let* adrFiles := promise_all confluencePagesToPublish publishFile in
      ret (tally adrFiles)
  end.

End Publisher.

(** ** A small concrete platform and remote

    Enough of a platform and of a remote wiki to run the functions above on
    concrete documents. *)

Module Demo.

(** The remote side: stored pages, what a title search answers, one
    page's attachment listing, its labels, the documents the adaptor lists
    and the binaries it can read. *)
Record Remote : Type := mkRemote {
  r_pages : list Page;
  r_search : list Page;
  r_attachments : list Attachment;
  r_labels : list Label;
  r_files : list MarkdownFile;
  r_binaries : list (string * Binary)
}.

Fixpoint dropPrefix (n : nat) (s : string) : string :=
  match n, s with
  | S k, String _ s' => dropPrefix k s'
  | _, _ => s
  end.

(** The part of a string before the first occurrence of a character, and
    the part from that occurrence on. *)
Fixpoint breakAt (c : ascii) (s : string) : string * string :=
  match s with
  | EmptyString => (EmptyString, EmptyString)
  | String a s' =>
      if Ascii.eqb a c then (EmptyString, s)
      else let '(before, after) := breakAt c s' in (String a before, after)
  end.

Definition relative (from to : string) : string :=
  if String.prefix from to then dropPrefix (S (String.length from)) to else to.

Definition parseWikilink (href : string) : option (string * string) :=
  if String.prefix "wikilink:" href
  then Some (breakAt "#" (dropPrefix 9 href))
  else None.

(** A stand-in for [JSON.stringify]: types, texts and nesting. *)
Fixpoint show (n : ADFEntity) : string :=
  match n with
  | Node t _ c _ x =>
      t +:+ "(" +:+ default EmptyString x +:+
      match c with
      | Some cs =>
          (fix each (l : list ADFEntity) : string :=
             match l with
             | [] => EmptyString
             | y :: l' => show y +:+ ";" +:+ each l'
             end) cs
      | None => EmptyString
      end +:+ ")"
  end.

Definition paragraph (s : string) : ADFEntity :=
  Node "doc" None
    (Some [Node "paragraph" None
             (Some [Node "text" None None None (Some s)]) None None])
    None None.

Definition convert (file : MarkdownFile) : Exn + AdfFile :=
  inr {| folderName := md_folderName file;
         absoluteFilePath := md_absoluteFilePath file;
         fileName := md_fileName file;
         contents := paragraph (md_contents file);
         pageTitle := md_pageTitle file;
         frontmatter := md_frontmatter file;
         tags := md_tags file;
         pageId := None;
         dontChangeParentPageId := false;
         spaceKey := None |}.

Definition platform : Platform :=
  {| path_sep := "/";
     path_relative := relative;
     path_join := fun a b => a +:+ "/" +:+ b;
     path_parse_name := fun s => fst (breakAt "." s);
     md5 := fun s => s;
     md5_buffer := fun b => string_of_list_byte b;
     JSON_stringify := fun o =>
       match o with Some n => show n | None => "false" end;
     URL_parse := parseWikilink;
     stringifyObject := fun e =>
       match e with
       | Error m => "Error: " +:+ m
       | TypeError m => "TypeError: " +:+ m
       | Rejected m => m
       end;
     convertMDtoADF := convert;
     blankPageAdf := "doc(paragraph(text(Page not published yet);););)";
     FolderFile := paragraph "Folder" |}.

Definition collaborators : Collaborators Remote :=
  {| on_getContentById := fun id w =>
       (match List.find (fun pg => String.eqb (page_id pg) id) (r_pages w) with
        | Some pg => inr pg
        | None => inl "404"
        end, w);
     on_getContent := fun _ _ w =>
       (inr {| sr_size := Z.of_nat (length (r_search w));
               sr_results := r_search w |}, w);
     on_createContent := fun space parent title body w =>
       (inr {| page_id := "id-" +:+ title;
               page_space := Some space;
               page_version := Some 1%Z;
               page_body := Some body;
               page_ancestors := Some [parent] |}, w);
     on_updateContent := fun _ w => (inr tt, w);
     on_getLabelsForContent := fun _ w =>
       (inr (Z.of_nat (length (r_labels w)), r_labels w), w);
     on_removeLabelFromContent := fun _ _ w => (inr tt, w);
     on_addLabelsToContent := fun _ _ w => (inr tt, w);
     on_getAttachments := fun _ w => (inr (r_attachments w), w);
     on_createOrUpdateAttachments := fun id filename _ _ _ w =>
       (inr [{| up_fileId := "file-" +:+ filename; up_containerId := id |}], w);
     on_getMarkdownFilesToUpload := fun w => (inr (r_files w), w);
     on_readBinary := fun name _ w =>
       (inr (match name with
             | Some n =>
                 snd <$> List.find (fun e => String.eqb (fst e) n) (r_binaries w)
             | None => None
             end), w);
     on_updateMarkdownPageId := fun _ _ w => (inr tt, w);
     on_captureMermaidCharts := fun charts w =>
       (inr ((fun c => (chart_name c, list_byte_of_string (chart_data c)))
               <$> charts), w) |}.

Definition settings : Settings :=
  {| confluenceBaseUrl := "https://wiki.example"; confluenceParentId := "top" |}.

Definition emptyRemote : Remote :=
  {| r_pages := []; r_search := []; r_attachments := []; r_labels := [];
     r_files := []; r_binaries := [] |}.

Definition start (w : Remote) : State Remote := mkState w [].

(** A document not yet bound to a page, and the same document once bound. *)
Definition docA : AdfFile :=
  {| folderName := "docs";
     absoluteFilePath := "/vault/docs/a.md";
     fileName := "a.md";
     contents := paragraph "hello";
     pageTitle := "A";
     frontmatter := [];
     tags := ["t1"];
     pageId := None;
     dontChangeParentPageId := false;
     spaceKey := None |}.

Definition boundA : AdfFile := with_page docA (Some "id-A") (Some "SP").

Definition nodeA (existingAdf : string) : ConfluenceNode :=
  {| cn_file := boundA;
     cn_version := 3;
     cn_existingAdf := existingAdf;
     cn_parentPageId := "top" |}.

(** A page titled like [docA] that lives under another page tree. *)
Definition stray : Page :=
  {| page_id := "p9";
     page_space := Some "SP";
     page_version := Some 4%Z;
     page_body := Some "x";
     page_ancestors := Some ["elsewhere"] |}.

Definition remoteWithStray : Remote :=
  {| r_pages := []; r_search := [stray]; r_attachments := []; r_labels := [];
     r_files := []; r_binaries := [] |}.

(** Two documents in different folders with the same file name. *)
Definition mdDocs : MarkdownFile :=
  mkMarkdownFile "docs" "/vault/docs/a.md" "a.md" "hello" "A" [] [].
Definition mdNotes : MarkdownFile :=
  mkMarkdownFile "notes" "/vault/notes/a.md" "a.md" "world" "A2" [] [].

Definition doc (children : list ADFEntity) : ADFEntity :=
  Node "doc" None (Some children) None None.

(** A media node whose binary the adaptor cannot read. *)
Definition missingImage : ADFEntity :=
  Node "media"
    (Some [("type", AStr "file"); ("url", AStr "file://missing.png")])
    None None None.
Definition bodyWithMissingImage : ADFEntity :=
  doc [Node "mediaSingle" None (Some [missingImage]) None None].

(** Mermaid blocks: one without text, and two with the same text. *)
Definition emptyDiagram : ADFEntity :=
  Node "codeBlock" (Some [("language", AStr "mermaid")]) (Some []) None None.
Definition bodyWithEmptyDiagram : ADFEntity := doc [emptyDiagram].

Definition diagram : ADFEntity :=
  Node "codeBlock" (Some [("language", AStr "mermaid")])
    (Some [Node "text" None None None (Some "graph TD; A-->B")]) None None.
Definition bodyWithTwoDiagrams : ADFEntity := doc [diagram; diagram].

(** Text nodes linking to [a]: the link as only mark, and after a
    [strong] mark. *)
Definition wikilinkMark : Mark :=
  mkMark "link" (Some [("href", AStr "wikilink:a#intro")]).
Definition plainLink : ADFEntity :=
  Node "text" None None (Some [wikilinkMark]) (Some "a").
Definition boldLink : ADFEntity :=
  Node "text" None None (Some [mkMark "strong" None; wikilinkMark]) (Some "a").

Definition fileMap : gmap string AdfFile := {[ "a.md" := boundA ]}.

End Demo.

(** * Properties *)

(** ** The common path *)

Section CommonPathFacts.

Variable sep : ascii.

Lemma prefix_as_take {A} (q l : list A) :
  q `prefix_of` l -> q = take (length q) l.
Proof. intros [k ->]. by rewrite take_app_length. Qed.

(** [r] is the longest list that is a prefix of both [a] and [b]. *)
Definition longest_common (r a b : list string) : Prop :=
  r `prefix_of` a /\ r `prefix_of` b /\
  forall q, q `prefix_of` a -> q `prefix_of` b -> q `prefix_of` r.

Lemma truncateAtDivergence_spec steps i pathParts common :
  length common <= steps + i ->
  i <= length common ->
  take i pathParts = take i common ->
  longest_common (truncateAtDivergence steps i pathParts common)
    common pathParts.
Proof.
  revert i. induction steps as [|k IH]; intros i Hsteps Hi Hagree.
  - simpl. assert (i = length common) as -> by lia.
    rewrite firstn_all in Hagree. repeat split; [done | | done].
    rewrite <- Hagree. apply prefix_take.
  - simpl. case_bool_decide as Hlt.
    + case_bool_decide as Heq.
      * apply IH; [lia | lia |].
        destruct (lookup_lt_is_Some_2 common i Hlt) as [x Hx].
        rewrite (take_S_r common i x Hx).
        rewrite (take_S_r pathParts i x) by congruence.
        by rewrite Hagree.
      * repeat split; [apply prefix_take | rewrite <- Hagree; apply prefix_take |].
        intros q Hqc Hqp.
        destruct (decide (length q <= i)) as [Hle|Hgt].
        -- assert (q = take (length q) (take i common)) as ->.
           { rewrite take_take, Nat.min_l by lia. by apply prefix_as_take. }
           apply prefix_take.
        -- exfalso. apply Heq.
           rewrite <- (prefix_lookup_lt q pathParts i) by (lia || done).
           rewrite <- (prefix_lookup_lt q common i) by (lia || done).
           done.
    + assert (i = length common) as -> by lia.
      rewrite firstn_all in Hagree. repeat split; [done | | done].
      rewrite <- Hagree. apply prefix_take.
Qed.

(** Being a prefix of the components of every path of a list. *)
Definition shared_prefix (parts : list string) (paths : list string) : Prop :=
  forall p, p ∈ paths -> parts `prefix_of` Path.split sep p.

Definition longest_shared_prefix (parts : list string) (paths : list string)
  : Prop :=
  shared_prefix parts paths /\
  forall parts', shared_prefix parts' paths -> parts' `prefix_of` parts.

Lemma fold_longest_shared_prefix rest seen acc :
  longest_shared_prefix acc seen ->
  longest_shared_prefix
    (fold_left
       (fun commonPathParts filePath =>
          truncateAtDivergence (length commonPathParts) 0
            (Path.split sep filePath) commonPathParts)
       rest acc)
    (seen ++ rest).
Proof.
  revert seen acc. induction rest as [|p rest IH]; intros seen acc Hacc.
  - by rewrite app_nil_r.
  - simpl. replace (seen ++ p :: rest) with ((seen ++ [p]) ++ rest)
      by (by rewrite <- app_assoc).
    apply IH. destruct Hacc as [Hshared Hmax].
    destruct (truncateAtDivergence_spec (length acc) 0 (Path.split sep p) acc)
      as (Hr1 & Hr2 & Hr3); [lia | lia | done |].
    split.
    + intros q [Hq | Hq%list_elem_of_singleton]%elem_of_app.
      * etrans; [exact Hr1 | by apply Hshared].
      * by subst q.
    + intros parts' Hparts'. apply Hr3.
      * apply Hmax. intros q Hq. apply Hparts', elem_of_app. by left.
      * apply Hparts', elem_of_app. right. by apply list_elem_of_singleton.
Qed.

Lemma findCommonPathParts_longest firstPath rest :
  longest_shared_prefix (findCommonPathParts sep firstPath rest)
    (firstPath :: rest).
Proof.
  apply (fold_longest_shared_prefix rest [firstPath]).
  split.
  - by intros p ->%list_elem_of_singleton.
  - intros parts' Hparts'. apply Hparts'. by apply list_elem_of_singleton.
Qed.

End CommonPathFacts.

(** A document's parent directory: its path without the last component. *)
Definition parentDirectory (sep : ascii) (p : string) : string :=
  Path.join sep (removelast (Path.split sep p)).

Lemma findCommonPath_single sep p :
  findCommonPath sep [p] = Returned p.
Proof.
  unfold findCommonPath, findCommonPathParts. simpl. by rewrite split1_join.
Qed.

(** C3, as amended: for every non-empty list of document paths,
    [findCommonPath] returns the components, joined by the separator, of the
    longest prefix shared componentwise by all the paths; for a
    single-document input that is the document's own full path, not its
    parent directory. *)
Theorem findCommonPath_longest_shared_prefix sep (paths : list string) :
  paths <> [] ->
  exists parts,
    findCommonPath sep paths = Returned (Path.join sep parts) /\
    longest_shared_prefix sep parts paths /\
    (forall p, paths = [p] -> findCommonPath sep paths = Returned p).
Proof.
  intros Hne. destruct paths as [|firstPath rest]; [done|].
  exists (findCommonPathParts sep firstPath rest). split; [done|]. split.
  - apply findCommonPathParts_longest.
  - intros p [= -> ->]. apply findCommonPath_single.
Qed.

Lemma findCommonPath_longest_shared_prefix_witness :
  ["/vault/docs/a.md"; "/vault/notes/b.md"] <> [] /\
  exists parts,
    findCommonPath "/" ["/vault/docs/a.md"; "/vault/notes/b.md"]
      = Returned (Path.join "/" parts) /\
    longest_shared_prefix "/" parts ["/vault/docs/a.md"; "/vault/notes/b.md"] /\
    (forall p, ["/vault/docs/a.md"; "/vault/notes/b.md"] = [p] ->
       findCommonPath "/" ["/vault/docs/a.md"; "/vault/notes/b.md"] = Returned p).
Proof.
  split; [done|].
  apply (findCommonPath_longest_shared_prefix "/"
           ["/vault/docs/a.md"; "/vault/notes/b.md"]).
  done.
Defined.

(** C3, as stated, fails: the common path of the single document
    [/vault/docs/a.md] is [/vault/docs/a.md], while its parent directory is
    [/vault/docs]. *)
Lemma findCommonPath_single_not_parent :
  findCommonPath "/" ["/vault/docs/a.md"] = Returned "/vault/docs/a.md" /\
  parentDirectory "/" "/vault/docs/a.md" = "/vault/docs" /\
  ~ (forall p, findCommonPath "/" [p] = Returned (parentDirectory "/" p)).
Proof.
  split; [reflexivity|]. split; [reflexivity|].
  intros Hall. specialize (Hall "/vault/docs/a.md"). discriminate Hall.
Qed.

(** ** Uniqueness of file names in the folder tree *)

Section TreeBuilderFacts.

Context `{Platform}.

(** How one insertion ends: with the uniqueness error when the name was
    seen before; otherwise with the converter's error, or with the name
    added to the set. It never runs on. *)
Inductive insertion (file : MarkdownFile) (fileNames : gset string)
  : Res (TreeNode * gset string) -> Prop :=
| insertion_duplicate :
    md_fileName file ∈ fileNames ->
    insertion file fileNames (Threw (notUnique (md_fileName file)))
| insertion_unconverted e :
    md_fileName file ∉ fileNames ->
    convertMDtoADF file = inl e ->
    insertion file fileNames (Threw e)
| insertion_done treeNode' :
    md_fileName file ∉ fileNames ->
    insertion file fileNames
      (Returned (treeNode', {[md_fileName file]} ∪ fileNames)).

Lemma addFileToTree_insertion treeNode file relativePath fileNames :
  insertion file fileNames
    (addFileToTree treeNode file relativePath fileNames).
Proof.
  funelim (addFileToTree treeNode file relativePath fileNames).
  - case_bool_decide as Hin; [by constructor|].
    destruct (convertMDtoADF file) as [e|adfFile] eqn:Hconv.
    + by apply insertion_unconverted.
    + by apply insertion_done.
  - cbn zeta. clear Heqcall.
    match goal with
    | IH : insertion _ _ _ |- _ => destruct IH as [Hin | e Hin Hc | t' Hin]
    end.
    + by constructor.
    + by apply insertion_unconverted.
    + by apply insertion_done.
Qed.

(** The error a run of insertions may end with: the uniqueness error for
    one of the documents, or the converter's error for one of them. *)
Definition insertion_error (files : list MarkdownFile) (e : Exn) : Prop :=
  (exists d, d ∈ files /\ e = notUnique (md_fileName d)) \/
  (exists d, d ∈ files /\ convertMDtoADF d = inl e).

Lemma insertion_error_cons file files e :
  insertion_error files e -> insertion_error (file :: files) e.
Proof.
  intros [(d & Hd & ->) | (d & Hd & Hc)]; [left | right];
    exists d; (split; [by apply list_elem_of_further | done]).
Qed.

(** A name that repeats, or that the set holds already, stops the loop. *)
Lemma forEach_insertFile_rejects commonPath files :
  forall rootNode (fileNames : gset string) i f,
    files !! i = Some f ->
    (md_fileName f ∈ fileNames \/
     exists j g, j < i /\ files !! j = Some g /\
                 md_fileName g = md_fileName f) ->
    exists e,
      forEach files (rootNode, fileNames) (insertFile commonPath) = Threw e /\
      insertion_error files e.
Proof.
  induction files as [|file rest IH]; intros rootNode fileNames i f Hi Hdup;
    [done|].
  simpl. unfold insertFile at 1. simpl.
  destruct (addFileToTree_insertion rootNode file
              (path_relative commonPath (md_absoluteFilePath file)) fileNames)
    as [Hin | e Hin Hc | t' Hin].
  - eexists. split; [done|]. left. exists file. split; [apply list_elem_of_here | done].
  - exists e. split; [done|]. right. exists file. split; [apply list_elem_of_here | done].
  - simpl. destruct i as [|i].
    + simpl in Hi. injection Hi as ->.
      destruct Hdup as [Hdup | (j & g & Hj & _)]; [done | lia].
    + simpl in Hi.
      destruct (IH t' ({[md_fileName file]} ∪ fileNames) i f Hi) as (e & He & Hk).
      * destruct Hdup as [Hdup | (j & g & Hj & Hg & Hname)].
        -- left. set_solver.
        -- destruct j as [|j].
           ++ simpl in Hg. injection Hg as ->. left. set_solver.
           ++ right. exists j, g. repeat split; [lia | done | done].
      * exists e. split; [done|]. by apply insertion_error_cons.
Qed.

End TreeBuilderFacts.

(** C9: for every list of source documents in which two documents have the
    same derived file name, [createFolderStructure] throws (the uniqueness
    error of [addFileToTree], whose set of names is shared by the whole
    tree, unless the converter rejected a document first), so it returns no
    tree at all, and in particular none that holds both documents. *)
Theorem createFolderStructure_rejects_duplicate_names `{Platform}
    (files : list MarkdownFile) (i j : nat) (f g : MarkdownFile) :
  i < j ->
  files !! i = Some f ->
  files !! j = Some g ->
  md_fileName f = md_fileName g ->
  exists e,
    createFolderStructure files = Threw e /\
    insertion_error files e /\
    forall tree, createFolderStructure files <> Returned tree.
Proof.
  intros Hij Hf Hg Hname.
  destruct files as [|file rest]; [done|].
  set (commonPath :=
         Path.join path_sep
           (findCommonPathParts path_sep (md_absoluteFilePath file)
              (md_absoluteFilePath <$> rest))).
  change (createFolderStructure (file :: rest))
    with (and_then
            (forEach (file :: rest) (createTreeNode commonPath, ∅)
               (insertFile commonPath))
            (fun built => Returned (processNode commonPath (fst built)))).
  destruct (forEach_insertFile_rejects commonPath (file :: rest)
              (createTreeNode commonPath) ∅ j g Hg) as (e & He & Hk).
  { right. exists i, f. done. }
  rewrite He. exists e. done.
Qed.

(** ** Reconciliation: adopting a page found by title *)

Lemma ancestorsInclude_spec topPageId page :
  ancestorsInclude topPageId page = true <->
  exists ancestors,
    page_ancestors page = Some ancestors /\ topPageId ∈ ancestors.
Proof.
  unfold ancestorsInclude. destruct (page_ancestors page) as [ancestors|].
  - rewrite existsb_exists. split.
    + intros (a & Ha%list_elem_of_In & ->%String.eqb_eq). eauto.
    + intros (? & [= <-] & Hin). exists topPageId.
      split; [by apply list_elem_of_In | apply String.eqb_refl].
  - split; [done | by intros (? & ? & _)].
Qed.

(** C1: when the document carries no stored page identifier and the title
    search answers with a match, [ensurePageExists] throws its
    outside-the-page-tree error if and only if the ancestor chain of the
    matched page does not contain the top page identifier; when it does
    throw it, the search is the only call it has made, so nothing was
    written (no page id persisted, nothing created, nothing updated). *)
Theorem ensurePageExists_adopts_only_inside_page_tree
    `{Platform} {W : Type} `{Collaborators W}
    (file : AdfFile) (spaceKey parentPageId topPageId : string)
    (s : State W) (found : SearchResult) (w' : W)
    (currentPage : Page) (others : list Page) :
  truthy (pageId file) = false ->
  on_getContent spaceKey (pageTitle file) (world s) = (inr found, w') ->
  (0 < sr_size found)%Z ->
  sr_results found = currentPage :: others ->
  let outside :=
    ~ exists ancestors,
        page_ancestors currentPage = Some ancestors /\ topPageId ∈ ancestors in
  let run := ensurePageExists file spaceKey parentPageId topPageId s in
  (run.1 = Threw (outsidePageTree (pageTitle file)) <-> outside) /\
  (outside ->
   run.2 = mkState w' (trace s ++ [GetContent spaceKey (pageTitle file)]) /\
   List.filter is_write (trace run.2) = List.filter is_write (trace s)).
Proof.
  intros Hid Hsearch Hsize Hres outside run.
  assert (Hrun : run =
    if ancestorsInclude topPageId currentPage then
      (do call (UpdateMarkdownPageId (absoluteFilePath file) (page_id currentPage))
             (on_updateMarkdownPageId (absoluteFilePath file) (page_id currentPage))
       then ret {| pd_id := page_id currentPage;
                   pd_title := pageTitle file;
                   pd_version := default 1%Z (page_version currentPage);
                   pd_existingAdf := page_body currentPage;
                   pd_spaceKey := spaceKey |})%js
        (mkState w' (trace s ++ [GetContent spaceKey (pageTitle file)]))
    else (Threw (outsidePageTree (pageTitle file)),
          mkState w' (trace s ++ [GetContent spaceKey (pageTitle file)]))).
  { subst run. unfold ensurePageExists. rewrite Hid.
    unfold bind at 1. unfold call at 1. rewrite Hsearch.
    rewrite bool_decide_true by done. rewrite Hres.
    by destruct (ancestorsInclude topPageId currentPage). }
  pose proof (ancestorsInclude_spec topPageId currentPage) as Hspec.
  destruct (ancestorsInclude topPageId currentPage) eqn:Hanc.
  - assert (~ outside) as Hinside by (intros Hout; apply Hout, Hspec; done).
    split; [|done]. split; [|done].
    rewrite Hrun. unfold bind, call, ret. simpl.
    destruct (on_updateMarkdownPageId _ _ _) as [[payload|[]] w'']; simpl; done.
  - assert outside as Hout.
    { intros Hin. apply Hspec in Hin. done. }
    rewrite Hrun. simpl. split; [done|]. intros _. split; [done|].
    rewrite List.filter_app. simpl. by rewrite app_nil_r.
Qed.

(** ** Which calls a computation makes *)

Section Emits.

Context {W : Type}.

(** Every call [m] adds to the trace satisfies [P]. *)
Definition emits {A} (P : Event -> Prop) (m : M W A) : Prop :=
  forall s, exists new, trace (m s).2 = trace s ++ new /\ Forall P new.

Lemma emits_ret {A} P (a : A) : emits P (ret a).
Proof. intros s. exists []. by rewrite app_nil_r. Qed.

Lemma emits_throw {A} P e : emits P (@throw W A e).
Proof. intros s. exists []. by rewrite app_nil_r. Qed.

Lemma emits_lift {A} P (r : Res A) : emits P (@lift W A r).
Proof. intros s. exists []. by rewrite app_nil_r. Qed.

Lemma emits_call {A} (P : Event -> Prop) ev
    (handler : W -> (string + A) * W) :
  P ev -> emits P (call ev handler).
Proof.
  intros Hev s. exists [ev]. unfold call.
  destruct (handler (world s)) as [answer w']. simpl. by repeat constructor.
Qed.

Lemma emits_bind {A B} P (m : M W A) (k : A -> M W B) :
  emits P m -> (forall a, emits P (k a)) -> emits P (bind m k).
Proof.
  intros Hm Hk s. unfold bind. destruct (Hm s) as (new1 & Ht1 & Hn1).
  destruct (m s) as [[a|e|] s1]; simpl in *; [|by eauto..].
  destruct (Hk a s1) as (new2 & Ht2 & Hn2).
  exists (new1 ++ new2). rewrite Ht2, Ht1, app_assoc.
  split; [done | by apply Forall_app].
Qed.

Lemma emits_try_catch {A} P (m : M W A) (h : Exn -> M W A) :
  emits P m -> (forall e, emits P (h e)) -> emits P (try_catch m h).
Proof.
  intros Hm Hh s. unfold try_catch. destruct (Hm s) as (new1 & Ht1 & Hn1).
  destruct (m s) as [[a|e|] s1]; simpl in *; [by eauto| |by eauto].
  destruct (Hh e s1) as (new2 & Ht2 & Hn2).
  exists (new1 ++ new2). rewrite Ht2, Ht1, app_assoc.
  split; [done | by apply Forall_app].
Qed.

Lemma emits_for_of {A} P (xs : list A) (body : A -> M W unit) :
  (forall x, emits P (body x)) -> emits P (for_of xs body).
Proof.
  intros Hbody. induction xs as [|x xs IH]; simpl.
  - apply emits_ret.
  - apply emits_bind; [apply Hbody | by intros _].
Qed.

Lemma emits_fold_of {A B} P (xs : list A) (body : B -> A -> M W B) :
  (forall acc x, emits P (body acc x)) ->
  forall acc, emits P (fold_of xs acc body).
Proof.
  intros Hbody. induction xs as [|x xs IH]; intros acc; simpl.
  - apply emits_ret.
  - apply emits_bind; [apply Hbody | done].
Qed.

Lemma emits_promise_all {A B} P (xs : list A) (task : A -> M W B) :
  (forall x, emits P (task x)) -> emits P (promise_all xs task).
Proof.
  intros Htask. induction xs as [|x xs IH]; simpl.
  - apply emits_ret.
  - apply emits_bind; [apply Htask | intros r].
    apply emits_bind; [done | intros rs; apply emits_ret].
Qed.

(** Calls that all fail a test leave the calls that pass it as they were. *)
Lemma emits_filter {A} (P : Event -> Prop) (test : Event -> bool)
    (m : M W A) s :
  emits P m ->
  (forall ev, P ev -> test ev = false) ->
  List.filter test (trace (m s).2) = List.filter test (trace s).
Proof.
  intros Hm Htest. destruct (Hm s) as (new & -> & Hnew).
  rewrite List.filter_app.
  replace (List.filter test new) with (@nil Event); [by rewrite app_nil_r|].
  induction Hnew as [|ev new Hev _ IH]; [done|].
  simpl. by rewrite (Htest ev Hev).
Qed.

End Emits.

Create HintDb emits.
#[global] Hint Resolve emits_ret emits_throw emits_lift : emits.

(** The calls of the upload pipeline: rendering, the attachment listing,
    reading a binary, uploading an attachment. *)
Definition is_asset_call (ev : Event) : Prop :=
  match ev with
  | CaptureMermaidCharts _ | GetAttachments _ | ReadBinary _ _
  | CreateOrUpdateAttachments _ _ _ _ _ => True
  | _ => False
  end.

Section UploadCalls.

Context `{Platform} {W : Type} `{Collaborators W}.

Lemma emits_createAttachment pageId uploadFilename md5 file contentType filename :
  emits is_asset_call
    (createAttachment pageId uploadFilename md5 file contentType filename).
Proof.
  unfold createAttachment. apply emits_bind; [by apply emits_call|].
  intros [|uploaded rest]; auto with emits.
Qed.

Lemma emits_uploadBuffer pageId uploadFilename fileBuffer currentAttachments :
  emits is_asset_call
    (uploadBuffer pageId uploadFilename fileBuffer currentAttachments).
Proof.
  unfold uploadBuffer. destruct (sameAttachment _ _ _); auto with emits.
  apply emits_createAttachment.
Qed.

Lemma emits_uploadFile pageId pageFilePath fileNameToUpload currentAttachments :
  emits is_asset_call
    (uploadFile pageId pageFilePath fileNameToUpload currentAttachments).
Proof.
  unfold uploadFile. apply emits_bind; [by apply emits_call|].
  intros [binary|]; auto with emits.
  destruct (sameAttachment _ _ _); auto with emits.
  apply emits_createAttachment.
Qed.

Lemma emits_uploadFiles pageId pageFilePath adr :
  emits is_asset_call (uploadFiles pageId pageFilePath adr).
Proof.
  unfold uploadFiles.
  apply emits_bind; [by apply emits_call | intros images].
  apply emits_bind; [by apply emits_call | intros listing].
  apply emits_bind.
  { apply emits_fold_of. intros imageMap [[url|other]|]; auto with emits.
    apply emits_bind; [apply emits_uploadFile | auto with emits]. }
  intros imageMap. apply emits_bind; [|auto with emits].
  apply emits_fold_of. intros acc image.
  apply emits_bind; [apply emits_uploadBuffer | auto with emits].
Qed.

End UploadCalls.

(** ** The page content synchroniser *)

Definition is_label_event (ev : Event) : Prop := is_label_call ev = true.

Section Synchroniser.

Context `{Platform} {W : Type} `{Collaborators W}.

Lemma uploadFiles_no_update pageId pageFilePath adr (s : State W) :
  List.filter is_update (trace (uploadFiles pageId pageFilePath adr s).2)
    = List.filter is_update (trace s).
Proof.
  apply (emits_filter is_asset_call); [apply emits_uploadFiles|].
  by intros [].
Qed.

Lemma uploadFiles_no_label_call pageId pageFilePath adr (s : State W) :
  List.filter is_label_call (trace (uploadFiles pageId pageFilePath adr s).2)
    = List.filter is_label_call (trace s).
Proof.
  apply (emits_filter is_asset_call); [apply emits_uploadFiles|].
  by intros [].
Qed.

(** [updatePageContent] when the rewritten body serialises to the stored
    body: it returns [true] right after the upload pipeline. *)
Lemma updatePageContent_same pageId path adf parentPageId version pageTitle
    currentContents labels adfFile (s s1 : State W) updatedAdf :
  uploadFiles pageId path adf s = (Returned updatedAdf, s1) ->
  JSON_stringify updatedAdf = currentContents ->
  updatePageContent pageId path adf parentPageId version pageTitle
    currentContents labels adfFile s = (Returned (Some true), s1).
Proof.
  intros Hup Hsame. unfold updatePageContent, bind. rewrite Hup.
  by rewrite Hsame, String.eqb_refl.
Qed.

(** The pages of a run whose bodies are all unchanged: each page has its
    page id, and when its turn comes the upload pipeline returns a body
    that serialises to the body stored remotely. *)
Fixpoint unchanged_run (pages : list ConfluenceNode) (s : State W) : Prop :=
  match pages with
  | [] => True
  | node :: rest =>
      truthy (pageId (cn_file node)) = true /\
      exists updatedAdf s1,
        uploadFiles (interpolate (pageId (cn_file node)))
          (absoluteFilePath (cn_file node)) (contents (cn_file node)) s
          = (Returned updatedAdf, s1) /\
        JSON_stringify updatedAdf = cn_existingAdf node /\
        unchanged_run rest s1
  end.

Definition published (node : ConfluenceNode) : FilePublishResult :=
  {| successfulUpload := true;
     fpr_absoluteFilePath := absoluteFilePath (cn_file node);
     reason := None |}.

Lemma unchanged_run_no_update pages : forall (s : State W),
  unchanged_run pages s ->
  let run := promise_all pages publishFile s in
  run.1 = Returned (published <$> pages) /\
  List.filter is_update (trace run.2) = List.filter is_update (trace s) /\
  List.filter is_label_call (trace run.2) = List.filter is_label_call (trace s).
Proof.
  induction pages as [|node rest IH]; intros s Hrun; [done|].
  destruct Hrun as (Hid & updatedAdf & s1 & Hup & Hsame & Hrest).
  specialize (IH s1 Hrest). simpl in IH. destruct IH as (IH1 & IH2 & IH3).
  pose proof (uploadFiles_no_update (interpolate (pageId (cn_file node)))
                (absoluteFilePath (cn_file node)) (contents (cn_file node)) s)
    as Hu.
  pose proof (uploadFiles_no_label_call (interpolate (pageId (cn_file node)))
                (absoluteFilePath (cn_file node)) (contents (cn_file node)) s)
    as Hl.
  rewrite Hup in Hu, Hl. simpl in Hu, Hl.
  assert (publishFile node s = (Returned (published node), s1)) as Hpub.
  { unfold publishFile, try_catch. rewrite Hid. simpl. unfold bind at 1.
    by rewrite (updatePageContent_same _ _ _ _ _ _ _ _ _ s s1 updatedAdf Hup Hsame). }
  assert (promise_all (node :: rest) publishFile s =
          match promise_all rest publishFile s1 with
          | (Returned rs, s2) => (Returned (published node :: rs), s2)
          | (Threw e, s2) => (Threw e, s2)
          | (Diverged, s2) => (Diverged, s2)
          end) as ->.
  { cbn [promise_all]. unfold bind at 1. rewrite Hpub. unfold bind.
    by destruct (promise_all rest publishFile s1) as [[rs|e|] s2]. }
  destruct (promise_all rest publishFile s1) as [[rs|e|] s2]; simpl in *;
    try done.
  injection IH1 as ->. by rewrite IH2, IH3, Hu, Hl.
Qed.

End Synchroniser.

(** C2: when the serialised asset-resolved body is equal to the body
    fetched from the remote, [updatePageContent] returns right after the
    upload pipeline: it makes no update call (so no version is incremented)
    and no label call. Consequently a run over pages whose bodies are all
    unchanged publishes every page successfully with no update call and no
    label call at all. *)
Theorem updatePageContent_unchanged_is_noop
    `{Platform} {W : Type} `{Collaborators W}
    (pageId path : string) (adf : ADFEntity) (parentPageId : string)
    (version : Z) (pageTitle currentContents : string) (labels : list string)
    (adfFile : AdfFile) (s s1 : State W) (updatedAdf : option ADFEntity)
    (pages : list ConfluenceNode) (s0 : State W) :
  uploadFiles pageId path adf s = (Returned updatedAdf, s1) ->
  JSON_stringify updatedAdf = currentContents ->
  unchanged_run pages s0 ->
  let page :=
    updatePageContent pageId path adf parentPageId version pageTitle
      currentContents labels adfFile s in
  let run := promise_all pages publishFile s0 in
  (page = (Returned (Some true), s1) /\
   List.filter is_update (trace page.2) = List.filter is_update (trace s) /\
   List.filter is_label_call (trace page.2)
     = List.filter is_label_call (trace s)) /\
  (run.1 = Returned (published <$> pages) /\
   List.filter is_update (trace run.2) = List.filter is_update (trace s0) /\
   List.filter is_label_call (trace run.2)
     = List.filter is_label_call (trace s0)).
Proof.
  intros Hup Hsame Hrun page run. split.
  - subst page.
    rewrite (updatePageContent_same _ _ _ _ _ _ _ _ _ s s1 updatedAdf Hup Hsame).
    pose proof (uploadFiles_no_update pageId path adf s) as Hu.
    pose proof (uploadFiles_no_label_call pageId path adf s) as Hl.
    rewrite Hup in Hu, Hl. done.
  - by apply unchanged_run_no_update.
Qed.

(** C8: when the serialised new body differs from the stored remote body,
    [updatePageContent] issues exactly one update: its version is the old
    version plus one, its title the document title, its body the new
    serialised form, and its ancestors field is the parent page identifier
    alone, or is left out when the document's [dontChangeParentPageId] flag
    is set. *)
Theorem updatePageContent_changed_issues_one_update
    `{Platform} {W : Type} `{Collaborators W}
    (pageId path : string) (adf : ADFEntity) (parentPageId : string)
    (version : Z) (pageTitle currentContents : string) (labels : list string)
    (adfFile : AdfFile) (s s1 : State W) (updatedAdf : option ADFEntity) :
  uploadFiles pageId path adf s = (Returned updatedAdf, s1) ->
  JSON_stringify updatedAdf <> currentContents ->
  let run :=
    updatePageContent pageId path adf parentPageId version pageTitle
      currentContents labels adfFile s in
  let details :=
    {| upd_id := pageId;
       upd_ancestors :=
         if dontChangeParentPageId adfFile then None else Some [parentPageId];
       upd_version := (version + 1)%Z;
       upd_title := pageTitle;
       upd_body := JSON_stringify updatedAdf |} in
  List.filter is_update (trace run.2)
    = List.filter is_update (trace s) ++ [UpdateContent details].
Proof.
  intros Hup Hdiff run details.
  pose proof (uploadFiles_no_update pageId path adf s) as Hu.
  rewrite Hup in Hu. simpl in Hu.
  subst run. unfold updatePageContent. unfold bind at 1. rewrite Hup.
  rewrite (proj2 (String.eqb_neq _ _)) by congruence.
  fold details. unfold bind at 1. unfold call at 1.
  destruct (on_updateContent details (world s1)) as [[payload|[]] w1]; simpl.
  - by rewrite List.filter_app, Hu.
  - match goal with
    | |- context [trace (?m ?st).2] =>
        rewrite (emits_filter is_label_event is_update m st)
    end.
    + simpl. by rewrite List.filter_app, Hu.
    + apply emits_bind; [by apply emits_call | intros currentLabels].
      apply emits_bind.
      { apply emits_for_of. intros existingLabel.
        destruct (negb _); [by apply emits_call | auto with emits]. }
      intros _. apply emits_bind; [|auto with emits].
      case_bool_decide; [by apply emits_call | auto with emits].
    + by intros [].
Qed.

(** ** Traversals end *)

Lemma depth_content (n : ADFEntity) (cs : list ADFEntity) (c : ADFEntity) :
  content n = Some cs -> c ∈ cs -> depth c < depth n.
Proof.
  destruct n as [t a [cs'|] m x]; simpl; [|done].
  intros [= ->] Hc. apply Nat.lt_succ_r.
  induction Hc as [c cs|c c' cs _ IH]; simpl; lia.
Qed.

Lemma depth_positive (n : ADFEntity) : 0 < depth n.
Proof. destruct n; simpl; lia. Qed.

Lemma traverseContent_ends f (cs : list ADFEntity) :
  (forall c, c ∈ cs -> f c <> Diverged) ->
  traverseContent f cs <> Diverged.
Proof.
  induction cs as [|c cs IH]; intros Hf; simpl; [done|].
  pose proof (Hf c (list_elem_of_here _ _)) as Hc.
  destruct (f c) as [r|e|]; [|done..].
  assert (traverseContent f cs <> Diverged) as Hcs.
  { apply IH. intros c' Hc'. apply Hf. by apply list_elem_of_further. }
  by destruct (traverseContent f cs).
Qed.

(** Visitors that never answer with a deeper node than the one they were
    given, and never run on themselves. *)
Definition shrinking (visitors : gmap string Visitor) : Prop :=
  forall n visitor,
    visitorFor visitors n = Some visitor ->
    visitor n <> Diverged /\
    forall n', visitor n = Returned (Replace n') -> depth n' <= depth n.

(** With such visitors a budget of as many levels as the document has is
    enough. *)
Lemma traverseNode_ends visitors :
  shrinking visitors ->
  forall fuel n, depth n <= fuel -> traverseNode fuel visitors n <> Diverged.
Proof.
  intros Hshrink. induction fuel as [|fuel IH]; intros n Hdepth.
  - pose proof (depth_positive n). lia.
  - simpl.
    assert (exists r, (match visitorFor visitors n with
                       | Some visitor => visitor n
                       | None => Returned Keep
                       end) = r /\ r <> Diverged /\
                      forall n', r = Returned (Replace n') -> depth n' <= depth n)
      as (r & -> & Hr & Hdepth').
    { destruct (visitorFor visitors n) as [visitor|] eqn:Hv.
      - destruct (Hshrink n visitor Hv) as [? ?]. eauto.
      - eexists. split; [done|]. split; [done|]. by intros n' [=]. }
    destruct r as [[n'| |]|e|]; [| done | | done | done].
    + specialize (Hdepth' n' eq_refl).
      destruct (content n') as [cs|] eqn:Hcs; [|done].
      assert (traverseContent (traverseNode fuel visitors) cs <> Diverged) as Hc.
      { apply traverseContent_ends. intros c Hin. apply IH.
        pose proof (depth_content n' cs c Hcs Hin). lia. }
      by destruct (traverseContent (traverseNode fuel visitors) cs).
    + destruct (content n) as [cs|] eqn:Hcs; [|done].
      assert (traverseContent (traverseNode fuel visitors) cs <> Diverged) as Hc.
      { apply traverseContent_ends. intros c Hin. apply IH.
        pose proof (depth_content n cs c Hcs Hin). lia. }
      by destruct (traverseContent (traverseNode fuel visitors) cs).
Qed.

Section Ends.

Context {W : Type}.

(** [m] returns or throws from every state. *)
Definition ends {A} (m : M W A) : Prop := forall s, (m s).1 <> Diverged.

Lemma ends_ret {A} (a : A) : ends (@ret W A a).
Proof. by intros s. Qed.

Lemma ends_throw {A} e : ends (@throw W A e).
Proof. by intros s. Qed.

Lemma ends_lift {A} (r : Res A) : r <> Diverged -> ends (@lift W A r).
Proof. by intros Hr s. Qed.

Lemma ends_call {A} ev (handler : W -> (string + A) * W) :
  ends (call ev handler).
Proof.
  intros s. unfold call. by destruct (handler (world s)) as [[payload|a] w'].
Qed.

Lemma ends_bind {A B} (m : M W A) (k : A -> M W B) :
  ends m -> (forall a, ends (k a)) -> ends (bind m k).
Proof.
  intros Hm Hk s. unfold bind. specialize (Hm s).
  destruct (m s) as [[a|e|] s1]; simpl in *; [apply Hk | done | done].
Qed.

Lemma ends_try_catch {A} (m : M W A) (h : Exn -> M W A) :
  ends m -> (forall e, ends (h e)) -> ends (try_catch m h).
Proof.
  intros Hm Hh s. unfold try_catch. specialize (Hm s).
  destruct (m s) as [[a|e|] s1]; simpl in *; [done | apply Hh | done].
Qed.

Lemma ends_for_of {A} (xs : list A) (body : A -> M W unit) :
  (forall x, ends (body x)) -> ends (for_of xs body).
Proof.
  intros Hbody. induction xs as [|x xs IH]; simpl.
  - apply ends_ret.
  - apply ends_bind; [apply Hbody | by intros _].
Qed.

Lemma ends_fold_of {A B} (xs : list A) (body : B -> A -> M W B) :
  (forall acc x, ends (body acc x)) ->
  forall acc, ends (fold_of xs acc body).
Proof.
  intros Hbody. induction xs as [|x xs IH]; intros acc; simpl.
  - apply ends_ret.
  - apply ends_bind; [apply Hbody | done].
Qed.

End Ends.

Create HintDb ends.
#[global] Hint Resolve ends_ret ends_throw ends_call : ends.

Section RewriteEnds.

Context `{Platform} {W : Type} `{Collaborators W}.

Lemma visitorFor_rewriteVisitors imageMap n visitor :
  visitorFor (rewriteVisitors imageMap) n = Some visitor ->
  visitor = codeBlockVisitor imageMap \/ visitor = mediaVisitor imageMap.
Proof.
  unfold visitorFor, rewriteVisitors. intros Hv.
  destruct (decide (type n = "codeBlock")) as [Ht|Hcb].
  { rewrite Ht, lookup_insert_eq in Hv. left. congruence. }
  rewrite lookup_insert_ne in Hv by done.
  destruct (decide (type n = "media")) as [Ht|Hm].
  { rewrite Ht, lookup_insert_eq in Hv. right. congruence. }
  rewrite lookup_insert_ne, lookup_empty in Hv by done.
  by rewrite !lookup_insert_ne, lookup_empty in Hv.
Qed.

Lemma rewriteVisitors_shrinking imageMap :
  shrinking (rewriteVisitors imageMap).
Proof.
  intros n visitor [-> | ->]%visitorFor_rewriteVisitors.
  - unfold codeBlockVisitor. split.
    + repeat case_match; done.
    + intros n' Hn'. repeat case_match; try done.
      all: injection Hn' as <-.
      all: destruct n as [t a [[|c cs]|] m x]; simpl in *; try done.
      all: pose proof (depth_positive c); lia.
  - unfold mediaVisitor. split.
    + repeat case_match; done.
    + intros n' Hn'. repeat case_match; try done.
      injection Hn' as <-. by destruct n.
Qed.

Lemma ends_createAttachment pageId uploadFilename md5 file contentType filename :
  ends (createAttachment (W:=W) pageId uploadFilename md5 file contentType
          filename).
Proof.
  unfold createAttachment. apply ends_bind; [auto with ends|].
  intros [|uploaded rest]; auto with ends.
Qed.

Lemma ends_uploadFiles pageId pageFilePath adr :
  ends (uploadFiles (W:=W) pageId pageFilePath adr).
Proof.
  unfold uploadFiles.
  apply ends_bind; [auto with ends | intros images].
  apply ends_bind; [auto with ends | intros listing].
  apply ends_bind.
  { apply ends_fold_of. intros imageMap [[url|other]|]; auto with ends.
    apply ends_bind; [|auto with ends].
    unfold uploadFile. apply ends_bind; [auto with ends|].
    intros [binary|]; auto with ends.
    destruct (sameAttachment _ _ _); auto with ends.
    apply ends_createAttachment. }
  intros imageMap. apply ends_bind.
  { apply ends_fold_of. intros acc image.
    apply ends_bind; [|auto with ends].
    unfold uploadBuffer. destruct (sameAttachment _ _ _); auto with ends.
    apply ends_createAttachment. }
  intros imageMap'. apply ends_lift.
  apply traverseNode_ends; [apply rewriteVisitors_shrinking | done].
Qed.

Lemma ends_updatePageContent pageId path adf parentPageId version pageTitle
    currentContents labels adfFile :
  ends (updatePageContent (W:=W) pageId path adf parentPageId version
          pageTitle currentContents labels adfFile).
Proof.
  unfold updatePageContent.
  apply ends_bind; [apply ends_uploadFiles | intros updatedAdf].
  destruct (String.eqb _ _); [auto with ends|].
  apply ends_bind; [auto with ends | intros _].
  apply ends_bind; [auto with ends | intros currentLabels].
  apply ends_bind.
  { apply ends_for_of. intros existingLabel.
    destruct (negb _); auto with ends. }
  intros _. apply ends_bind; [|auto with ends].
  case_bool_decide; auto with ends.
Qed.

End RewriteEnds.

(** ** Failure isolation per page *)

Section Isolation.

Context `{Platform} {W : Type} `{Collaborators W}.

(** The record [publishFile] returns from its [catch] block. *)
Definition failed (node : ConfluenceNode) (e : Exn) : FilePublishResult :=
  {| successfulUpload := false;
     fpr_absoluteFilePath := absoluteFilePath (cn_file node);
     reason := Some (stringifyObject e) |}.

(** The call [publishFile] makes inside its [try] block. *)
Definition pageUpdate (node : ConfluenceNode) : M W (option bool) :=
  updatePageContent
    (interpolate (pageId (cn_file node)))
    (absoluteFilePath (cn_file node))
    (contents (cn_file node))
    (cn_parentPageId node)
    (cn_version node)
    (pageTitle (cn_file node))
    (cn_existingAdf node)
    (tags (cn_file node))
    (cn_file node).

Lemma publishFile_caught node (s s' : State W) e :
  truthy (pageId (cn_file node)) = true ->
  pageUpdate node s = (Threw e, s') ->
  publishFile node s = (Returned (failed node e), s').
Proof.
  intros Hid Hthrew. unfold publishFile, try_catch. rewrite Hid. simpl.
  unfold bind at 1. fold (pageUpdate node). by rewrite Hthrew.
Qed.

Lemma publishFile_returns node (s : State W) :
  exists result s',
    publishFile node s = (Returned result, s') /\
    (result = published node \/ exists e, result = failed node e).
Proof.
  unfold publishFile, try_catch.
  destruct (truthy (pageId (cn_file node))); simpl.
  - unfold bind at 1. fold (pageUpdate node).
    pose proof (ends_updatePageContent
                  (interpolate (pageId (cn_file node)))
                  (absoluteFilePath (cn_file node))
                  (contents (cn_file node))
                  (cn_parentPageId node)
                  (cn_version node)
                  (pageTitle (cn_file node))
                  (cn_existingAdf node)
                  (tags (cn_file node))
                  (cn_file node) s) as Hends.
    fold (pageUpdate node) in Hends.
    destruct (pageUpdate node s) as [[r|e|] s1]; simpl in *; [| |done].
    + eexists _, _. split; [done|]. by left.
    + eexists _, _. split; [done|]. right. by exists e.
  - eexists _, _. split; [done|]. right. by eexists.
Qed.

(** Every task of the publish phase returns a record for its own page. *)
Lemma promise_all_publishFile pages : forall (s : State W),
  exists results s',
    promise_all pages publishFile s = (Returned results, s') /\
    Forall2
      (fun node result =>
         result = published node \/ exists e, result = failed node e)
      pages results.
Proof.
  induction pages as [|node rest IH]; intros s.
  - exists [], s. split; [done | constructor].
  - destruct (publishFile_returns node s) as (r & s1 & Hr & Hkind).
    destruct (IH s1) as (rs & s2 & Hrs & Hall).
    exists (r :: rs), s2. split; [|by constructor].
    cbn [promise_all]. unfold bind at 1. rewrite Hr.
    unfold bind at 1. by rewrite Hrs.
Qed.

Definition failure (element : FilePublishResult) : FailedFile :=
  {| ff_fileName := fpr_absoluteFilePath element;
     ff_reason := default "No Reason Provided" (reason element) |}.

Lemma tally_counts (adrFiles : list FilePublishResult) :
  successfulUploads (tally adrFiles)
    = Z.of_nat (length (List.filter successfulUpload adrFiles)) /\
  failedFiles (tally adrFiles)
    = failure <$>
        List.filter (fun element => negb (successfulUpload element)) adrFiles.
Proof.
  unfold tally.
  set (step := fun (returnVal : UploadResults) (element : FilePublishResult) => _).
  assert (forall acc,
            successfulUploads (fold_left step adrFiles acc)
              = (successfulUploads acc
                 + Z.of_nat (length (List.filter successfulUpload adrFiles)))%Z /\
            failedFiles (fold_left step adrFiles acc)
              = failedFiles acc ++
                (failure <$>
                   List.filter (fun element => negb (successfulUpload element))
                     adrFiles)) as Hgen.
  { induction adrFiles as [|element rest IH]; intros acc; simpl.
    - split; [lia | by rewrite app_nil_r].
    - destruct (IH (step acc element)) as [IH1 IH2]. rewrite IH1, IH2.
      subst step. simpl. destruct (successfulUpload element); simpl.
      + split; [lia | done].
      + split; [lia | by rewrite <- app_assoc]. }
  destruct (Hgen {| successfulUploads := 0; errorMessage := None;
                    failedFiles := [] |}) as [H1 H2].
  rewrite H1, H2. done.
Qed.

End Isolation.


(** ** Wikilinks *)

(** A mark is an internal-scheme link annotation. *)
Definition isWikilinkMark (m : Mark) : Prop :=
  mark_type m = "link" /\
  exists linkAttrs href,
    mark_attrs m = Some linkAttrs /\
    Obj.get "href" linkAttrs = Some (AStr href) /\
    String.prefix "wikilink" href = true.

(** A text node that carries such an annotation among its marks. *)
Definition carriesWikilink (node : ADFEntity) : Prop :=
  type node = "text" /\
  exists ms m, marks node = Some ms /\ m ∈ ms /\ isWikilinkMark m.

Section Wikilinks.

Context `{Platform}.
Variable settings : Settings.

(** The remote address of a resolved document. *)
Definition confluenceUrl (linkPage : AdfFile) (hash : string) : string :=
  confluenceBaseUrl settings +:+ "/wiki/spaces/" +:+
  interpolate (spaceKey linkPage) +:+ "/pages/" +:+
  interpolate (pageId linkPage) +:+ hash.

(** The node the specification describes for a text node whose first mark
    is a wikilink to [pathname] with fragment [hash], when the document
    [linkPage] answers for that path: an inline card when the text is the
    path, the text with the link target rewritten otherwise. *)
Definition resolvedWikilink (node : ADFEntity) (otherMarks : list Mark)
    (linkAttrs : Attrs) (linkPage : AdfFile) (pathname hash : string)
  : ADFEntity :=
  if bool_decide (text node = Some pathname) then
    Node "inlineCard"
      (Some [("url", AStr (confluenceUrl linkPage hash))])
      None None None
  else
    Node "text" (attrs node) None
      (Some (mkMark "link"
               (Some (Obj.set "href"
                        (AStr (confluenceUrl linkPage hash)) linkAttrs))
             :: otherMarks))
      (text node).

(** The [text] visitor answers with a node of the same content, or with
    nothing, or throws; it never answers [false]. *)
Lemma wikilinkVisitor_cases fileToPageIdMap n :
  wikilinkVisitor settings fileToPageIdMap n = Returned Keep \/
  (exists e, wikilinkVisitor settings fileToPageIdMap n = Threw e) \/
  exists n', wikilinkVisitor settings fileToPageIdMap n = Returned (Replace n') /\
             content n' = content n.
Proof.
  unfold wikilinkVisitor.
  repeat case_match; try (by left); try (right; left; by eexists).
  all: right; right; eexists; split; done.
Qed.

Lemma visitorFor_linkVisitors fileToPageIdMap n visitor :
  visitorFor (linkVisitors settings fileToPageIdMap) n = Some visitor ->
  visitor = wikilinkVisitor settings fileToPageIdMap.
Proof.
  unfold visitorFor, linkVisitors. intros Hv.
  destruct (decide (type n = "text")) as [Ht|Ht].
  - rewrite Ht, lookup_insert_eq in Hv. congruence.
  - by rewrite !lookup_insert_ne, !lookup_empty in Hv.
Qed.

Lemma linkVisitors_shrinking fileToPageIdMap :
  shrinking (linkVisitors settings fileToPageIdMap).
Proof.
  intros n visitor ->%visitorFor_linkVisitors.
  destruct (wikilinkVisitor_cases fileToPageIdMap n)
    as [Hv | [[e Hv] | (n' & Hv & Hcontent)]]; rewrite Hv; split; try done.
  intros n'' [= <-]. destruct n, n'; simpl in *. by subst.
Qed.

(** Resolving the links of a document returns or throws, and the traversal
    it rests on never answers [false] for the document itself. *)
Lemma resolveLinks_ends fileToPageIdMap node :
  resolveLinks settings fileToPageIdMap node <> Diverged.
Proof.
  unfold resolveLinks, traverse.
  pose proof (traverseNode_ends _ (linkVisitors_shrinking fileToPageIdMap)
                (depth (contents (cn_file node))) (contents (cn_file node))
                (le_n _)) as Hends.
  by destruct (traverseNode _ _ _).
Qed.

Lemma traverse_links_not_false fileToPageIdMap fuel body :
  traverse fuel body (linkVisitors settings fileToPageIdMap) <> Returned None.
Proof.
  unfold traverse. destruct fuel as [|fuel]; [done|]. cbn [traverseNode].
  destruct (visitorFor _ body) as [visitor|] eqn:Hv.
  - apply visitorFor_linkVisitors in Hv as ->.
    destruct (wikilinkVisitor_cases fileToPageIdMap body)
      as [Hv | [[e Hv] | (n' & Hv & Hcontent)]]; rewrite Hv; [|done|].
    + destruct (content body); [|done].
      by destruct (traverseContent _ _).
    + destruct (content n'); [|done].
      by destruct (traverseContent _ _).
  - destruct (content body); [|done].
    by destruct (traverseContent _ _).
Qed.

End Wikilinks.

(** C7, as amended: for every text node whose first mark is a link
    annotation with an internal-scheme ([wikilink]) target that parses as a
    URL, when the derived file name (path plus [.md]) is in the file-name
    map: the link target becomes the URL made of the base URL, the resolved
    document's space key and page identifier and the original fragment, the
    marks that follow the link stay, and the whole node becomes an
    [inlineCard] for that URL when its text equals the path. Nothing is
    said of a file name that is not in the map: the visitor then calls
    [remove] on the array of marks. *)
Theorem wikilink_in_first_mark_is_resolved `{Platform} (settings : Settings)
    (fileToPageIdMap : gmap string AdfFile) (fuel : nat)
    (node : ADFEntity) (mark0 : Mark) (otherMarks : list Mark)
    (linkAttrs : Attrs) (href pathname hash : string) (linkPage : AdfFile) :
  type node = "text" ->
  content node = None ->
  marks node = Some (mark0 :: otherMarks) ->
  mark_type mark0 = "link" ->
  mark_attrs mark0 = Some linkAttrs ->
  Obj.get "href" linkAttrs = Some (AStr href) ->
  String.prefix "wikilink" href = true ->
  URL_parse href = Some (pathname, hash) ->
  fileToPageIdMap !! (pathname +:+ ".md") = Some linkPage ->
  traverse (S fuel) node (linkVisitors settings fileToPageIdMap)
    = Returned (Some (resolvedWikilink settings node otherMarks linkAttrs
                        linkPage pathname hash)).
Proof.
  intros Htype Hleaf Hmarks Hlink Hattrs Hhref Hscheme Hurl Hfound.
  unfold traverse. cbn [traverseNode].
  unfold visitorFor, linkVisitors. rewrite Htype, lookup_insert_eq.
  unfold wikilinkVisitor, resolvedWikilink.
  rewrite Hmarks, Hlink, Hattrs, Hhref, Hscheme, Hurl, Hfound, Htype. simpl.
  case_bool_decide; simpl; by rewrite ?Hleaf.
Qed.

(** ** The body rewrite *)

Section Rewrite.

Context `{Platform}.

Lemma traverseContent_all f (cs : list ADFEntity) :
  (forall c, c ∈ cs -> exists c', f c = Returned (Some c')) ->
  exists cs',
    traverseContent f cs = Returned cs' /\
    Forall2 (fun c c' => f c = Returned (Some c')) cs cs'.
Proof.
  induction cs as [|c cs IH]; intros Hf; simpl.
  - exists []. split; [done | constructor].
  - destruct (Hf c (list_elem_of_here _ _)) as [c' Hc'].
    destruct IH as (cs' & Hcs' & Hall).
    { intros x Hx. apply Hf. by apply list_elem_of_further. }
    exists (c' :: cs'). rewrite Hc', Hcs'. split; [done | by constructor].
Qed.

(** The visitors of the body rewrite never drop a node and never throw:
    the rewrite of a node always gives a node. *)
Lemma rewriteVisitors_visit imageMap n :
  exists r,
    match visitorFor (rewriteVisitors imageMap) n with
    | Some visitor => visitor n
    | None => Returned Keep
    end = Returned r /\
    match r with
    | Replace n' => depth n' <= depth n
    | Remove => False
    | Keep => True
    end.
Proof.
  destruct (visitorFor (rewriteVisitors imageMap) n) as [visitor|] eqn:Hv;
    [|by exists Keep].
  destruct (rewriteVisitors_shrinking imageMap n visitor Hv) as [_ Hdepth].
  apply visitorFor_rewriteVisitors in Hv as [-> | ->].
  - unfold codeBlockVisitor in *.
    repeat case_match; try (by exists Keep).
    all: eexists (Replace _); (split; [done|]); by apply Hdepth.
  - unfold mediaVisitor in *.
    repeat case_match; try (by exists Keep).
    all: eexists (Replace _); (split; [done|]); by apply Hdepth.
Qed.

Lemma rewrite_total imageMap :
  forall fuel n, depth n <= fuel ->
    exists n', traverseNode fuel (rewriteVisitors imageMap) n = Returned (Some n').
Proof.
  induction fuel as [|fuel IH]; intros n Hdepth.
  - pose proof (depth_positive n). lia.
  - cbn [traverseNode].
    destruct (rewriteVisitors_visit imageMap n) as (r & -> & Hr).
    destruct r as [n'| |]; [|done|].
    + destruct (content n') as [cs|] eqn:Hcs; [|by eexists].
      destruct (traverseContent_all (traverseNode fuel (rewriteVisitors imageMap)) cs)
        as (cs' & -> & _); [|by eexists].
      intros c Hc. apply IH. pose proof (depth_content n' cs c Hcs Hc). lia.
    + destruct (content n) as [cs|] eqn:Hcs; [|by eexists].
      destruct (traverseContent_all (traverseNode fuel (rewriteVisitors imageMap)) cs)
        as (cs' & -> & _); [|by eexists].
      intros c Hc. apply IH. pose proof (depth_content n cs c Hcs Hc). lia.
Qed.

(** A file media node whose reference has no usable entry in [imageMap]:
    the entry is [null] or missing. *)
Definition unresolvedFileMedia
    (imageMap : gmap string (option UploadedImageData)) (m : ADFEntity) : Prop :=
  type m = "media" /\
  Obj.is_str "type" "file" (attrsOrEmpty m) = true /\
  content m = None /\
  (imageMap !! propertyKey (attr "url" m) = Some None \/
   imageMap !! propertyKey (attr "url" m) = None).

(** [m] is [body] or lies below it, under nodes that are not code blocks
    (the rewrite replaces the content of a resolved diagram block). *)
Inductive occursIn (m : ADFEntity) : ADFEntity -> Prop :=
| occurs_here : occursIn m m
| occurs_below parent cs c :
    content parent = Some cs -> c ∈ cs -> type parent <> "codeBlock" ->
    occursIn m c -> occursIn m parent.

Lemma visitorFor_media imageMap n :
  type n = "media" ->
  visitorFor (rewriteVisitors imageMap) n = Some (mediaVisitor imageMap).
Proof.
  intros Ht. unfold visitorFor, rewriteVisitors.
  by rewrite Ht, lookup_insert_ne, lookup_insert_eq.
Qed.

Lemma visitorFor_codeBlock imageMap n :
  type n = "codeBlock" ->
  visitorFor (rewriteVisitors imageMap) n = Some (codeBlockVisitor imageMap).
Proof.
  intros Ht. unfold visitorFor, rewriteVisitors.
  by rewrite Ht, lookup_insert_eq.
Qed.

Lemma visitorFor_other imageMap n :
  type n <> "codeBlock" -> type n <> "media" ->
  visitorFor (rewriteVisitors imageMap) n = None.
Proof.
  intros Hc Hm. unfold visitorFor, rewriteVisitors.
  by rewrite !lookup_insert_ne, !lookup_empty.
Qed.

Lemma mediaVisitor_unresolved imageMap m :
  unresolvedFileMedia imageMap m -> mediaVisitor imageMap m = Returned Keep.
Proof.
  intros (_ & Hfile & _ & Hmap). unfold mediaVisitor. rewrite Hfile.
  by destruct Hmap as [-> | ->].
Qed.

Lemma rewrite_unresolved imageMap fuel m :
  unresolvedFileMedia imageMap m ->
  traverseNode (S fuel) (rewriteVisitors imageMap) m = Returned (Some m).
Proof.
  intros Hm. pose proof (mediaVisitor_unresolved imageMap m Hm) as Hkeep.
  destruct Hm as (Htype & _ & Hleaf & _).
  cbn [traverseNode]. rewrite (visitorFor_media imageMap m Htype).
  by rewrite Hkeep, Hleaf.
Qed.

Lemma mediaVisitor_cases imageMap n :
  mediaVisitor imageMap n = Returned Keep \/
  exists n', mediaVisitor imageMap n = Returned (Replace n') /\
             content n' = content n /\ type n' = type n.
Proof.
  unfold mediaVisitor. repeat case_match; try (by left).
  right. eexists. split; [done|]. done.
Qed.

(** Outside code blocks the rewrite keeps a node's type and rewrites its
    children one by one. *)
Lemma rewrite_parent imageMap fuel parent cs :
  content parent = Some cs ->
  type parent <> "codeBlock" ->
  depth parent <= S fuel ->
  exists parent' cs',
    traverseNode (S fuel) (rewriteVisitors imageMap) parent
      = Returned (Some parent') /\
    content parent' = Some cs' /\ type parent' = type parent /\
    Forall2
      (fun c c' =>
         traverseNode fuel (rewriteVisitors imageMap) c = Returned (Some c'))
      cs cs'.
Proof.
  intros Hcs Hnot Hdepth. cbn [traverseNode].
  assert (forall c, c ∈ cs ->
            exists c', traverseNode fuel (rewriteVisitors imageMap) c
                       = Returned (Some c')) as Hchildren.
  { intros c Hc. apply rewrite_total.
    pose proof (depth_content parent cs c Hcs Hc). lia. }
  destruct (traverseContent_all _ cs Hchildren) as (cs' & Hcs' & Hall).
  destruct (decide (type parent = "media")) as [Hmedia|Hmedia].
  - rewrite (visitorFor_media imageMap parent Hmedia).
    destruct (mediaVisitor_cases imageMap parent)
      as [-> | (n' & -> & Hcontent & Htype)].
    + rewrite Hcs, Hcs'. eexists _, cs'. split; [done|].
      destruct parent; simpl in *; done.
    + rewrite Hcontent, Hcs, Hcs'. eexists _, cs'. split; [done|].
      destruct n'; simpl in *; done.
  - rewrite (visitorFor_other imageMap parent Hnot Hmedia).
    rewrite Hcs, Hcs'. eexists _, cs'. split; [done|].
    destruct parent; simpl in *; done.
Qed.

Lemma rewrite_keeps_unresolved imageMap m body :
  unresolvedFileMedia imageMap m ->
  occursIn m body ->
  forall fuel, depth body <= fuel ->
    exists body',
      traverseNode fuel (rewriteVisitors imageMap) body = Returned (Some body') /\
      occursIn m body'.
Proof.
  intros Hm Hocc. induction Hocc as [|parent cs c Hcs Hc Hnot Hocc IH];
    intros fuel Hdepth.
  - destruct fuel as [|fuel]; [pose proof (depth_positive m); lia|].
    exists m. split; [by apply rewrite_unresolved | constructor].
  - destruct fuel as [|fuel]; [pose proof (depth_positive parent); lia|].
    destruct (rewrite_parent imageMap fuel parent cs Hcs Hnot Hdepth)
      as (parent' & cs' & Hparent' & Hcs' & Htype' & Hall).
    exists parent'. split; [done|].
    apply list_elem_of_lookup in Hc as [i Hi].
    destruct (Forall2_lookup_l _ _ _ _ _ Hall Hi) as (c' & Hi' & Hc').
    destruct (IH fuel) as (c'' & Hc'' & Hocc'').
    { pose proof (depth_content parent cs c Hcs
                    (proj2 (list_elem_of_lookup _ _) (ex_intro _ i Hi))). lia. }
    assert (c'' = c') as -> by congruence.
    eapply occurs_below; [exact Hcs' | | congruence | exact Hocc''].
    apply list_elem_of_lookup. eauto.
Qed.

End Rewrite.

(** C5, as amended: a binary the adaptor cannot read makes [uploadFile]
    return [null] without an error, and in the body rewrite every [file]
    media node whose reference has a [null] (or no) entry in the image map
    is left in place unchanged, with its external reference: the rewrite
    returns a body, and the node still occurs in it. *)
Theorem unresolved_file_media_is_left_in_place
    `{Platform} {W : Type} `{Collaborators W}
    (imageMap : gmap string (option UploadedImageData))
    (body m : ADFEntity) (fuel : nat)
    (pageId pageFilePath : string) (fileNameToUpload : option string)
    (currentAttachments : gmap string CurrentAttachment)
    (s : State W) (w' : W) :
  on_readBinary fileNameToUpload pageFilePath (world s) = (inr None, w') ->
  unresolvedFileMedia imageMap m ->
  occursIn m body ->
  depth body <= fuel ->
  uploadFile pageId pageFilePath fileNameToUpload currentAttachments s
    = (Returned None,
       mkState w' (trace s ++ [ReadBinary fileNameToUpload pageFilePath])) /\
  exists body',
    traverse fuel body (rewriteVisitors imageMap) = Returned (Some body') /\
    occursIn m body'.
Proof.
  intros Hread Hm Hocc Hdepth. split.
  - unfold uploadFile, bind, call. by rewrite Hread.
  - by apply rewrite_keeps_unresolved.
Qed.

(** ** Diagrams *)

Section Diagrams.

Context `{Platform} {W : Type} `{Collaborators W}.

Lemma Set_values_by_identity_fresh {A} (xs : list A) :
  forall (seen : list nat) (base : nat),
    (forall a, a ∈ seen -> a < base) ->
    Set_values_by_identity seen (imap (fun i x => (base + i, x)) xs)
      = imap (fun i x => (base + i, x)) xs.
Proof.
  induction xs as [|x xs IH]; intros seen base Hseen; [done|].
  rewrite imap_cons. cbn [Set_values_by_identity].
  case_bool_decide as Hin.
  - specialize (Hseen _ Hin). lia.
  - f_equal.
    rewrite (imap_ext _ (fun i y => (S base + i, y)))
      by (intros; unfold compose; f_equal; lia).
    apply IH. intros a [->|Ha]%elem_of_cons; [lia|].
    specialize (Hseen a Ha). lia.
Qed.

Lemma Set_values_by_identity_allocate {A} (xs : list A) :
  Set_values_by_identity [] (allocate xs) = allocate xs.
Proof.
  unfold allocate.
  rewrite (imap_ext _ (fun i y => (0 + i, y)) xs) by done.
  apply Set_values_by_identity_fresh. by intros a Ha%elem_of_nil.
Qed.

Lemma snd_allocate {A} (xs : list A) : (snd <$> allocate xs) = xs.
Proof.
  unfold allocate. rewrite fmap_imap.
  rewrite (imap_ext _ (fun _ y => y) xs) by done.
  induction xs as [|x xs IH]; [done|]. simpl. f_equal. exact IH.
Qed.

(** The charts of [uploadFiles]: the set holds one new object per mermaid
    block, so every block keeps an entry of its own. *)
Lemma mermaidNodesToUpload_one_per_block (mermaidNodes : list ADFEntity) :
  mermaidNodesToUpload mermaidNodes
    = (fun node =>
         {| chart_name := (getMermaidFileName (firstText node)).1;
            chart_data := (getMermaidFileName (firstText node)).2 |})
      <$> mermaidNodes.
Proof.
  unfold mermaidNodesToUpload.
  by rewrite Set_values_by_identity_allocate, snd_allocate.
Qed.

(** A finished loop has run its body on every element, and the calls of
    that round are part of the final trace. *)
Lemma fold_of_visits {A B} (P : Event -> Prop) (body : B -> A -> M W B)
    (xs : list A) (x : A) :
  (forall acc y, emits P (body acc y)) ->
  x ∈ xs ->
  forall acc (s s' : State W) r,
    fold_of xs acc body s = (Returned r, s') ->
    exists acc0 s0 acc1 s1 post,
      body acc0 x s0 = (Returned acc1, s1) /\
      trace s' = trace s1 ++ post.
Proof.
  intros Hbody Hx. induction Hx as [x xs | x y xs _ IH];
    intros acc s s' r Hrun; cbn [fold_of] in Hrun; unfold bind in Hrun.
  - destruct (body acc x s) as [[acc1|e|] s1] eqn:Hx; [|done..].
    destruct (emits_fold_of P xs body Hbody acc1 s1) as (post & Hpost & _).
    rewrite Hrun in Hpost. simpl in Hpost. by eexists acc, s, acc1, s1, post.
  - destruct (body acc y s) as [[acc1|e|] s1] eqn:Hy; [|done..].
    by apply (IH acc1 s1 s' r).
Qed.

(** [uploadBuffer] that returns without a matching attachment has issued
    the upload request under the given file name. *)
Lemma uploadBuffer_uploads pageId uploadFilename fileBuffer currentAttachments
    (s s' : State W) r :
  sameAttachment currentAttachments uploadFilename (md5_buffer fileBuffer)
    = None ->
  uploadBuffer pageId uploadFilename fileBuffer currentAttachments s
    = (Returned r, s') ->
  trace s' = trace s ++
    [CreateOrUpdateAttachments pageId uploadFilename (md5_buffer fileBuffer)
       fileBuffer (Some "image/png")].
Proof.
  intros Hnone. unfold uploadBuffer. rewrite Hnone.
  unfold createAttachment, bind, call.
  destruct (on_createOrUpdateAttachments _ _ _ _ _ _) as [[payload|[|u us]] w'];
    simpl; intros [= _ <-]; done.
Qed.

(** The calls of [uploadFiles] once the renderer and the listing have
    answered: every rendered image goes through [uploadBuffer]. *)
Lemma uploadFiles_uploads_rendered pageId pageFilePath body (s s' : State W)
    images w1 listing w2 name buf updatedAdf :
  on_captureMermaidCharts
    (mermaidNodesToUpload (filter_adf isMermaidBlock body)) (world s)
    = (inr images, w1) ->
  on_getAttachments pageId w1 = (inr listing, w2) ->
  (name, buf) ∈ images ->
  uploadFiles pageId pageFilePath body s = (Returned updatedAdf, s') ->
  sameAttachment (attachmentsByTitle listing) name (md5_buffer buf) = None ->
  CreateOrUpdateAttachments pageId name (md5_buffer buf) buf (Some "image/png")
    ∈ trace s'.
Proof.
  intros Hrender Hlist Hin Hrun Hnone. unfold uploadFiles in Hrun.
  unfold bind at 1 in Hrun. unfold call at 1 in Hrun. rewrite Hrender in Hrun.
  unfold bind at 1 in Hrun. unfold call at 1 in Hrun. simpl in Hrun.
  rewrite Hlist in Hrun.
  unfold bind at 1 in Hrun.
  match type of Hrun with
  | context [fold_of ?xs ?acc ?b ?st] =>
      destruct (fold_of xs acc b st) as [[imageMap|e|] s3]; [|done..]
  end.
  unfold bind at 1 in Hrun.
  match type of Hrun with
  | context [fold_of images imageMap ?b s3] =>
      destruct (fold_of images imageMap b s3) as [[imageMap'|e|] s4] eqn:Hfold;
        [|done..];
      destruct (fold_of_visits is_asset_call b images (name, buf)) with
        (acc := imageMap) (s := s3) (s' := s4) (r := imageMap')
        as (acc0 & s0 & acc1 & s1 & post & Hbody & Hpost); [| done | done |]
  end.
  { intros acc image. apply emits_bind; [apply emits_uploadBuffer|].
    auto with emits. }
  unfold lift in Hrun. injection Hrun as _ <-.
  unfold bind in Hbody. simpl in Hbody.
  destruct (uploadBuffer pageId name buf (attachmentsByTitle listing) s0)
    as [[u|e|] s1'] eqn:Hup; [|done..].
  injection Hbody as _ <-.
  rewrite Hpost, (uploadBuffer_uploads _ _ _ _ _ _ _ Hnone Hup).
  rewrite elem_of_app. left. rewrite elem_of_app. right.
  apply list_elem_of_singleton. done.
Qed.

(** The renderer is the first collaborator [uploadFiles] calls. *)
Lemma uploadFiles_asks_renderer pageId pageFilePath body (s : State W) :
  CaptureMermaidCharts
    (mermaidNodesToUpload (filter_adf isMermaidBlock body))
    ∈ trace (uploadFiles pageId pageFilePath body s).2.
Proof.
  unfold uploadFiles.
  match goal with
  | |- context [bind (call ?ev ?h) ?k] => set (afterRender := k)
  end.
  assert (forall images, emits is_asset_call (afterRender images)) as Hafter.
  { intros images. unfold afterRender.
    apply emits_bind; [by apply emits_call | intros listing].
    apply emits_bind.
    { apply emits_fold_of. intros imageMap [[url|other]|]; auto with emits.
      apply emits_bind; [apply emits_uploadFile | auto with emits]. }
    intros imageMap. apply emits_bind; [|auto with emits].
    apply emits_fold_of. intros acc image.
    apply emits_bind; [apply emits_uploadBuffer | auto with emits]. }
  unfold bind, call.
  destruct (on_captureMermaidCharts _ _) as [[payload|images] w1]; simpl.
  - apply elem_of_app. right. by apply list_elem_of_singleton.
  - match goal with
    | |- context [afterRender images ?st] =>
        destruct (Hafter images st) as (new & -> & _)
    end.
    simpl. rewrite !elem_of_app. left. right. by apply list_elem_of_singleton.
Qed.

End Diagrams.

Lemma ADFEntity_nested_ind (P : ADFEntity -> Prop) :
  (forall t a m x, P (Node t a None m x)) ->
  (forall t a cs m x, Forall P cs -> P (Node t a (Some cs) m x)) ->
  forall n, P n.
Proof.
  intros Hleaf Hnode. fix IH 1. intros [t a [cs|] m x]; [|apply Hleaf].
  apply Hnode. induction cs as [|c cs IHcs]; constructor; [apply IH | exact IHcs].
Qed.

Lemma filter_adf_accepts callback body (n : ADFEntity) :
  n ∈ filter_adf callback body -> callback n = true.
Proof.
  revert n. induction body as [t a m x | t a cs m x IH] using ADFEntity_nested_ind;
    intros n; cbn [filter_adf].
  - rewrite app_nil_r. destruct (callback _) eqn:Hcb.
    + by intros ->%list_elem_of_singleton.
    + by intros ?%elem_of_nil.
  - rewrite elem_of_app. intros [Hn | Hn].
    + destruct (callback _) eqn:Hcb.
      * by apply list_elem_of_singleton in Hn as ->.
      * by apply elem_of_nil in Hn.
    + induction IH as [|c cs Hc _ IHcs]; [by apply elem_of_nil in Hn|].
      apply elem_of_app in Hn as [Hn | Hn]; [by apply Hc | by apply IHcs].
Qed.

(** ** Traversals that change nothing *)

(** The nodes of a document, parents before children. *)
Definition subnodes (adf : ADFEntity) : list ADFEntity :=
  filter_adf (fun _ => true) adf.

Lemma subnodes_self (adf : ADFEntity) : adf ∈ subnodes adf.
Proof. destruct adf. unfold subnodes. cbn [filter_adf]. apply list_elem_of_here. Qed.

Lemma filter_adf_child callback t a cs m x (c n : ADFEntity) :
  c ∈ cs -> n ∈ filter_adf callback c ->
  n ∈ filter_adf callback (Node t a (Some cs) m x).
Proof.
  intros Hc Hn. cbn [filter_adf]. apply elem_of_app. right.
  induction Hc as [c cs|c c' cs _ IH]; simpl; apply elem_of_app;
    [by left | right; by apply IH].
Qed.

Lemma filter_adf_elem callback (adf n : ADFEntity) :
  n ∈ subnodes adf -> callback n = true -> n ∈ filter_adf callback adf.
Proof.
  unfold subnodes.
  induction adf as [t a m x | t a cs m x IH] using ADFEntity_nested_ind;
    cbn [filter_adf]; intros Hn Hcb.
  - rewrite app_nil_r in *. apply list_elem_of_singleton in Hn as ->.
    rewrite Hcb. apply list_elem_of_here.
  - apply elem_of_app in Hn as [Hn | Hn].
    + apply list_elem_of_singleton in Hn as ->. rewrite Hcb.
      apply list_elem_of_here.
    + apply elem_of_app. right.
      induction IH as [|c cs' Hc _ IHcs]; [done|]. simpl in *.
      apply elem_of_app in Hn as [Hn | Hn]; apply elem_of_app;
        [left; by apply Hc | right; by apply IHcs].
Qed.

Lemma traverseContent_same f (cs : list ADFEntity) :
  Forall (fun c => f c = Returned (Some c)) cs ->
  traverseContent f cs = Returned cs.
Proof.
  induction 1 as [|c cs Hc _ IH]; simpl; [done|]. by rewrite Hc, IH.
Qed.

(** When every visitor a traversal meets answers with nothing, the document
    comes back as it was. *)
Lemma traverseNode_all_keep visitors (adf : ADFEntity) :
  forall fuel,
    depth adf <= fuel ->
    (forall n visitor,
       n ∈ subnodes adf -> visitorFor visitors n = Some visitor ->
       visitor n = Returned Keep) ->
    traverseNode fuel visitors adf = Returned (Some adf).
Proof.
  induction adf as [t a m x | t a cs m x IH] using ADFEntity_nested_ind;
    intros fuel Hdepth Hkeep.
  - destruct fuel as [|fuel]; [simpl in Hdepth; lia|]. cbn [traverseNode].
    destruct (visitorFor visitors _) as [visitor|] eqn:Hv; [|done].
    by rewrite (Hkeep _ visitor (subnodes_self _) Hv).
  - destruct fuel as [|fuel]; [simpl in Hdepth; lia|]. cbn [traverseNode].
    assert (traverseContent (traverseNode fuel visitors) cs = Returned cs)
      as Hcs.
    { apply traverseContent_same. apply Forall_forall. intros c Hc.
      apply (proj1 (Forall_forall _ _) IH c Hc).
      - pose proof (depth_content (Node t a (Some cs) m x) cs c eq_refl Hc). lia.
      - intros n visitor Hn Hv. apply Hkeep; [|done].
        by apply (filter_adf_child _ t a cs m x c n Hc). }
    destruct (visitorFor visitors _) as [visitor|] eqn:Hv.
    + rewrite (Hkeep _ visitor (subnodes_self _) Hv). simpl. by rewrite Hcs.
    + simpl. by rewrite Hcs.
Qed.

Lemma bind_returned {W A B} (m : M W A) (k : A -> M W B)
    (s s' : State W) (b : B) :
  bind m k s = (Returned b, s') ->
  exists a s1, m s = (Returned a, s1) /\ k a s1 = (Returned b, s').
Proof.
  unfold bind. destruct (m s) as [[a|e|] s1]; [|done..]. intros Hk. by exists a, s1.
Qed.

Section TextlessDiagrams.

Context `{Platform} {W : Type} `{Collaborators W}.

Lemma occursIn_subnodes (m body : ADFEntity) :
  occursIn m body -> m ∈ subnodes body.
Proof.
  induction 1 as [|parent cs c Hcs Hc _ _ IH]; [apply subnodes_self|].
  destruct parent as [t a content' ms x]. simpl in Hcs. subst content'.
  by apply (filter_adf_child _ t a cs ms x c m Hc).
Qed.

(** A node the rewrite returns as it is stays where it is in the body,
    as long as no code block stands above it. *)
Lemma rewrite_keeps_fixed imageMap (m body : ADFEntity) :
  (forall fuel, depth m <= fuel ->
     traverseNode fuel (rewriteVisitors imageMap) m = Returned (Some m)) ->
  occursIn m body ->
  forall fuel, depth body <= fuel ->
    exists body',
      traverseNode fuel (rewriteVisitors imageMap) body = Returned (Some body') /\
      occursIn m body'.
Proof.
  intros Hfixed Hocc. induction Hocc as [|parent cs c Hcs Hc Hnot Hocc IH];
    intros fuel Hdepth.
  - exists m. split; [by apply Hfixed | constructor].
  - destruct fuel as [|fuel]; [pose proof (depth_positive parent); lia|].
    destruct (rewrite_parent imageMap fuel parent cs Hcs Hnot Hdepth)
      as (parent' & cs' & Hparent' & Hcs' & Htype' & Hall).
    exists parent'. split; [done|].
    apply list_elem_of_lookup in Hc as [i Hi].
    destruct (Forall2_lookup_l _ _ _ _ _ Hall Hi) as (c' & Hi' & Hc').
    destruct (IH fuel) as (c'' & Hc'' & Hocc'').
    { pose proof (depth_content parent cs c Hcs
                    (proj2 (list_elem_of_lookup _ _) (ex_intro _ i Hi))). lia. }
    assert (c'' = c') as -> by congruence.
    eapply occurs_below; [exact Hcs' | | congruence | exact Hocc''].
    apply list_elem_of_lookup. eauto.
Qed.

(** The rewrite of a mermaid block whose first content node has no text
    to render, and which holds no file media node and no other mermaid
    block: the block itself, whatever the image map holds. *)
Lemma rewrite_textless_mermaid imageMap (block : ADFEntity) :
  filter_adf isMermaidBlock block = [block] ->
  filter_adf isFileMedia block = [] ->
  truthy (firstText block) = false ->
  forall fuel, depth block <= fuel ->
    traverseNode fuel (rewriteVisitors imageMap) block = Returned (Some block).
Proof.
  intros Hmermaid Hmedia Htext fuel Hdepth.
  apply traverseNode_all_keep; [done|].
  intros n visitor Hn Hv.
  destruct (decide (type n = "codeBlock")) as [Hcb|Hcb].
  { rewrite (visitorFor_codeBlock imageMap n Hcb) in Hv. injection Hv as <-.
    unfold codeBlockVisitor.
    destruct (Obj.is_str "language" "mermaid" (attrsOrEmpty n)) eqn:Hlang;
      [|done].
    assert (n ∈ filter_adf isMermaidBlock block) as Hin.
    { apply filter_adf_elem; [done|]. unfold isMermaidBlock.
      by rewrite Hcb, Hlang. }
    rewrite Hmermaid in Hin. apply list_elem_of_singleton in Hin as ->.
    by rewrite Htext. }
  destruct (decide (type n = "media")) as [Hm|Hm].
  { rewrite (visitorFor_media imageMap n Hm) in Hv. injection Hv as <-.
    unfold mediaVisitor.
    destruct (Obj.is_str "type" "file" (attrsOrEmpty n)) eqn:Hfile; [|done].
    assert (n ∈ filter_adf isFileMedia block) as Hin.
    { apply filter_adf_elem; [done|]. unfold isFileMedia.
      by rewrite Hm, Hfile. }
    rewrite Hmedia in Hin. by apply elem_of_nil in Hin. }
  by rewrite (visitorFor_other imageMap n Hcb Hm) in Hv.
Qed.

(** What [uploadFiles] returns is the rewrite of the body it was given. *)
Lemma uploadFiles_returns_rewrite pageId pageFilePath adr
    (s s' : State W) updatedAdf :
  uploadFiles pageId pageFilePath adr s = (Returned updatedAdf, s') ->
  exists imageMap,
    traverse (depth adr) adr (rewriteVisitors imageMap) = Returned updatedAdf.
Proof.
  intros Hrun. unfold uploadFiles in Hrun.
  apply bind_returned in Hrun as (images & s1 & _ & Hrun).
  apply bind_returned in Hrun as (listing & s2 & _ & Hrun).
  apply bind_returned in Hrun as (imageMap0 & s3 & _ & Hrun).
  apply bind_returned in Hrun as (imageMap & s4 & _ & Hrun).
  unfold lift in Hrun. injection Hrun as Hrewrite _. by exists imageMap.
Qed.

End TextlessDiagrams.

(** C10, as amended: for a mermaid code block whose first content node has
    no text to render, the chart is rendered from the fixed placeholder
    source when that text is missing, and from the empty text itself when
    the text is the empty string. Either way the upload file name is
    derived from that source, the renderer is asked for a chart of that
    name with that source, an image it renders under that name is uploaded
    under that name (unless the listing already holds that very image
    under that name), and the block, which holds no file media node and no
    other mermaid block and stands under no code block, occurs unchanged in
    the body [uploadFiles] returns. *)
Theorem empty_mermaid_block_placeholder_uploaded_block_kept
    `{Platform} {W : Type} `{Collaborators W}
    (pageId pageFilePath : string) (body block : ADFEntity)
    (s s' : State W) (images : list (string * Buffer)) (w1 w2 : W)
    (listing : list Attachment) (buf : Buffer)
    (updatedAdf : option ADFEntity) :
  let placeholder := "flowchart LR" +:+ String "010" "id1[Missing Chart]" in
  let source :=
    match firstText block with
    | Some mermaidContent => mermaidContent
    | None => placeholder
    end in
  let uploadFilename := "RenderedMermaidChart-" +:+ md5 source +:+ ".png" in
  occursIn block body ->
  filter_adf isMermaidBlock block = [block] ->
  filter_adf isFileMedia block = [] ->
  truthy (firstText block) = false ->
  on_captureMermaidCharts
    (mermaidNodesToUpload (filter_adf isMermaidBlock body)) (world s)
    = (inr images, w1) ->
  on_getAttachments pageId w1 = (inr listing, w2) ->
  (uploadFilename, buf) ∈ images ->
  uploadFiles pageId pageFilePath body s = (Returned updatedAdf, s') ->
  (firstText block = None /\ source = placeholder \/
   firstText block = Some EmptyString /\ source = EmptyString) /\
  getMermaidFileName (firstText block) = (uploadFilename, source) /\
  {| chart_name := uploadFilename; chart_data := source |}
    ∈ mermaidNodesToUpload (filter_adf isMermaidBlock body) /\
  CaptureMermaidCharts (mermaidNodesToUpload (filter_adf isMermaidBlock body))
    ∈ trace s' /\
  (CreateOrUpdateAttachments pageId uploadFilename (md5_buffer buf) buf
     (Some "image/png") ∈ trace s' \/
   exists attachment,
     attachmentsByTitle listing !! uploadFilename = Some attachment /\
     filehash attachment = Some (md5_buffer buf)) /\
  exists body', updatedAdf = Some body' /\ occursIn block body'.
Proof.
  intros placeholder source uploadFilename
    Hocc Hmermaid Hmedia Htext Hrender Hlist Himage Hrun.
  assert (getMermaidFileName (firstText block) = (uploadFilename, source))
    as Hname.
  { subst uploadFilename source placeholder. unfold getMermaidFileName.
    by destruct (firstText block). }
  split.
  { subst source. destruct (firstText block) as [[|c text]|]; [|done|].
    - right. done.
    - left. done. }
  split; [done|]. split.
  { rewrite mermaidNodesToUpload_one_per_block.
    apply list_elem_of_fmap. exists block. rewrite Hname. split; [done|].
    apply filter_adf_elem; [by apply occursIn_subnodes|].
    apply (filter_adf_accepts isMermaidBlock block).
    rewrite Hmermaid. apply list_elem_of_here. }
  split.
  { pose proof (uploadFiles_asks_renderer pageId pageFilePath body s) as Hasked.
    by rewrite Hrun in Hasked. }
  split.
  { destruct (sameAttachment (attachmentsByTitle listing) uploadFilename
                (md5_buffer buf)) as [attachment|] eqn:Hsame.
    - right. unfold sameAttachment in Hsame.
      destruct (attachmentsByTitle listing !! uploadFilename) as [a|]; [|done].
      case_bool_decide; [|done]. injection Hsame as ->. by exists attachment.
    - left. by eapply uploadFiles_uploads_rendered. }
  destruct (uploadFiles_returns_rewrite _ _ _ _ _ _ Hrun) as [imageMap Hrewrite].
  destruct (rewrite_keeps_fixed imageMap block body) with (fuel := depth body)
    as (body' & Hbody' & Hkept); [|done|done|].
  { intros fuel Hdepth. by apply rewrite_textless_mermaid. }
  exists body'. split; [|done]. unfold traverse in Hrewrite. congruence.
Qed.

(** ** The properties on concrete documents *)

Lemma ensurePageExists_adopts_only_inside_page_tree_witness :
  let run :=
    @ensurePageExists Demo.platform Demo.Remote Demo.collaborators
      Demo.docA "SP" "parent" "top" (Demo.start Demo.remoteWithStray) in
  let outside :=
    ~ exists ancestors,
        page_ancestors Demo.stray = Some ancestors /\ "top" ∈ ancestors in
  (run.1 = Threw (outsidePageTree "A") <-> outside) /\
  (outside ->
   run.2 = mkState Demo.remoteWithStray [GetContent "SP" "A"] /\
   List.filter is_write (trace run.2) = []).
Proof.
  apply (@ensurePageExists_adopts_only_inside_page_tree
           Demo.platform Demo.Remote Demo.collaborators
           Demo.docA "SP" "parent" "top" (Demo.start Demo.remoteWithStray)
           {| sr_size := 1; sr_results := [Demo.stray] |}
           Demo.remoteWithStray Demo.stray []);
    reflexivity.
Defined.

Lemma updatePageContent_unchanged_is_noop_witness :
  let s := Demo.start Demo.emptyRemote in
  let unchanged := Demo.nodeA "doc(paragraph(text(hello););)" in
  let page :=
    @updatePageContent Demo.platform Demo.Remote Demo.collaborators
      "id-A" "/vault/docs/a.md" (Demo.paragraph "hello") "top" 3 "A"
      "doc(paragraph(text(hello););)" ["t1"] Demo.boundA s in
  let run :=
    promise_all [unchanged]
      (@publishFile Demo.platform Demo.Remote Demo.collaborators) s in
  (page = (Returned (Some true),
           mkState Demo.emptyRemote
             [CaptureMermaidCharts []; GetAttachments "id-A"]) /\
   List.filter is_update (trace page.2) = [] /\
   List.filter is_label_call (trace page.2) = []) /\
  (run.1 = Returned [published unchanged] /\
   List.filter is_update (trace run.2) = [] /\
   List.filter is_label_call (trace run.2) = []).
Proof.
  apply (@updatePageContent_unchanged_is_noop
           Demo.platform Demo.Remote Demo.collaborators
           "id-A" "/vault/docs/a.md" (Demo.paragraph "hello") "top" 3%Z "A"
           "doc(paragraph(text(hello););)" ["t1"] Demo.boundA
           (Demo.start Demo.emptyRemote)
           (mkState Demo.emptyRemote
              [CaptureMermaidCharts []; GetAttachments "id-A"])
           (Some (Demo.paragraph "hello"))
           [Demo.nodeA "doc(paragraph(text(hello););)"]
           (Demo.start Demo.emptyRemote)).
  - reflexivity.
  - reflexivity.
  - simpl. split; [reflexivity|].
    exists (Some (Demo.paragraph "hello")),
      (mkState Demo.emptyRemote [CaptureMermaidCharts []; GetAttachments "id-A"]).
    split; [reflexivity|]. split; [reflexivity | exact I].
Defined.

Lemma updatePageContent_changed_issues_one_update_witness :
  let run :=
    @updatePageContent Demo.platform Demo.Remote Demo.collaborators
      "id-A" "/vault/docs/a.md" (Demo.paragraph "hello") "top" 3 "A"
      "doc(paragraph(text(old););)" ["t1"] Demo.boundA
      (Demo.start Demo.emptyRemote) in
  List.filter is_update (trace run.2)
    = [UpdateContent
         {| upd_id := "id-A";
            upd_ancestors := Some ["top"];
            upd_version := 4;
            upd_title := "A";
            upd_body := "doc(paragraph(text(hello););)" |}].
Proof.
  apply (@updatePageContent_changed_issues_one_update
           Demo.platform Demo.Remote Demo.collaborators
           "id-A" "/vault/docs/a.md" (Demo.paragraph "hello") "top" 3%Z "A"
           "doc(paragraph(text(old););)" ["t1"] Demo.boundA
           (Demo.start Demo.emptyRemote)
           (mkState Demo.emptyRemote
              [CaptureMermaidCharts []; GetAttachments "id-A"])
           (Some (Demo.paragraph "hello"))).
  - reflexivity.
  - discriminate.
Defined.

Lemma createFolderStructure_rejects_duplicate_names_witness :
  exists e,
    @createFolderStructure Demo.platform [Demo.mdDocs; Demo.mdNotes] = Threw e /\
    @insertion_error Demo.platform [Demo.mdDocs; Demo.mdNotes] e /\
    forall tree,
      @createFolderStructure Demo.platform [Demo.mdDocs; Demo.mdNotes]
        <> Returned tree.
Proof.
  apply (@createFolderStructure_rejects_duplicate_names Demo.platform
           [Demo.mdDocs; Demo.mdNotes] 0 1 Demo.mdDocs Demo.mdNotes).
  - lia.
  - reflexivity.
  - reflexivity.
  - reflexivity.
Defined.

Example createFolderStructure_duplicate_names :
  @createFolderStructure Demo.platform [Demo.mdDocs; Demo.mdNotes]
    = Threw (notUnique "a.md").
Proof. reflexivity. Qed.

Lemma unresolved_file_media_is_left_in_place_witness :
  let imageMap : gmap string (option UploadedImageData) :=
    {[ "file://missing.png" := None ]} in
  @uploadFile Demo.platform Demo.Remote Demo.collaborators
    "id-A" "/vault/docs/a.md" (Some "missing.png") ∅
    (Demo.start Demo.emptyRemote)
    = (Returned None,
       mkState Demo.emptyRemote [ReadBinary (Some "missing.png") "/vault/docs/a.md"]) /\
  exists body',
    traverse 3 Demo.bodyWithMissingImage
      (@rewriteVisitors Demo.platform imageMap) = Returned (Some body') /\
    occursIn Demo.missingImage body'.
Proof.
  apply (@unresolved_file_media_is_left_in_place
           Demo.platform Demo.Remote Demo.collaborators
           {[ "file://missing.png" := None ]}
           Demo.bodyWithMissingImage Demo.missingImage 3
           "id-A" "/vault/docs/a.md" (Some "missing.png") ∅
           (Demo.start Demo.emptyRemote) Demo.emptyRemote).
  - reflexivity.
  - split; [reflexivity|]. split; [reflexivity|]. split; [reflexivity|].
    left. reflexivity.
  - apply (occurs_below _ Demo.bodyWithMissingImage
             [Node "mediaSingle" None (Some [Demo.missingImage]) None None]
             (Node "mediaSingle" None (Some [Demo.missingImage]) None None));
      [reflexivity | apply list_elem_of_here | discriminate |].
    apply (occurs_below _ _ [Demo.missingImage] Demo.missingImage);
      [reflexivity | apply list_elem_of_here | discriminate | apply occurs_here].
  - simpl. lia.
Defined.

(** C5, as stated, fails: the adaptor cannot read [missing.png], the image
    map gets [null] for it, and the body [uploadFiles] returns is the body
    it was given, media node and external reference included. *)
Lemma unreadable_media_node_is_not_removed :
  let run :=
    @uploadFiles Demo.platform Demo.Remote Demo.collaborators
      "id-A" "/vault/docs/a.md" Demo.bodyWithMissingImage
      (Demo.start Demo.emptyRemote) in
  run = (Returned (Some Demo.bodyWithMissingImage),
         mkState Demo.emptyRemote
           [CaptureMermaidCharts []; GetAttachments "id-A";
            ReadBinary (Some "missing.png") "/vault/docs/a.md"]) /\
  filter_adf isFileMedia Demo.bodyWithMissingImage = [Demo.missingImage] /\
  ~ (forall body',
       run.1 = Returned (Some body') ->
       Demo.missingImage ∉ filter_adf (fun _ => true) body').
Proof.
  split; [reflexivity|]. split; [reflexivity|].
  intros Hremoved. apply (Hremoved Demo.bodyWithMissingImage); [reflexivity|].
  simpl. apply list_elem_of_further, list_elem_of_further, list_elem_of_here.
Qed.

Lemma wikilink_in_first_mark_is_resolved_witness :
  traverse 1 Demo.plainLink
    (@linkVisitors Demo.platform Demo.settings Demo.fileMap)
    = Returned (Some
        (Node "inlineCard"
           (Some [("url", AStr "https://wiki.example/wiki/spaces/SP/pages/id-A#intro")])
           None None None)).
Proof.
  apply (@wikilink_in_first_mark_is_resolved Demo.platform Demo.settings
           Demo.fileMap 0 Demo.plainLink Demo.wikilinkMark []
           [("href", AStr "wikilink:a#intro")] "wikilink:a#intro" "a" "#intro"
           Demo.boundA);
    reflexivity.
Defined.

(** C7, as stated, fails: a text node that carries a wikilink to a document
    of the map after a [strong] mark is returned as it was; its link target
    is not rewritten and it does not become an inline card. *)
Lemma wikilink_after_another_mark_is_untouched :
  carriesWikilink Demo.boldLink /\
  Demo.fileMap !! "a.md" = Some Demo.boundA /\
  text Demo.boldLink = Some "a" /\
  traverse 1 Demo.boldLink
    (@linkVisitors Demo.platform Demo.settings Demo.fileMap)
    = Returned (Some Demo.boldLink) /\
  traverse 1 Demo.boldLink
    (@linkVisitors Demo.platform Demo.settings Demo.fileMap)
    <> Returned (Some
         (Node "inlineCard"
            (Some [("url",
                    AStr "https://wiki.example/wiki/spaces/SP/pages/id-A#intro")])
            None None None)).
Proof.
  split; [|split; [reflexivity | split; [reflexivity | split;
                                          [reflexivity | discriminate]]]].
  split; [reflexivity|].
  exists [mkMark "strong" None; Demo.wikilinkMark], Demo.wikilinkMark.
  split; [reflexivity|]. split.
  - apply list_elem_of_further, list_elem_of_here.
  - split; [reflexivity|].
    exists [("href", AStr "wikilink:a#intro")], "wikilink:a#intro".
    repeat split.
Qed.

Lemma empty_mermaid_block_placeholder_uploaded_block_kept_witness :
  let run :=
    @uploadFiles Demo.platform Demo.Remote Demo.collaborators
      "id-A" "/vault/docs/a.md" Demo.bodyWithEmptyDiagram
      (Demo.start Demo.emptyRemote) in
  let placeholder := "flowchart LR" +:+ String "010" "id1[Missing Chart]" in
  let uploadFilename := "RenderedMermaidChart-" +:+ placeholder +:+ ".png" in
  let image := list_byte_of_string placeholder in
  (firstText Demo.emptyDiagram = None /\ placeholder = placeholder \/
   firstText Demo.emptyDiagram = Some EmptyString /\
   placeholder = EmptyString) /\
  @getMermaidFileName Demo.platform (firstText Demo.emptyDiagram)
    = (uploadFilename, placeholder) /\
  {| chart_name := uploadFilename; chart_data := placeholder |}
    ∈ @mermaidNodesToUpload Demo.platform
        (filter_adf isMermaidBlock Demo.bodyWithEmptyDiagram) /\
  CaptureMermaidCharts
    (@mermaidNodesToUpload Demo.platform
       (filter_adf isMermaidBlock Demo.bodyWithEmptyDiagram))
    ∈ trace run.2 /\
  (CreateOrUpdateAttachments "id-A" uploadFilename
     (@md5_buffer Demo.platform image) image (Some "image/png") ∈ trace run.2 \/
   exists attachment,
     attachmentsByTitle [] !! uploadFilename = Some attachment /\
     filehash attachment = Some (@md5_buffer Demo.platform image)) /\
  exists body',
    Some Demo.bodyWithEmptyDiagram = Some body' /\
    occursIn Demo.emptyDiagram body'.
Proof.
  eapply (@empty_mermaid_block_placeholder_uploaded_block_kept
            Demo.platform Demo.Remote Demo.collaborators
            "id-A" "/vault/docs/a.md" Demo.bodyWithEmptyDiagram Demo.emptyDiagram
            (Demo.start Demo.emptyRemote) _
            [("RenderedMermaidChart-flowchart LR" +:+
                String "010" "id1[Missing Chart].png",
              list_byte_of_string
                ("flowchart LR" +:+ String "010" "id1[Missing Chart]"))]
            Demo.emptyRemote Demo.emptyRemote []
            (list_byte_of_string
               ("flowchart LR" +:+ String "010" "id1[Missing Chart]"))
            (Some Demo.bodyWithEmptyDiagram)).
  - apply (occurs_below _ Demo.bodyWithEmptyDiagram [Demo.emptyDiagram]
             Demo.emptyDiagram);
      [reflexivity | apply list_elem_of_here | discriminate | apply occurs_here].
  - reflexivity.
  - reflexivity.
  - reflexivity.
  - reflexivity.
  - reflexivity.
  - apply list_elem_of_here.
  - reflexivity.
Defined.

(** C4 fails on the code: a body with two mermaid blocks of the same text
    gives the renderer two charts of the same name, and each image it
    renders is uploaded, so the same file is uploaded twice. *)
Lemma identical_diagrams_are_rendered_and_uploaded_twice :
  let run :=
    @uploadFiles Demo.platform Demo.Remote Demo.collaborators
      "id-A" "/vault/docs/a.md" Demo.bodyWithTwoDiagrams
      (Demo.start Demo.emptyRemote) in
  let chart :=
    {| chart_name := "RenderedMermaidChart-graph TD; A-->B.png";
       chart_data := "graph TD; A-->B" |} in
  let image := list_byte_of_string "graph TD; A-->B" in
  trace run.2 =
    [CaptureMermaidCharts [chart; chart];
     GetAttachments "id-A";
     CreateOrUpdateAttachments "id-A" (chart_name chart)
       "graph TD; A-->B" image (Some "image/png");
     CreateOrUpdateAttachments "id-A" (chart_name chart)
       "graph TD; A-->B" image (Some "image/png")] /\
  length (List.filter is_upload (trace run.2)) = 2.
Proof. split; reflexivity. Qed.

(** * Further properties of the publisher *)

(** ** Flattening the page tree *)

Lemma ConfluenceTreeNode_nested_ind (P : ConfluenceTreeNode -> Prop) :
  (forall file version existingAdf children,
     Forall P children -> P (CTNode file version existingAdf children)) ->
  forall node, P node.
Proof.
  intros Hnode. fix IH 1. intros [file version existingAdf children].
  apply Hnode. induction children as [|c cs IHcs]; constructor;
    [apply IH | exact IHcs].
Qed.

(** Number of nodes of a page tree. *)
Fixpoint nodeCount (node : ConfluenceTreeNode) : nat :=
  match node with
  | CTNode _ _ _ children => S (sum_list (nodeCount <$> children))
  end.

(** Every document of the tree has a truthy page id. *)
Fixpoint pageIdsTruthy (node : ConfluenceTreeNode) : bool :=
  match node with
  | CTNode file _ _ children =>
      truthy (pageId file) && forallb pageIdsTruthy children
  end.

Lemma truthy_interpolate (o : option string) :
  truthy o = true -> interpolate o <> EmptyString.
Proof. by destruct o as [[|c s]|]. Qed.

Lemma flattenTree_parents_truthy node : forall parentPageId,
  Forall (fun binding => cn_parentPageId binding <> EmptyString)
    (flattenTree node parentPageId).
Proof.
  induction node as [file version existingAdf children IH]
    using ConfluenceTreeNode_nested_ind.
  intros parentPageId. cbn [flattenTree]. apply Forall_app. split.
  - destruct (truthy parentPageId) eqn:Ht; [|constructor].
    constructor; [|constructor]. by apply truthy_interpolate.
  - induction IH as [|child rest Hchild _ IHrest]; [constructor|].
    apply Forall_app. split; [apply Hchild | exact IHrest].
Qed.

Lemma flattenTree_length node : forall parentPageId,
  pageIdsTruthy node = true ->
  length (flattenTree node parentPageId)
    = (if truthy parentPageId then nodeCount node else nodeCount node - 1).
Proof.
  induction node as [file version existingAdf children IH]
    using ConfluenceTreeNode_nested_ind.
  intros parentPageId Hids. cbn [flattenTree nodeCount pageIdsTruthy] in *.
  apply andb_prop in Hids as [Hfile Hchildren].
  rewrite length_app.
  assert (length
            ((fix each (l : list ConfluenceTreeNode) : list ConfluenceNode :=
                match l with
                | [] => []
                | child :: l' => flattenTree child (pageId file) ++ each l'
                end) children)
          = sum_list (nodeCount <$> children)) as ->.
  { induction IH as [|child rest Hchild _ IHrest]; [done|].
    cbn [forallb] in Hchildren. apply andb_prop in Hchildren as [Hc Hrest].
    rewrite length_app, (Hchild (pageId file) Hc), Hfile, (IHrest Hrest). done. }
  destruct (truthy parentPageId); simpl; lia.
Qed.

Definition ct_file (node : ConfluenceTreeNode) : AdfFile :=
  match node with CTNode file _ _ _ => file end.
Definition ct_version (node : ConfluenceTreeNode) : Z :=
  match node with CTNode _ version _ _ => version end.
Definition ct_existingAdf (node : ConfluenceTreeNode) : string :=
  match node with CTNode _ _ existingAdf _ => existingAdf end.

(** The parent-child pairs of a page tree, each as the parent's document
    and the child node, in document order (a child before its own
    children, these before its next sibling). *)
Fixpoint edges (node : ConfluenceTreeNode)
  : list (AdfFile * ConfluenceTreeNode) :=
  match node with
  | CTNode file _ _ children =>
      flat_map (fun child => (file, child) :: edges child) children
  end.

(** The binding of a child under its parent's document. *)
Definition bindingUnder (edge : AdfFile * ConfluenceTreeNode)
  : ConfluenceNode :=
  {| cn_file := ct_file edge.2;
     cn_version := ct_version edge.2;
     cn_existingAdf := ct_existingAdf edge.2;
     cn_parentPageId := interpolate (pageId edge.1) |}.

Lemma flattenTree_edges node : forall parentPageId,
  flattenTree node parentPageId
    = (if truthy parentPageId
       then [mkConfluenceNode (ct_file node) (ct_version node)
               (ct_existingAdf node) (interpolate parentPageId)]
       else []) ++
      (bindingUnder <$>
         List.filter (fun edge => truthy (pageId edge.1)) (edges node)).
Proof.
  induction node as [file version existingAdf children IH]
    using ConfluenceTreeNode_nested_ind.
  intros parentPageId. cbn [flattenTree edges ct_file ct_version ct_existingAdf].
  f_equal.
  induction IH as [|child rest Hchild _ IHrest]; [done|].
  cbn [flat_map]. rewrite IHrest, (Hchild (pageId file)).
  rewrite List.filter_app, fmap_app. cbn [List.filter fst].
  by destruct (truthy (pageId file)).
Qed.

(** X1: called without a parent page id, as [doPublish] calls it,
    [flattenTree] lists exactly the parent-child pairs of the tree whose
    parent document has a (non-empty) page id, in document order, each as
    the child's document, version and stored body under the parent's page
    id. It therefore never lists a binding with an empty parent page id,
    and on a tree whose documents all have a page id it lists every node
    but the root. *)
Theorem flattenTree_lists_all_but_root (node : ConfluenceTreeNode) :
  flattenTree node None
    = (fun edge =>
         {| cn_file := ct_file edge.2;
            cn_version := ct_version edge.2;
            cn_existingAdf := ct_existingAdf edge.2;
            cn_parentPageId := interpolate (pageId edge.1) |})
      <$> List.filter (fun edge => truthy (pageId edge.1)) (edges node) /\
  Forall (fun binding => cn_parentPageId binding <> EmptyString)
    (flattenTree node None) /\
  (pageIdsTruthy node = true ->
   length (flattenTree node None) + 1 = nodeCount node /\
   length (edges node) + 1 = nodeCount node).
Proof.
  split; [by rewrite flattenTree_edges|].
  split; [apply flattenTree_parents_truthy|].
  intros Hids. pose proof (flattenTree_length node None Hids) as Hlen.
  simpl in Hlen. pose proof (f_equal length (flattenTree_edges node None)) as He.
  simpl in He. rewrite length_fmap in He.
  assert (1 <= nodeCount node) by (destruct node; simpl; lia).
  split; [lia|].
  assert (List.filter (fun edge => truthy (pageId edge.1)) (edges node)
          = edges node) as Hall; [|rewrite Hall in He; lia].
  clear Hlen He H.
  induction node as [file version existingAdf children IH]
    using ConfluenceTreeNode_nested_ind.
  cbn [pageIdsTruthy edges] in *. apply andb_prop in Hids as [Hfile Hchildren].
  induction IH as [|child rest Hchild _ IHrest]; [done|].
  cbn [forallb] in Hchildren. apply andb_prop in Hchildren as [Hc Hrest].
  cbn [flat_map]. rewrite List.filter_app.
  cbn [List.filter fst]. rewrite Hfile, (Hchild Hc), (IHrest Hrest). done.
Qed.

(** ** Reconciling one page *)

(** X2: with a stored page id, [ensurePageExists] makes one call, the fetch
    of that page by id, whatever the remote answers: it never searches by
    title, creates a page or writes a page id. What it returns comes from
    the fetched page, and a page without a (non-empty) space key makes it
    throw. *)
Theorem ensurePageExists_stored_id_only_fetches
    `{Platform} {W : Type} `{Collaborators W}
    (file : AdfFile) (spaceKey parentPageId topPageId : string) (s : State W) :
  truthy (pageId file) = true ->
  let id := interpolate (pageId file) in
  let run := ensurePageExists file spaceKey parentPageId topPageId s in
  trace run.2 = trace s ++ [GetContentById id] /\
  (forall details,
     run.1 = Returned details ->
     exists page w',
       on_getContentById id (world s) = (inr page, w') /\
       pd_id details = page_id page /\
       pd_title details = pageTitle file /\
       pd_version details = default 1%Z (page_version page) /\
       pd_existingAdf details = page_body page /\
       page_space page = Some (pd_spaceKey details) /\
       pd_spaceKey details <> EmptyString) /\
  (forall page w',
     on_getContentById id (world s) = (inr page, w') ->
     truthy (page_space page) = false ->
     run.1 = Threw (Error "Missing Space Key")).
Proof.
  intros Hid id run. subst run. unfold ensurePageExists. rewrite Hid.
  fold id. unfold bind, call.
  destruct (on_getContentById id (world s)) as [[payload|page] w1] eqn:Hfetch;
    simpl.
  - split; [done|]. split; [done|]. by intros page w' [=].
  - destruct (truthy (page_space page)) eqn:Hspace; simpl.
    + split; [done|]. split; [|intros page' w' [= <- <-]; congruence].
      intros details [= <-]. exists page, w1. simpl.
      destruct (page_space page) as [[|c k]|]; done.
    + split; [done|]. split; [done|]. done.
Qed.

(** X3: without a stored page id and without a title match,
    [ensurePageExists] creates the page under the given parent with the
    blank body and then hands the new page id to the adaptor; the creation
    is not undone when the adaptor rejects, and the call then throws. *)
Theorem ensurePageExists_creates_under_parent
    `{Platform} {W : Type} `{Collaborators W}
    (file : AdfFile) (spaceKey parentPageId topPageId : string) (s : State W)
    (found : SearchResult) (w1 w2 : W) (created : Page) :
  truthy (pageId file) = false ->
  on_getContent spaceKey (pageTitle file) (world s) = (inr found, w1) ->
  (sr_size found <= 0)%Z ->
  on_createContent spaceKey parentPageId (pageTitle file) blankPageAdf w1
    = (inr created, w2) ->
  let run := ensurePageExists file spaceKey parentPageId topPageId s in
  trace run.2 = trace s ++
    [GetContent spaceKey (pageTitle file);
     CreateContent spaceKey parentPageId (pageTitle file) blankPageAdf;
     UpdateMarkdownPageId (absoluteFilePath file) (page_id created)] /\
  (run.1 = Returned {| pd_id := page_id created;
                       pd_title := pageTitle file;
                       pd_version := default 1%Z (page_version created);
                       pd_existingAdf := page_body created;
                       pd_spaceKey := spaceKey |} \/
   exists payload, run.1 = Threw (Rejected payload)).
Proof.
  intros Hid Hsearch Hsize Hcreate run. subst run.
  destruct (ensurePageExists file spaceKey parentPageId topPageId s)
    as [r s'] eqn:Hrun.
  unfold ensurePageExists in Hrun. rewrite Hid in Hrun.
  unfold bind, call in Hrun. rewrite Hsearch in Hrun.
  rewrite bool_decide_false in Hrun by lia. simpl in Hrun.
  rewrite Hcreate in Hrun. simpl in Hrun.
  destruct (on_updateMarkdownPageId _ _ w2) as [[payload|[]] w3];
    injection Hrun as <- <-; simpl; rewrite <- !app_assoc.
  - split; [done|]. right. by exists payload.
  - split; [done|]. by left.
Qed.

(** ** Reconciling the folder tree *)

Lemma TreeNode_nested_ind (P : TreeNode -> Prop) :
  (forall name children file,
     Forall P children -> P (TNode name children file)) ->
  forall node, P node.
Proof.
  intros Hnode. fix IH 1. intros [name children file].
  apply Hnode. induction children as [|c cs IHcs]; constructor;
    [apply IH | exact IHcs].
Qed.

(** Number of nodes of a folder tree. *)
Fixpoint folderCount (node : TreeNode) : nat :=
  match node with
  | TNode _ children _ => S (sum_list (folderCount <$> children))
  end.

(** Every document of a page tree carries a page id and a space key. *)
Inductive allBound : ConfluenceTreeNode -> Prop :=
| allBound_node file version existingAdf children :
    is_Some (pageId file) ->
    is_Some (spaceKey file) ->
    Forall allBound children ->
    allBound (CTNode file version existingAdf children).

Section Reconciler.

Context `{Platform} {W : Type} `{Collaborators W}.

(** What [Promise.all] returns pairs up with what it was given. *)
Lemma promise_all_returned {A B} (R : A -> B -> Prop) (task : A -> M W B)
    (xs : list A) :
  Forall (fun x => forall s r s', task x s = (Returned r, s') -> R x r) xs ->
  forall (s : State W) rs s',
    promise_all xs task s = (Returned rs, s') -> Forall2 R xs rs.
Proof.
  induction 1 as [|x xs Hx _ IH]; intros s rs s' Hrun.
  - injection Hrun as <- _. constructor.
  - cbn [promise_all] in Hrun. unfold bind in Hrun.
    destruct (task x s) as [[r|e|] s1] eqn:Htask; [|done..].
    destruct (promise_all xs task s1) as [[rs'|e|] s2] eqn:Hrest; [|done..].
    injection Hrun as <- <-. constructor; [by eapply Hx | by eapply IH].
Qed.

Lemma bind_ext {A B} (m : M W A) (k1 k2 : A -> M W B) (s : State W) :
  (forall a s', k1 a s' = k2 a s') -> bind m k1 s = bind m k2 s.
Proof. intros Hk. unfold bind. by destruct (m s) as [[a|e|] s1]. Qed.

(** The first step of [createFileStructureInConfluence]: the document with
    its page id and space key, the version and the stored body. *)
Definition bindPage (file : AdfFile) (spaceKey parentPageId topPageId : string)
    (createPage : bool) : M W (AdfFile * Z * option string) :=
  if createPage then
    bind (ensurePageExists file spaceKey parentPageId topPageId)
      (fun pageDetails =>
         ret (with_page file (Some (pd_id pageDetails))
                (Some (pd_spaceKey pageDetails)),
              pd_version pageDetails,
              pd_existingAdf pageDetails))
  else
    ret (with_page file (Some parentPageId) (Some spaceKey),
         0%Z, Some EmptyString).

Lemma bindPage_bound file space parentPageId topPageId createPage
    (s s1 : State W) file' version existingAdf :
  bindPage file space parentPageId topPageId createPage s
    = (Returned (file', version, existingAdf), s1) ->
  is_Some (pageId file') /\ is_Some (spaceKey file').
Proof.
  unfold bindPage. destruct createPage.
  - unfold bind, ret.
    destruct (ensurePageExists _ _ _ _ s) as [[pd|e|] s0]; [|done..].
    intros [= <- _ _ _]. by split; eexists.
  - intros [= <- _ _ _]. by split; eexists.
Qed.

(** The reconciliation of a node with a document, with the loop over the
    children written as [promise_all]. *)
Lemma createFileStructureInConfluence_unfold name children file
    spaceKey parentPageId topPageId createPage (s : State W) :
  createFileStructureInConfluence (TNode name children (Some file))
    spaceKey parentPageId topPageId createPage s
  = bind (bindPage file spaceKey parentPageId topPageId createPage)
      (fun bound =>
         match pageId bound.1.1 with
         | None => throw (Error "Missing myPageId")
         | Some nonNullMyPageId =>
             bind
               (promise_all children
                  (fun childNode =>
                     createFileStructureInConfluence childNode spaceKey
                       nonNullMyPageId topPageId true))
               (fun childDetails =>
                  ret (CTNode bound.1.1 bound.1.2
                         (default EmptyString bound.2) childDetails))
         end) s.
Proof.
  assert (forall id l,
            (fix each (l : list TreeNode) : M W (list ConfluenceTreeNode) :=
               match l with
               | [] => ret []
               | childNode :: l' =>
                   bind (createFileStructureInConfluence childNode spaceKey
                           id topPageId true)
                     (fun r => bind (each l') (fun rs => ret (r :: rs)))
               end) l
            = promise_all l
                (fun childNode =>
                   createFileStructureInConfluence childNode spaceKey id
                     topPageId true)) as Heach.
  { intros id. induction l as [|c l IH]; [done|].
    cbn [promise_all]. by rewrite <- IH. }
  cbn [createFileStructureInConfluence]. apply bind_ext.
  intros [[file' version] existingAdf] s1. simpl.
  destruct (pageId file') as [id|]; [|done].
  by rewrite Heach.
Qed.

Lemma createFileStructureInConfluence_bound node :
  forall spaceKey parentPageId topPageId createPage (s s' : State W) tree,
    createFileStructureInConfluence node spaceKey parentPageId topPageId
      createPage s = (Returned tree, s') ->
    allBound tree /\ nodeCount tree = folderCount node.
Proof.
  induction node as [name children nodeFile IH] using TreeNode_nested_ind.
  intros spaceKey parentPageId topPageId createPage s s' tree Hrun.
  destruct nodeFile as [file|]; [|done].
  rewrite createFileStructureInConfluence_unfold in Hrun.
  unfold bind at 1 in Hrun.
  destruct (bindPage file spaceKey parentPageId topPageId createPage s)
    as [[[[file' version] existingAdf]|e|] s1] eqn:Hfirst; [|done..].
  simpl in Hrun.
  destruct (bindPage_bound _ _ _ _ _ _ _ _ _ _ Hfirst) as [Hid Hspace].
  destruct (pageId file') as [id|] eqn:Hpage; [|by destruct Hid].
  unfold bind in Hrun.
  destruct (promise_all children _ s1) as [[rs|e|] s2] eqn:Hchildren; [|done..].
  injection Hrun as <- <-.
  assert (Forall2 (fun c r => allBound r /\ nodeCount r = folderCount c)
            children rs) as Hall.
  { eapply promise_all_returned; [|exact Hchildren].
    eapply Forall_impl; [exact IH|]. intros c Hc s0 r s0' Hr. by eapply Hc. }
  split.
  - constructor; [by rewrite Hpage | done |].
    clear -Hall. induction Hall as [|c r cs rs [Hr _] _ IHall]; by constructor.
  - cbn [nodeCount folderCount]. f_equal.
    clear -Hall. induction Hall as [|c r cs rs [_ Hr] _ IHall]; [done|].
    rewrite !fmap_cons. cbn [sum_list sum_list_with]. by rewrite Hr, IHall.
Qed.

End Reconciler.

(** X4: every tree [createFileStructureInConfluence] returns has the shape
    of the folder tree it was given (as many nodes), and every document in
    it carries a page id and a space key; reconciled as the root
    ([createPage] false), the node is bound to the given page and space
    without any call of its own, with version 0 and an empty stored body. *)
Theorem createFileStructureInConfluence_binds_every_document
    `{Platform} {W : Type} `{Collaborators W}
    (node : TreeNode) (spaceKey parentPageId topPageId : string)
    (createPage : bool) (s s' : State W) (tree : ConfluenceTreeNode) :
  createFileStructureInConfluence node spaceKey parentPageId topPageId
    createPage s = (Returned tree, s') ->
  allBound tree /\
  nodeCount tree = folderCount node /\
  (createPage = false ->
   exists file children,
     tn_file node = Some file /\
     tree = CTNode (with_page file (Some parentPageId) (Some spaceKey))
              0 EmptyString children /\
     (tn_children node = [] -> s' = s)).
Proof.
  intros Hrun.
  destruct (createFileStructureInConfluence_bound node _ _ _ _ _ _ _ Hrun)
    as [Hbound Hcount].
  split; [done|]. split; [done|]. intros ->.
  destruct node as [name children [file|]]; [|done].
  rewrite createFileStructureInConfluence_unfold in Hrun.
  unfold bindPage, bind, ret in Hrun. simpl in Hrun.
  destruct (promise_all children _ s) as [[rs|e|] s2] eqn:Hchildren; [|done..].
  injection Hrun as <- <-. exists file, rs. split; [done|]. split; [done|].
  simpl. intros ->. by injection Hchildren as _ <-.
Qed.

(** ** Building the folder tree *)

(** Number of documents a folder tree holds. *)
Fixpoint docCount (node : TreeNode) : nat :=
  match node with
  | TNode _ children file =>
      match file with Some _ => 1 | None => 0 end
      + sum_list (docCount <$> children)
  end.

Lemma find_first_Some {A} (p : A -> bool) (xs : list A) i x :
  find_first p xs = Some (i, x) -> xs !! i = Some x /\ p x = true.
Proof.
  revert i. induction xs as [|y xs IH]; intros i; simpl; [done|].
  destruct (p y) eqn:Hp.
  - by intros [= <- <-].
  - destruct (find_first p xs) as [[j z]|]; [|done].
    intros [= <- <-]. by apply IH.
Qed.

Lemma sum_list_insert {A} (f : A -> nat) (xs : list A) i x y :
  xs !! i = Some x ->
  sum_list (f <$> <[i := y]> xs) + f x = sum_list (f <$> xs) + f y.
Proof.
  revert i. induction xs as [|z xs IH]; intros [|i] Hi; try done.
  - injection Hi as ->. cbn. lia.
  - specialize (IH i Hi). csimpl in *. lia.
Qed.

Section Insertion.

Context `{Platform}.

(** What a successful insertion leaves of the node it was given. *)
Definition inserted (treeNode : TreeNode)
    (r : Res (TreeNode * gset string)) : Prop :=
  forall treeNode' fileNames',
    r = Returned (treeNode', fileNames') ->
    tn_name treeNode' = tn_name treeNode /\
    tn_file treeNode' = tn_file treeNode /\
    (tn_name <$> tn_children treeNode)
      `prefix_of` (tn_name <$> tn_children treeNode') /\
    docCount treeNode' = S (docCount treeNode).

Lemma addFileToTree_inserted treeNode file relativePath fileNames :
  inserted treeNode (addFileToTree treeNode file relativePath fileNames).
Proof.
  funelim (addFileToTree treeNode file relativePath fileNames).
  - intros treeNode' fileNames' Hret.
    case_bool_decide; [done|].
    destruct (convertMDtoADF file) as [e|adfFile]; [done|].
    injection Hret as <- <-. simpl. split; [done|]. split; [done|]. split.
    + rewrite fmap_app. by apply prefix_app_r.
    + rewrite fmap_app, sum_list_with_app. simpl. lia.
  - cbn zeta. clear Heqcall. intros treeNode' fileNames' Hret.
    match goal with
    | IH : inserted ?child ?call |- _ =>
        destruct call as [[childNode' names']|e|] eqn:Hcall; [|done..];
        destruct (IH childNode' names' eq_refl) as (Hname & Hfile & _ & Hdocs)
    end.
    injection Hret as <- <-. simpl. split; [done|]. split; [done|].
    destruct (find_first _ children) as [[i child]|] eqn:Hfound.
    + apply find_first_Some in Hfound as [Hi _]. split.
      * rewrite list_fmap_insert, Hname.
        rewrite list_insert_id; [done|]. by rewrite list_lookup_fmap, Hi.
      * pose proof (sum_list_insert docCount children i child childNode' Hi).
        lia.
    + split.
      * rewrite fmap_app. by apply prefix_app_r.
      * rewrite fmap_app, sum_list_with_app. simpl in *. lia.
Qed.

(** The documents a run of insertions leaves in the tree, when no name
    repeats and the converter accepts every document. *)
Lemma forEach_insertFile_returns commonPath files :
  forall rootNode (fileNames : gset string),
    NoDup (md_fileName <$> files) ->
    (forall f, f ∈ files -> md_fileName f ∉ fileNames) ->
    (forall f, f ∈ files -> exists adfFile, convertMDtoADF f = inr adfFile) ->
    exists rootNode' fileNames',
      forEach files (rootNode, fileNames) (insertFile commonPath)
        = Returned (rootNode', fileNames') /\
      tn_name rootNode' = tn_name rootNode /\
      docCount rootNode' = docCount rootNode + length files.
Proof.
  induction files as [|file rest IH];
    intros rootNode fileNames Hnodup Hfresh Hconv.
  - exists rootNode, fileNames. simpl. split; [done|]. split; [done | lia].
  - cbn [forEach]. unfold insertFile at 1. simpl.
    rewrite fmap_cons in Hnodup. apply NoDup_cons in Hnodup as [Hnew Hnodup].
    pose proof (addFileToTree_inserted rootNode file
                  (path_relative commonPath (md_absoluteFilePath file))
                  fileNames) as Hins.
    destruct (addFileToTree_insertion rootNode file
                (path_relative commonPath (md_absoluteFilePath file)) fileNames)
      as [Hin | e Hin Hc | t' Hin].
    + exfalso. by apply (Hfresh file), Hin; apply list_elem_of_here.
    + destruct (Hconv file (list_elem_of_here _ _)) as [adfFile Hok]. congruence.
    + destruct (Hins t' _ eq_refl) as (Hname & _ & _ & Hdocs).
      destruct (IH t' ({[md_fileName file]} ∪ fileNames) Hnodup)
        as (root' & names' & Hrun & Hname' & Hdocs').
      * intros f Hf. apply not_elem_of_union. split.
        -- intros Heq%elem_of_singleton. apply Hnew.
           apply list_elem_of_fmap. by exists f.
        -- apply Hfresh. by apply list_elem_of_further.
      * intros f Hf. apply Hconv. by apply list_elem_of_further.
      * exists root', names'. simpl. rewrite Hrun. split; [done|].
        split; [congruence | simpl; lia].
Qed.

End Insertion.

(** X5: a successful [addFileToTree] leaves the node's name and own
    document as they were, keeps the names of the children it had, in
    order, and adds exactly one document to the tree. *)
Theorem addFileToTree_adds_one_document `{Platform}
    (treeNode treeNode' : TreeNode) (file : MarkdownFile)
    (relativePath : string) (fileNames fileNames' : gset string) :
  addFileToTree treeNode file relativePath fileNames
    = Returned (treeNode', fileNames') ->
  tn_name treeNode' = tn_name treeNode /\
  tn_file treeNode' = tn_file treeNode /\
  ((tn_name <$> tn_children treeNode)
     `prefix_of` (tn_name <$> tn_children treeNode')) /\
  docCount treeNode' = S (docCount treeNode) /\
  (md_fileName file ∉ fileNames) /\
  fileNames' = {[md_fileName file]} ∪ fileNames.
Proof.
  intros Hret.
  destruct (addFileToTree_inserted treeNode file relativePath fileNames
              treeNode' fileNames' Hret) as (Hname & Hfile & Hchildren & Hdocs).
  repeat (split; [done|]).
  pose proof (addFileToTree_insertion treeNode file relativePath fileNames)
    as Hins.
  rewrite Hret in Hins. inversion Hins. done.
Qed.

(** X6: on a non-empty list of documents with pairwise distinct file
    names, all of which the converter accepts, [createFolderStructure]
    returns a tree, and its root is named by the common path of the
    documents. *)
Theorem createFolderStructure_returns_on_distinct_names `{Platform}
    (markdownFiles : list MarkdownFile) :
  markdownFiles <> [] ->
  NoDup (md_fileName <$> markdownFiles) ->
  (forall f, f ∈ markdownFiles ->
     exists adfFile, convertMDtoADF f = inr adfFile) ->
  exists tree,
    createFolderStructure markdownFiles = Returned tree /\
    findCommonPath path_sep (md_absoluteFilePath <$> markdownFiles)
      = Returned (tn_name tree).
Proof.
  intros Hne Hnodup Hconv. destruct markdownFiles as [|file rest]; [done|].
  set (commonPath :=
         Path.join path_sep
           (findCommonPathParts path_sep (md_absoluteFilePath file)
              (md_absoluteFilePath <$> rest))).
  change (createFolderStructure (file :: rest))
    with (and_then
            (forEach (file :: rest) (createTreeNode commonPath, ∅)
               (insertFile commonPath))
            (fun built => Returned (processNode commonPath (fst built)))).
  destruct (forEach_insertFile_returns commonPath (file :: rest)
              (createTreeNode commonPath) ∅ Hnodup)
    as (root' & names' & Hrun & Hname & _); [set_solver | done |].
  rewrite Hrun. simpl. eexists. split; [done|].
  destruct root'. simpl in *. by subst.
Qed.

(** ** Index documents *)

(** Every node of a folder tree has a document. *)
Inductive everyNodeHasDocument : TreeNode -> Prop :=
| everyNodeHasDocument_node name children file :
    is_Some file ->
    Forall everyNodeHasDocument children ->
    everyNodeHasDocument (TNode name children file).

Section IndexDocuments.

Context `{Platform}.

(** In every folder without a document of its own, the first child named
    like the folder (extension aside), if there is one, has a document. *)
Inductive indexable : TreeNode -> Prop :=
| indexable_node name children file :
    (file = None ->
     forall i child,
       find_first
         (fun child => String.eqb (path_parse_name (tn_name child)) name)
         children = Some (i, child) ->
       is_Some (tn_file child)) ->
    Forall indexable children ->
    indexable (TNode name children file).

Lemma processNode_documents commonPath node :
  indexable node ->
  everyNodeHasDocument (processNode commonPath node) /\
  tn_name (processNode commonPath node) = tn_name node.
Proof.
  induction node as [name children nodeFile IH] using TreeNode_nested_ind.
  intros Hidx. inversion Hidx as [name' children' file' Hindex Hchildren];
    subst name' children' file'.
  cbn [processNode]. split; [|done]. constructor.
  - destruct nodeFile as [f|]; [by eexists|].
    destruct (find_first _ children) as [[i child]|] eqn:Hfound;
      [by eapply Hindex | by eexists].
  - generalize (fst <$>
                  match nodeFile with
                  | Some _ => None
                  | None =>
                      find_first
                        (fun child =>
                           String.eqb (path_parse_name (tn_name child)) name)
                        children
                  end).
    clear Hidx Hindex.
    induction IH as [|child rest Hchild _ IHrest]; intros promoted;
      [constructor|].
    apply Forall_cons in Hchildren as [Hc Hrest].
    destruct promoted as [[|k]|].
    + by apply IHrest.
    + constructor; [by apply Hchild | by apply IHrest].
    + constructor; [by apply Hchild | by apply IHrest].
Qed.

End IndexDocuments.

(** X7: [processNode] keeps every node's name and, provided that in every
    folder without a document the first child named like the folder has a
    document itself, leaves no node of the tree without a document (a
    folder takes that child's document, or else a placeholder). *)
Theorem processNode_gives_every_node_a_document `{Platform}
    (commonPath : string) (node : TreeNode) :
  indexable node ->
  everyNodeHasDocument (processNode commonPath node) /\
  tn_name (processNode commonPath node) = tn_name node.
Proof. apply processNode_documents. Qed.

(** ** Publishing *)

(** X8: when the adaptor lists no document, [doPublish] throws the
    [TypeError] of [findCommonPath] on an empty list, right after fetching
    the parent page and the list: nothing is published and no outcome is
    returned. *)
Theorem doPublish_without_documents_throws
    `{Platform} {W : Type} `{Collaborators W}
    (settings : Settings) (publishFilter : option string) (s : State W)
    (parentPage : Page) (spaceToPublishTo : string) (w1 w2 : W) :
  on_getContentById (confluenceParentId settings) (world s)
    = (inr parentPage, w1) ->
  page_space parentPage = Some spaceToPublishTo ->
  on_getMarkdownFilesToUpload w1 = (inr [], w2) ->
  doPublish settings publishFilter s
    = (Threw (TypeError "Cannot read properties of undefined (reading 'split')"),
       mkState w2
         (trace s ++ [GetContentById (confluenceParentId settings);
                      GetMarkdownFilesToUpload])).
Proof.
  intros Hparent Hspace Hfiles. unfold doPublish.
  unfold bind at 1. unfold call at 1. rewrite Hparent, Hspace.
  unfold bind at 1. unfold call at 1. simpl. rewrite Hfiles.
  unfold bind, lift. simpl. by rewrite <- app_assoc.
Qed.

Lemma find_app {A} (p : A -> bool) (l1 l2 : list A) :
  List.find p (l1 ++ l2)
    = match List.find p l1 with
      | Some x => Some x
      | None => List.find p l2
      end.
Proof. induction l1 as [|x l1 IH]; simpl; [done|]. by destruct (p x). Qed.

Section FileMap.

Context `{Platform}.

Lemma buildFileToPageIdMap_from (pages : list ConfluenceNode) :
  forall acc : gmap string AdfFile,
    match forEach pages acc
            (fun fileToPageIdMap node =>
               if negb (truthy (pageId (cn_file node))) then
                 Threw (Error "Missing Page ID")
               else
                 Returned (<[fileName (cn_file node) := cn_file node]>
                             fileToPageIdMap)) with
    | Returned m =>
        Forall (fun node => truthy (pageId (cn_file node)) = true) pages /\
        forall name,
          m !! name
            = match List.find (fun f => String.eqb (fileName f) name)
                      (reverse (cn_file <$> pages)) with
              | Some f => Some f
              | None => acc !! name
              end
    | Threw e =>
        e = Error "Missing Page ID" /\
        Exists (fun node => truthy (pageId (cn_file node)) = false) pages
    | Diverged => False
    end.
Proof.
  induction pages as [|node rest IH]; intros acc; cbn [forEach].
  - split; [constructor | done].
  - destruct (truthy (pageId (cn_file node))) eqn:Hid; simpl.
    + specialize (IH (<[fileName (cn_file node) := cn_file node]> acc)).
      destruct (forEach rest _ _) as [m|e|]; [| |done].
      * destruct IH as [Hall Hlookup]. split; [by constructor|].
        intros name. rewrite Hlookup.
        change (cn_file <$> node :: rest)
          with (cn_file node :: (cn_file <$> rest)).
        rewrite reverse_cons, find_app.
        change (list_fmap ConfluenceNode AdfFile cn_file rest)
          with (cn_file <$> rest).
        destruct (List.find _ (reverse (cn_file <$> rest))); [done|]. simpl.
        destruct (String.eqb_spec (fileName (cn_file node)) name) as [->|Hne].
        -- by rewrite lookup_insert_eq.
        -- by rewrite lookup_insert_ne.
      * destruct IH as [-> Hex]. split; [done | by apply Exists_cons_tl].
    + split; [done | by apply Exists_cons_hd].
Qed.

End FileMap.

(** X9: [buildFileToPageIdMap], the first loop of [doPublish], throws
    "Missing Page ID" exactly when some page has no (non-empty) page id;
    otherwise the map it returns answers a file name with the last page
    document of that file name, and knows no other name. *)
Theorem buildFileToPageIdMap_last_document_wins `{Platform}
    (pages : list ConfluenceNode) :
  match buildFileToPageIdMap pages with
  | Returned fileToPageIdMap =>
      Forall (fun node => truthy (pageId (cn_file node)) = true) pages /\
      forall name,
        fileToPageIdMap !! name
          = List.find (fun f => String.eqb (fileName f) name)
              (reverse (cn_file <$> pages))
  | Threw e =>
      e = Error "Missing Page ID" /\
      Exists (fun node => truthy (pageId (cn_file node)) = false) pages
  | Diverged => False
  end.
Proof.
  pose proof (buildFileToPageIdMap_from pages ∅) as Hfrom.
  unfold buildFileToPageIdMap. destruct (forEach pages ∅ _) as [m|e|]; [|done..].
  destruct Hfrom as [Hall Hlookup]. split; [done|]. intros name.
  rewrite Hlookup, lookup_empty. by destruct (List.find _ _).
Qed.

(** ** Attachments *)

(** What [currentAttachments] keeps of a listed attachment. *)
Definition listed (a : Attachment) : CurrentAttachment :=
  {| filehash := att_comment a;
     attachmentId := att_fileId a;
     collectionName := att_collectionName a |}.

Section Attachments.

Context `{Platform} {W : Type} `{Collaborators W}.

Lemma attachmentsByTitle_from (results : list Attachment) :
  forall (acc : gmap string CurrentAttachment) title,
    fold_left
      (fun prev curr =>
         <[att_title curr :=
             {| filehash := att_comment curr;
                attachmentId := att_fileId curr;
                collectionName := att_collectionName curr |}]> prev)
      results acc !! title
    = match List.find (fun a => String.eqb (att_title a) title)
              (reverse results) with
      | Some a => Some (listed a)
      | None => acc !! title
      end.
Proof.
  induction results as [|curr rest IH]; intros acc title; [done|].
  cbn [fold_left]. rewrite IH, reverse_cons, find_app.
  destruct (List.find _ (reverse rest)); [done|]. simpl.
  destruct (String.eqb_spec (att_title curr) title) as [->|Hne].
  - by rewrite lookup_insert_eq.
  - by rewrite lookup_insert_ne.
Qed.

End Attachments.

(** X10: the index [uploadFiles] builds from a page's attachment listing
    answers a title with the last listed attachment of that title (its
    comment as fingerprint, its file id and collection name), and knows no
    title that is not listed. *)
Theorem attachmentsByTitle_last_listed_wins `{Platform}
    (results : list Attachment) (title : string) :
  attachmentsByTitle results !! title
    = listed <$>
        List.find (fun a => String.eqb (att_title a) title) (reverse results).
Proof.
  unfold attachmentsByTitle. rewrite attachmentsByTitle_from, lookup_empty.
  by destruct (List.find _ _).
Qed.

(** X11: [uploadFile] on a readable binary uploads nothing when the index
    holds an attachment named by the path fingerprint and the file name
    whose stored fingerprint is that of the bytes: it returns the stored
    identifiers after the one read. In every other case it issues one
    upload under that name, with the new fingerprint as comment. *)
Theorem uploadFile_uploads_unless_fingerprint_matches
    `{Platform} {W : Type} `{Collaborators W}
    (pageId pageFilePath : string) (fileNameToUpload : option string)
    (currentAttachments : gmap string CurrentAttachment)
    (s : State W) (binary : Binary) (w1 : W) :
  on_readBinary fileNameToUpload pageFilePath (world s)
    = (inr (Some binary), w1) ->
  let uploadFilename :=
    md5 (bin_filePath binary) +:+ "-" +:+ bin_filename binary in
  let currentFileMd5 := md5_buffer (bin_contents binary) in
  let run :=
    uploadFile pageId pageFilePath fileNameToUpload currentAttachments s in
  (forall existing,
     currentAttachments !! uploadFilename = Some existing ->
     filehash existing = Some currentFileMd5 ->
     run = (Returned (Some {| img_filename := fileNameToUpload;
                              img_id := attachmentId existing;
                              img_collection := collectionName existing |}),
            mkState w1
              (trace s ++ [ReadBinary fileNameToUpload pageFilePath]))) /\
  ((forall existing,
      currentAttachments !! uploadFilename = Some existing ->
      filehash existing <> Some currentFileMd5) ->
   trace run.2 = trace s ++
     [ReadBinary fileNameToUpload pageFilePath;
      CreateOrUpdateAttachments pageId uploadFilename currentFileMd5
        (bin_contents binary) None]).
Proof.
  intros Hread uploadFilename currentFileMd5 run. subst run.
  destruct (uploadFile pageId pageFilePath fileNameToUpload currentAttachments s)
    as [r s'] eqn:Hrun.
  unfold uploadFile in Hrun. unfold bind at 1 in Hrun. unfold call at 1 in Hrun.
  rewrite Hread in Hrun. fold uploadFilename currentFileMd5 in Hrun.
  unfold sameAttachment in Hrun. split.
  - intros existing Hlookup Hhash. rewrite Hlookup in Hrun.
    rewrite bool_decide_true in Hrun by done. by injection Hrun as <- <-.
  - intros Hdiffers.
    assert (match currentAttachments !! uploadFilename with
            | Some a =>
                if bool_decide (filehash a = Some currentFileMd5)
                then Some a else None
            | None => None
            end = None) as Hnone.
    { destruct (currentAttachments !! uploadFilename) as [a|] eqn:Ha; [|done].
      rewrite bool_decide_false; [done|]. by apply Hdiffers. }
    rewrite Hnone in Hrun. unfold createAttachment, bind, call in Hrun.
    simpl in Hrun.
    destruct (on_createOrUpdateAttachments _ _ _ _ _ w1) as [[p|[|u us]] w2];
      injection Hrun as <- <-; simpl; by rewrite <- app_assoc.
Qed.

(** ** Reading binaries *)

Definition is_read (ev : Event) : bool :=
  match ev with ReadBinary _ _ => true | _ => false end.

(** The name [uploadFiles] asks the adaptor for: what follows the scheme
    separator in the reference. *)
Definition binaryName (imageUrl : option AttrVal) : option string :=
  match imageUrl with
  | Some (AStr url) => Path.splitOn "://" 0 EmptyString url !! 1
  | _ => None
  end.

Lemma Set_values_spec {A} `{EqDecision A} (xs : list A) :
  forall seen,
    NoDup (Set_values seen xs) /\
    forall x, x ∈ Set_values seen xs <-> x ∈ xs /\ x ∉ seen.
Proof.
  induction xs as [|y xs IH]; intros seen; cbn [Set_values].
  - split; [constructor|]. intros x. split; [by intros ?%elem_of_nil|].
    by intros [?%elem_of_nil _].
  - case_bool_decide as Hseen.
    + destruct (IH seen) as [Hnodup Hin]. split; [done|]. intros x.
      rewrite Hin, elem_of_cons. split; [tauto|].
      intros [[-> | Hx] Hnot]; [done | tauto].
    + destruct (IH (y :: seen)) as [Hnodup Hin]. split.
      * constructor; [|done]. rewrite Hin, elem_of_cons. tauto.
      * intros x. rewrite !elem_of_cons, Hin, elem_of_cons.
        destruct (decide (x = y)) as [->|Hne]; tauto.
Qed.

Section Reads.

Context `{Platform} {W : Type} `{Collaborators W}.

(** A finished loop whose rounds each add one event passing [test] has
    added one such event per element, in order. *)
Lemma fold_of_events {A B} (test : Event -> bool) (g : A -> Event)
    (Q : A -> Prop) (body : B -> A -> M W B) (xs : list A) :
  (forall acc x (s s1 : State W) acc1,
     body acc x s = (Returned acc1, s1) ->
     Q x /\
     List.filter test (trace s1) = List.filter test (trace s) ++ [g x]) ->
  forall acc (s s' : State W) r,
    fold_of xs acc body s = (Returned r, s') ->
    Forall Q xs /\
    List.filter test (trace s') = List.filter test (trace s) ++ (g <$> xs).
Proof.
  intros Hbody. induction xs as [|x xs IH]; intros acc s s' r Hrun;
    cbn [fold_of] in Hrun.
  - injection Hrun as _ <-. split; [constructor | by rewrite app_nil_r].
  - unfold bind in Hrun.
    destruct (body acc x s) as [[acc1|e|] s1] eqn:Hx; [|done..].
    destruct (Hbody _ _ _ _ _ Hx) as [HQ Hs1].
    destruct (IH _ _ _ _ Hrun) as [Hall Hs'].
    split; [by constructor|]. rewrite Hs', Hs1, <- app_assoc. done.
Qed.

Lemma emits_createAttachment_upload pageId uploadFilename fingerprint file
    contentType filename :
  emits (fun ev => is_upload ev = true)
    (createAttachment (W:=W) pageId uploadFilename fingerprint file
       contentType filename).
Proof.
  unfold createAttachment. apply emits_bind; [by apply emits_call|].
  intros [|uploaded rest]; auto with emits.
Qed.

Lemma uploadFile_reads_once pageId pageFilePath fileNameToUpload
    currentAttachments (s : State W) :
  List.filter is_read
    (trace (uploadFile pageId pageFilePath fileNameToUpload
              currentAttachments s).2)
  = List.filter is_read (trace s) ++ [ReadBinary fileNameToUpload pageFilePath].
Proof.
  unfold uploadFile, bind, call.
  destruct (on_readBinary _ _ _) as [[payload|[binary|]] w1]; simpl;
    try (by rewrite List.filter_app).
  destruct (sameAttachment _ _ _); [simpl; by rewrite List.filter_app|].
  match goal with
  | |- context [createAttachment ?a ?b ?c ?d ?e ?f ?st] =>
      rewrite (emits_filter (fun ev => is_upload ev = true) is_read
                 (createAttachment a b c d e f) st)
  end.
  - simpl. by rewrite List.filter_app.
  - apply emits_createAttachment_upload.
  - by intros [].
Qed.

Lemma uploadBuffer_reads_nothing pageId uploadFilename fileBuffer
    currentAttachments (s : State W) :
  List.filter is_read
    (trace (uploadBuffer pageId uploadFilename fileBuffer
              currentAttachments s).2)
  = List.filter is_read (trace s).
Proof.
  apply (emits_filter (fun ev => is_upload ev = true)); [|by intros []].
  unfold uploadBuffer. destruct (sameAttachment _ _ _); auto with emits.
  apply emits_createAttachment_upload.
Qed.

End Reads.

(** X12: when [uploadFiles] returns, every [file] media node of the body
    has a string reference, and the adaptor was asked for one binary per
    distinct reference, in the order of first occurrence: a binary the body
    refers to several times is read once. *)
Theorem uploadFiles_reads_each_reference_once
    `{Platform} {W : Type} `{Collaborators W}
    (pageId pageFilePath : string) (adr : ADFEntity) (s s' : State W)
    (updatedAdf : option ADFEntity) :
  uploadFiles pageId pageFilePath adr s = (Returned updatedAdf, s') ->
  let references := attr "url" <$> filter_adf isFileMedia adr in
  let imagesToUpload := Set_values [] references in
  NoDup imagesToUpload /\
  (forall imageUrl, imageUrl ∈ imagesToUpload <-> imageUrl ∈ references) /\
  Forall (fun imageUrl => exists url, imageUrl = Some (AStr url)) references /\
  List.filter is_read (trace s')
    = List.filter is_read (trace s) ++
      ((fun imageUrl => ReadBinary (binaryName imageUrl) pageFilePath)
         <$> imagesToUpload).
Proof.
  intros Hrun references imagesToUpload.
  destruct (Set_values_spec references []) as [Hnodup Hin].
  assert (forall imageUrl, imageUrl ∈ imagesToUpload <-> imageUrl ∈ references)
    as Hsame.
  { intros x. unfold imagesToUpload. rewrite Hin. split; [tauto|].
    intros Hx. split; [done | by intros ?%elem_of_nil]. }
  split; [done|]. split; [done|].
  unfold uploadFiles in Hrun.
  unfold bind at 1 in Hrun. unfold call at 1 in Hrun.
  destruct (on_captureMermaidCharts _ _) as [[p|images] w1]; [done|].
  unfold bind at 1 in Hrun. unfold call at 1 in Hrun. simpl in Hrun.
  destruct (on_getAttachments pageId w1) as [[p|listing] w2]; [done|].
  unfold bind at 1 in Hrun. fold references imagesToUpload in Hrun.
  match type of Hrun with
  | context [fold_of imagesToUpload ?acc0 ?b0 ?st0] =>
      destruct (fold_of imagesToUpload acc0 b0 st0)
        as [[imageMap|e|] s3] eqn:Hfold; [|done..];
      assert (Forall (fun imageUrl => exists url, imageUrl = Some (AStr url))
                imagesToUpload /\
              List.filter is_read (trace s3)
                = List.filter is_read (trace st0) ++
                  ((fun imageUrl =>
                      ReadBinary (binaryName imageUrl) pageFilePath)
                     <$> imagesToUpload)) as [Hstrings Hreads]
  end.
  { eapply fold_of_events; [|exact Hfold].
    intros acc [[url|other]|] s0 s1 acc1 Hbody; try done.
    unfold bind in Hbody.
    pose proof (uploadFile_reads_once pageId pageFilePath
                  (Path.splitOn "://" 0 EmptyString url !! 1)
                  (attachmentsByTitle listing) s0) as Hread.
    destruct (uploadFile _ _ _ _ s0) as [[u|e|] s1'] eqn:Hup; [|done..].
    injection Hbody as _ <-. split; [by eexists | done]. }
  unfold bind at 1 in Hrun.
  match type of Hrun with
  | context [fold_of images imageMap ?b s3] =>
      pose proof (emits_filter (fun ev => is_upload ev = true) is_read
                    (fold_of images imageMap b) s3) as Hmermaid;
      destruct (fold_of images imageMap b s3) as [[imageMap'|e|] s4];
        [|done..]
  end.
  unfold lift in Hrun. injection Hrun as _ <-.
  split.
  - apply Forall_forall. intros x Hx%Hsame.
    by apply (proj1 (Forall_forall _ _) Hstrings).
  - simpl in Hmermaid. rewrite Hmermaid, Hreads.
    + simpl. rewrite !List.filter_app. simpl. by rewrite !app_nil_r.
    + apply emits_fold_of. intros acc image.
      apply emits_bind; [|auto with emits].
      unfold uploadBuffer. destruct (sameAttachment _ _ _); auto with emits.
      apply emits_createAttachment_upload.
    + by intros [].
Qed.

(** ** Bodies without assets *)

Section Unchanged.

Context `{Platform} {W : Type} `{Collaborators W}.

Lemma rewrite_without_assets imageMap (adr : ADFEntity) :
  filter_adf isFileMedia adr = [] ->
  filter_adf isMermaidBlock adr = [] ->
  traverse (depth adr) adr (rewriteVisitors imageMap) = Returned (Some adr).
Proof.
  intros Hmedia Hmermaid. apply traverseNode_all_keep; [done|].
  intros n visitor Hn Hv.
  assert (isFileMedia n = false) as Hnm.
  { destruct (isFileMedia n) eqn:Hb; [|done].
    pose proof (filter_adf_elem _ _ _ Hn Hb) as Hin.
    rewrite Hmedia in Hin. by apply elem_of_nil in Hin. }
  assert (isMermaidBlock n = false) as Hnb.
  { destruct (isMermaidBlock n) eqn:Hb; [|done].
    pose proof (filter_adf_elem _ _ _ Hn Hb) as Hin.
    rewrite Hmermaid in Hin. by apply elem_of_nil in Hin. }
  destruct (decide (type n = "codeBlock")) as [Hcb|Hcb].
  { rewrite (visitorFor_codeBlock imageMap n Hcb) in Hv. injection Hv as <-.
    unfold isMermaidBlock in Hnb. rewrite Hcb in Hnb. simpl in Hnb.
    unfold codeBlockVisitor. by rewrite Hnb. }
  destruct (decide (type n = "media")) as [Hm|Hm].
  { rewrite (visitorFor_media imageMap n Hm) in Hv. injection Hv as <-.
    unfold isFileMedia in Hnm. rewrite Hm in Hnm. simpl in Hnm.
    unfold mediaVisitor. by rewrite Hnm. }
  by rewrite (visitorFor_other imageMap n Hcb Hm) in Hv.
Qed.

End Unchanged.

(** X13: for a body without [file] media nodes and without mermaid blocks,
    what [uploadFiles] returns is the body it was given, and it reads no
    binary: the renderer is asked for no chart, and whatever it and the
    listing answer, the rewrite leaves the body as it is. *)
Theorem uploadFiles_without_assets_returns_body
    `{Platform} {W : Type} `{Collaborators W}
    (pageId pageFilePath : string) (adr : ADFEntity) (s s' : State W)
    (updatedAdf : option ADFEntity) :
  filter_adf isFileMedia adr = [] ->
  filter_adf isMermaidBlock adr = [] ->
  uploadFiles pageId pageFilePath adr s = (Returned updatedAdf, s') ->
  updatedAdf = Some adr /\
  CaptureMermaidCharts [] ∈ trace s' /\
  List.filter is_read (trace s') = List.filter is_read (trace s).
Proof.
  intros Hmedia Hmermaid Hrun.
  destruct (uploadFiles_reads_each_reference_once _ _ _ _ _ _ Hrun)
    as (_ & _ & _ & Hreads).
  rewrite Hmedia in Hreads. simpl in Hreads. rewrite app_nil_r in Hreads.
  pose proof (uploadFiles_asks_renderer pageId pageFilePath adr s) as Hasked.
  rewrite Hrun, Hmermaid in Hasked. simpl in Hasked.
  split; [|done].
  unfold uploadFiles in Hrun. rewrite Hmedia, Hmermaid in Hrun.
  unfold bind at 1 in Hrun. unfold call at 1 in Hrun.
  destruct (on_captureMermaidCharts _ _) as [[p|images] w1]; [done|].
  unfold bind at 1 in Hrun. unfold call at 1 in Hrun. simpl in Hrun.
  destruct (on_getAttachments pageId w1) as [[p|listing] w2]; [done|].
  simpl in Hrun. unfold bind at 1 in Hrun. unfold ret at 1 in Hrun.
  unfold bind at 1 in Hrun.
  match type of Hrun with
  | context [fold_of images ?acc0 ?b0 ?st0] =>
      destruct (fold_of images acc0 b0 st0) as [[imageMap|e|] s4]; [|done..]
  end.
  rewrite (rewrite_without_assets imageMap adr Hmedia Hmermaid) in Hrun.
  by injection Hrun as <- _.
Qed.

(** ** Documents without internal links *)

(** The first mark of a node is a link whose target is a string with the
    internal scheme. *)
Definition leadsWithWikilink (n : ADFEntity) : bool :=
  match marks n with
  | Some (mark0 :: _) =>
      String.eqb (mark_type mark0) "link" &&
      match mark_attrs mark0 with
      | Some linkAttrs =>
          match Obj.get "href" linkAttrs with
          | Some (AStr href) => String.prefix "wikilink" href
          | _ => false
          end
      | None => false
      end
  | _ => false
  end.

(** A text node with a [marks] array that holds no mark. *)
Definition hasEmptyMarks (n : ADFEntity) : bool :=
  String.eqb (type n) "text" &&
  match marks n with Some [] => true | _ => false end.

Definition readingType : Exn :=
  TypeError "Cannot read properties of undefined (reading 'type')".

Definition removeNotAFunction : Exn :=
  TypeError "node.marks.remove is not a function".

Lemma with_contents_same (file : AdfFile) :
  with_contents file (contents file) = file.
Proof. by destruct file. Qed.

Section LinkFree.

Context `{Platform}.
Variable settings : Settings.

Lemma wikilinkVisitor_keeps fileToPageIdMap n :
  marks n <> Some [] -> leadsWithWikilink n = false ->
  wikilinkVisitor settings fileToPageIdMap n = Returned Keep.
Proof.
  unfold leadsWithWikilink, wikilinkVisitor. intros Hmarks Hlead.
  destruct (marks n) as [[|mark0 otherMarks]|]; [done| |done].
  destruct (String.eqb (mark_type mark0) "link"); [|done]. simpl in Hlead.
  destruct (mark_attrs mark0) as [linkAttrs|]; [|done].
  destruct (Obj.get "href" linkAttrs) as [[href|]|]; [|done..].
  by rewrite Hlead.
Qed.

Lemma wikilinkVisitor_empty_marks fileToPageIdMap n :
  marks n = Some [] ->
  wikilinkVisitor settings fileToPageIdMap n = Threw readingType.
Proof. unfold wikilinkVisitor. by intros ->. Qed.

Lemma visitorFor_text fileToPageIdMap n :
  type n = "text" ->
  visitorFor (linkVisitors settings fileToPageIdMap) n
    = Some (wikilinkVisitor settings fileToPageIdMap).
Proof.
  intros Ht. unfold visitorFor, linkVisitors. by rewrite Ht, lookup_insert_eq.
Qed.

Lemma visitorFor_not_text fileToPageIdMap n :
  type n <> "text" ->
  visitorFor (linkVisitors settings fileToPageIdMap) n = None.
Proof.
  intros Ht. unfold visitorFor, linkVisitors.
  by rewrite !lookup_insert_ne, !lookup_empty.
Qed.

Lemma traverseContent_not_returned f (cs : list ADFEntity) c :
  c ∈ cs -> (forall r, f c <> Returned r) ->
  forall r, traverseContent f cs <> Returned r.
Proof.
  intros Hc Hf. induction Hc as [c cs|c c' cs _ IH]; intros r; simpl.
  - destruct (f c) as [processed| |] eqn:Hfc; [by destruct (Hf processed)|done..].
  - destruct (f c') as [processed| |]; [|done..].
    destruct (traverseContent f cs) as [acc| |] eqn:Hcs; [|done..].
    by destruct (IH Hf acc).
Qed.

(** A text node with an empty [marks] array, anywhere in the document,
    keeps the traversal from returning. *)
Lemma links_empty_marks_not_returned fileToPageIdMap (adf bad : ADFEntity) :
  bad ∈ subnodes adf -> hasEmptyMarks bad = true ->
  forall fuel r,
    traverseNode fuel (linkVisitors settings fileToPageIdMap) adf <> Returned r.
Proof.
  unfold subnodes.
  induction adf as [t a m x | t a cs m x IH] using ADFEntity_nested_ind;
    intros Hbad Hempty fuel r; (destruct fuel as [|fuel]; [done|]).
  - cbn [filter_adf] in Hbad. rewrite app_nil_r in Hbad.
    apply list_elem_of_singleton in Hbad as ->.
    apply andb_prop in Hempty as [Htype%String.eqb_eq Hmarks].
    cbn [traverseNode]. rewrite (visitorFor_text _ _ Htype).
    rewrite wikilinkVisitor_empty_marks; [done|].
    simpl in *. by destruct m as [[|]|].
  - cbn [filter_adf] in Hbad. apply elem_of_app in Hbad as [Hbad|Hbad].
    + apply list_elem_of_singleton in Hbad as ->.
      apply andb_prop in Hempty as [Htype%String.eqb_eq Hmarks].
      cbn [traverseNode]. rewrite (visitorFor_text _ _ Htype).
      rewrite wikilinkVisitor_empty_marks; [done|].
      simpl in *. by destruct m as [[|]|].
    + assert (exists c, c ∈ cs /\ bad ∈ filter_adf (fun _ => true) c)
        as (c & Hc & Hin).
      { clear IH. induction cs as [|c cs IHcs]; simpl in Hbad.
        - by apply elem_of_nil in Hbad.
        - apply elem_of_app in Hbad as [Hbad|Hbad].
          + exists c. split; [apply list_elem_of_here | done].
          + destruct (IHcs Hbad) as (c' & Hc' & Hin).
            exists c'. split; [by apply list_elem_of_further | done]. }
      pose proof (proj1 (Forall_forall _ _) IH c Hc Hin Hempty) as Hchild.
      pose proof (traverseContent_not_returned
                    (traverseNode fuel (linkVisitors settings fileToPageIdMap))
                    cs c Hc (Hchild fuel)) as Hcs.
      cbn [traverseNode].
      set (n := Node t a (Some cs) m x).
      destruct (visitorFor _ n) as [visitor|] eqn:Hv.
      * apply visitorFor_linkVisitors in Hv as ->.
        destruct (wikilinkVisitor_cases settings fileToPageIdMap n)
          as [Hv | [[e Hv] | (n' & Hv & Hcontent)]]; rewrite Hv; [|done|].
        -- simpl. destruct (traverseContent _ cs) as [acc| |] eqn:Hacc; [|done..].
           by destruct (Hcs acc).
        -- rewrite Hcontent. simpl.
           destruct (traverseContent _ cs) as [acc| |] eqn:Hacc; [|done..].
           by destruct (Hcs acc).
      * simpl. destruct (traverseContent _ cs) as [acc| |] eqn:Hacc; [|done..].
        by destruct (Hcs acc).
Qed.

(** What the text visitor throws: reading the type of a first mark that is
    not there, or, on a leading internal-scheme link, the target that is
    no URL or the call of [remove] for a document that is not in the
    map. *)
Lemma wikilinkVisitor_throws fileToPageIdMap n e :
  wikilinkVisitor settings fileToPageIdMap n = Threw e ->
  e = readingType \/
  (leadsWithWikilink n = true /\
   (e = TypeError "Invalid URL" \/ e = removeNotAFunction)).
Proof.
  unfold wikilinkVisitor, leadsWithWikilink.
  destruct (marks n) as [[|mark0 otherMarks]|]; [| |done].
  - intros [= <-]. by left.
  - destruct (String.eqb (mark_type mark0) "link"); [|done].
    destruct (mark_attrs mark0) as [linkAttrs|]; [|done].
    destruct (Obj.get "href" linkAttrs) as [[href|]|]; [|done..].
    destruct (String.prefix "wikilink" href); [|done].
    destruct (URL_parse href) as [[pathname hash]|].
    + destruct (fileToPageIdMap !! _) as [linkPage|].
      * by case_bool_decide.
      * intros [= <-]. right. split; [done|]. by right.
    + intros [= <-]. right. split; [done|]. by left.
Qed.

Lemma traverseContent_thrower f (cs : list ADFEntity) e :
  traverseContent f cs = Threw e -> exists c, c ∈ cs /\ f c = Threw e.
Proof.
  induction cs as [|c cs IH]; simpl; [done|].
  destruct (f c) as [processed|e'|] eqn:Hfc; [| |done].
  - destruct (traverseContent f cs) as [acc|e'|]; [done| |done].
    intros [= <-]. destruct IH as (c' & Hc' & Hthrew); [done|].
    exists c'. split; [by apply list_elem_of_further | done].
  - intros [= <-]. exists c. split; [apply list_elem_of_here | done].
Qed.

(** Whatever link resolution throws was thrown by the text visitor on a
    text node of the document. *)
Lemma links_thrower fileToPageIdMap (adf : ADFEntity) :
  forall fuel e,
    traverseNode fuel (linkVisitors settings fileToPageIdMap) adf = Threw e ->
    exists n,
      n ∈ subnodes adf /\ type n = "text" /\
      wikilinkVisitor settings fileToPageIdMap n = Threw e.
Proof.
  induction adf as [t a m x | t a cs m x IH] using ADFEntity_nested_ind;
    intros fuel e; (destruct fuel as [|fuel]; [done|]); cbn [traverseNode].
  - set (n := Node t a None m x).
    destruct (decide (type n = "text")) as [Htext|Htext].
    + rewrite (visitorFor_text fileToPageIdMap n Htext).
      destruct (wikilinkVisitor_cases settings fileToPageIdMap n)
        as [Hv | [[e' Hv] | (n' & Hv & Hcontent)]]; rewrite Hv.
      * done.
      * intros [= <-]. exists n. split; [apply subnodes_self | done].
      * by rewrite Hcontent.
    + by rewrite (visitorFor_not_text fileToPageIdMap n Htext).
  - set (n := Node t a (Some cs) m x).
    assert (forall e',
              traverseContent
                (traverseNode fuel (linkVisitors settings fileToPageIdMap)) cs
                = Threw e' ->
              exists k,
                k ∈ subnodes n /\ type k = "text" /\
                wikilinkVisitor settings fileToPageIdMap k = Threw e') as Hcs.
    { intros e' (c & Hc & Hthrew)%traverseContent_thrower.
      destruct (proj1 (Forall_forall _ _) IH c Hc fuel e' Hthrew)
        as (k & Hk & Htype & Hvisit).
      exists k. split; [|done].
      by apply (filter_adf_child _ t a cs m x c k Hc). }
    destruct (decide (type n = "text")) as [Htext|Htext].
    + rewrite (visitorFor_text fileToPageIdMap n Htext).
      destruct (wikilinkVisitor_cases settings fileToPageIdMap n)
        as [Hv | [[e' Hv] | (n' & Hv & Hcontent)]]; rewrite Hv.
      * simpl. destruct (traverseContent _ cs) eqn:Hrun; [done| |done].
        intros [= <-]. by apply Hcs.
      * intros [= <-]. exists n. split; [apply subnodes_self | done].
      * rewrite Hcontent. simpl.
        destruct (traverseContent _ cs) eqn:Hrun; [done| |done].
        intros [= <-]. by apply Hcs.
    + rewrite (visitorFor_not_text fileToPageIdMap n Htext). simpl.
      destruct (traverseContent _ cs) eqn:Hrun; [done| |done].
      intros [= <-]. by apply Hcs.
Qed.

End LinkFree.

(** X14: link resolution leaves a document as it is when none of its text
    nodes starts its marks with an internal-scheme link and none has an
    empty [marks] array: the document comes back with the same body,
    whatever the file-name map holds. *)
Theorem resolveLinks_without_wikilinks_is_identity `{Platform}
    (settings : Settings) (fileToPageIdMap : gmap string AdfFile)
    (node : ConfluenceNode) :
  Forall (fun n => type n = "text" ->
                   leadsWithWikilink n = false /\ hasEmptyMarks n = false)
         (subnodes (contents (cn_file node))) ->
  resolveLinks settings fileToPageIdMap node = Returned node.
Proof.
  intros Hfree. unfold resolveLinks, traverse.
  rewrite traverseNode_all_keep; [| done |].
  - simpl. rewrite with_contents_same. by destruct node.
  - intros n visitor Hn Hv.
    destruct (decide (type n = "text")) as [Htext|Htext].
    + rewrite (visitorFor_text settings fileToPageIdMap n Htext) in Hv.
      injection Hv as <-.
      destruct (proj1 (Forall_forall _ _) Hfree n Hn Htext) as [Hlead Hempty].
      apply wikilinkVisitor_keeps; [|done].
      unfold hasEmptyMarks in Hempty. rewrite Htext in Hempty. simpl in Hempty.
      by destruct (marks n) as [[|]|].
    + by rewrite (visitorFor_not_text settings fileToPageIdMap n Htext) in Hv.
Qed.

(** X15: a text node with an empty [marks] array, anywhere in a document,
    makes link resolution throw for that document: the visitor reads
    [marks[0].type]. What is thrown is that [TypeError] when no text node
    of the document starts its marks with an internal-scheme link;
    otherwise it may instead be the [TypeError] of such a link, for a
    target that is no URL or for the call of [remove] on the marks. *)
Theorem resolveLinks_throws_on_empty_marks `{Platform}
    (settings : Settings) (fileToPageIdMap : gmap string AdfFile)
    (node : ConfluenceNode) (bad : ADFEntity) :
  bad ∈ subnodes (contents (cn_file node)) ->
  hasEmptyMarks bad = true ->
  let run := resolveLinks settings fileToPageIdMap node in
  (run = Threw readingType \/
   run = Threw (TypeError "Invalid URL") \/
   run = Threw (TypeError "node.marks.remove is not a function")) /\
  (Forall (fun n => type n = "text" -> leadsWithWikilink n = false)
     (subnodes (contents (cn_file node))) ->
   run = Threw readingType).
Proof.
  intros Hbad Hempty run. subst run.
  pose proof (resolveLinks_ends settings fileToPageIdMap node) as Hends.
  unfold resolveLinks, traverse in *.
  pose proof (links_empty_marks_not_returned settings fileToPageIdMap _ bad
                Hbad Hempty (depth (contents (cn_file node)))) as Hnot.
  destruct (traverseNode _ _ _) as [r|e|] eqn:Hrun; [by destruct (Hnot r)| |done].
  simpl.
  destruct (links_thrower settings fileToPageIdMap _ _ _ Hrun)
    as (n & Hn & Htext & Hvisit).
  apply wikilinkVisitor_throws in Hvisit as [-> | [Hlead [-> | ->]]].
  - split; [by left | done].
  - split; [right; by left|]. intros Hfree.
    rewrite (proj1 (Forall_forall _ _) Hfree n Hn Htext) in Hlead. done.
  - split; [right; by right|]. intros Hfree.
    rewrite (proj1 (Forall_forall _ _) Hfree n Hn Htext) in Hlead. done.
Qed.

(** ** Labels *)

Section Labels.

Context `{Platform} {W : Type} `{Collaborators W}.

(** A loop whose body makes one call for the elements that pass a test
    and none for the others. *)
Lemma for_of_guarded_calls {A} (xs : list A) (guard : A -> bool)
    (ev : A -> Event) (handler : A -> W -> (string + unit) * W) :
  forall s s' : State W,
    for_of xs (fun x => if guard x then call (ev x) (handler x) else ret tt) s
      = (Returned tt, s') ->
    trace s' = trace s ++ (ev <$> List.filter guard xs).
Proof.
  induction xs as [|x xs IH]; intros s s'; simpl.
  - unfold ret. intros [= <-]. by rewrite app_nil_r.
  - unfold bind at 1. destruct (guard x).
    + unfold call at 1. destruct (handler x (world s)) as [[payload|[]] w1];
        [done|].
      intros Hrest%IH. rewrite Hrest. simpl. by rewrite <- app_assoc.
    + unfold ret at 1. apply IH.
Qed.

End Labels.

(** X16: when [updatePageContent] goes through with an update, the calls
    that follow the asset calls are, in this order: the update, one fetch of
    the page's labels, one removal for every label the remote listed in its
    answer to that fetch whose [label] is not among the document's tags
    (the removal names the label's [name]), and, unless every tag is
    already listed, one addition that carries the tags missing from the
    listing in the order of the tags. *)
Theorem updatePageContent_reconciles_labels
    `{Platform} {W : Type} `{Collaborators W}
    (pageId path : string) (adf : ADFEntity) (parentPageId : string)
    (version : Z) (pageTitle currentContents : string) (labels : list string)
    (adfFile : AdfFile) (s s' : State W) :
  updatePageContent pageId path adf parentPageId version pageTitle
    currentContents labels adfFile s = (Returned None, s') ->
  exists (s1 : State W) (updatedAdf : option ADFEntity) (w2 w3 : W)
         (size : Z) (currentLabels : list Label),
    let details :=
      {| upd_id := pageId;
         upd_ancestors :=
           if dontChangeParentPageId adfFile then None
           else Some [parentPageId];
         upd_version := (version + 1)%Z;
         upd_title := pageTitle;
         upd_body := JSON_stringify updatedAdf |} in
    uploadFiles pageId path adf s = (Returned updatedAdf, s1) /\
    on_updateContent details (world s1) = (inr tt, w2) /\
    on_getLabelsForContent pageId w2 = (inr (size, currentLabels), w3) /\
    trace s' =
      trace s1 ++
      [UpdateContent details; GetLabelsForContent pageId] ++
      ((fun existingLabel =>
          RemoveLabelFromContent pageId (label_name existingLabel)) <$>
         List.filter
           (fun existingLabel =>
              negb (existsb (String.eqb (label_label existingLabel)) labels))
           currentLabels) ++
      match
        List.filter
          (fun newLabel =>
             negb (existsb
                     (fun item => String.eqb (label_label item) newLabel)
                     currentLabels))
          labels
      with
      | [] => []
      | missing => [AddLabelsToContent pageId missing]
      end.
Proof.
  intros Hrun. unfold updatePageContent in Hrun. unfold bind at 1 in Hrun.
  destruct (uploadFiles pageId path adf s) as [[updatedAdf|e|] s1] eqn:Hup;
    [|done..].
  destruct (String.eqb currentContents _); [done|].
  unfold bind at 1 in Hrun. unfold call at 1 in Hrun.
  destruct (on_updateContent _ (world s1)) as [[payload|[]] w2] eqn:Hupdate;
    [done|].
  unfold bind at 1 in Hrun. unfold call at 1 in Hrun. simpl in Hrun.
  destruct (on_getLabelsForContent pageId w2)
    as [[payload|[size currentLabels]] w3] eqn:Hlabels; [done|].
  unfold bind at 1 in Hrun.
  match type of Hrun with
  | context [for_of ?xs ?body ?st] =>
      destruct (for_of xs body st) as [[[]|e|] s4] eqn:Hloop; [|done..]
  end.
  pose proof (for_of_guarded_calls _
                (fun existingLabel =>
                   negb (includes labels (label_label existingLabel)))
                (fun existingLabel =>
                   RemoveLabelFromContent pageId (label_name existingLabel))
                (fun existingLabel =>
                   on_removeLabelFromContent pageId (label_name existingLabel))
                _ _ Hloop) as Hremoved.
  simpl in Hremoved.
  exists s1, updatedAdf, w2, w3, size, currentLabels.
  split; [done|]. split; [done|]. split; [done|].
  unfold bind at 1 in Hrun. simpl in Hrun.
  change (List.filter
            (fun newLabel =>
               negb (existsb
                       (fun item => String.eqb (label_label item) newLabel)
                       currentLabels))
            labels)
    with (labelsToAdd labels currentLabels).
  destruct (labelsToAdd labels currentLabels) as [|missing others].
  - simpl in Hrun. unfold ret in Hrun. injection Hrun as <-.
    rewrite Hremoved, app_nil_r, <- !app_assoc. done.
  - rewrite bool_decide_true in Hrun by (simpl; lia).
    unfold call at 1 in Hrun.
    destruct (on_addLabelsToContent _ _ _) as [[payload|[]] w5]; [done|].
    unfold ret in Hrun. injection Hrun as <-. simpl.
    rewrite Hremoved, <- !app_assoc. done.
Qed.

(** ** The outcome of a publish *)

Section Outcome.

Context `{Platform} {W : Type} `{Collaborators W}.

(** The record [publishFile] returns for a page: the success record, or
    the failure record of what was thrown for that page, which is the
    missing page id or what the page's own update threw. *)
Lemma publishFile_record node (s1 s2 : State W) record :
  publishFile node s1 = (Returned record, s2) ->
  record = published node \/
  exists e,
    record = failed node e /\
    (truthy (pageId (cn_file node)) = false /\ e = Error "Missing Page ID" \/
     pageUpdate node s1 = (Threw e, s2)).
Proof.
  unfold publishFile, try_catch.
  destruct (truthy (pageId (cn_file node))) eqn:Hid; simpl.
  - unfold bind at 1. fold (pageUpdate node).
    destruct (pageUpdate node s1) as [[r|e|] s1'] eqn:Hupdate; [| |done].
    + unfold ret. intros [= <- <-]. by left.
    + unfold ret. intros [= <- <-]. right. exists e. split; [done|]. by right.
  - unfold throw, ret. intros [= <- <-]. right. eexists. split; [done|].
    by left.
Qed.

Lemma tally_errorMessage (adrFiles : list FilePublishResult) :
  errorMessage (tally adrFiles) = None.
Proof.
  unfold tally.
  match goal with
  | |- errorMessage (fold_left ?step _ ?init) = None =>
      assert (forall l acc, errorMessage acc = None ->
                errorMessage (fold_left step l acc) = None) as Hnull
  end.
  { induction l as [|element l IH]; intros acc Hacc; simpl; [done|].
    apply IH. by destruct (successfulUpload element). }
  by apply Hnull.
Qed.

End Outcome.

(** X17: the outcome [doPublish] returns is the tally of one record per
    page it published, each the record [publishFile] returned for that
    page: [errorMessage] is [null], [successfulUploads] counts the success
    records, and [failedFiles] lists, in page order, one entry per failure
    record, with the page's path and, as reason, the stringified exception
    thrown for that very page (by its own update, or for its missing page
    id); the fallback text for a missing reason is never used. With a
    publish filter, every published page is a document at the filter's
    path. *)
Theorem doPublish_outcome_lists_caught_failures
    `{Platform} {W : Type} `{Collaborators W}
    (settings : Settings) (publishFilter : option string) (s s' : State W)
    (results : UploadResults) :
  doPublish settings publishFilter s = (Returned results, s') ->
  exists (pages : list ConfluenceNode) (records : list FilePublishResult),
    Forall2
      (fun node record =>
         (truthy publishFilter = true ->
          Some (absoluteFilePath (cn_file node)) = publishFilter) /\
         exists s1 s2 : State W,
           publishFile node s1 = (Returned record, s2))
      pages records /\
    results =
      {| successfulUploads :=
           Z.of_nat (length (List.filter successfulUpload records));
         errorMessage := None;
         failedFiles :=
           (fun record =>
              {| ff_fileName := fpr_absoluteFilePath record;
                 ff_reason := default "No Reason Provided" (reason record) |})
           <$> List.filter (fun record => negb (successfulUpload record))
                 records |} /\
    Forall
      (fun entry =>
         exists node e (s1 s2 : State W),
           node ∈ pages /\
           publishFile node s1
             = (Returned {| successfulUpload := false;
                            fpr_absoluteFilePath :=
                              absoluteFilePath (cn_file node);
                            reason := Some (stringifyObject e) |}, s2) /\
           (truthy (pageId (cn_file node)) = false /\
            e = Error "Missing Page ID" \/
            updatePageContent
              (interpolate (pageId (cn_file node)))
              (absoluteFilePath (cn_file node))
              (contents (cn_file node))
              (cn_parentPageId node)
              (cn_version node)
              (pageTitle (cn_file node))
              (cn_existingAdf node)
              (tags (cn_file node))
              (cn_file node) s1 = (Threw e, s2)) /\
           entry = {| ff_fileName := absoluteFilePath (cn_file node);
                      ff_reason := stringifyObject e |})
      (failedFiles results).
Proof.
  intros Hrun. unfold doPublish in Hrun.
  apply bind_returned in Hrun as (parentPage & s1 & _ & Hrun).
  destruct (page_space parentPage) as [spaceToPublishTo|]; [|done].
  apply bind_returned in Hrun as (files & s2 & _ & Hrun).
  apply bind_returned in Hrun as (folderTree & s3 & _ & Hrun).
  apply bind_returned in Hrun as (confluencePageTree & s4 & _ & Hrun).
  apply bind_returned in Hrun as (fileToPageIdMap & s5 & _ & Hrun).
  apply bind_returned in Hrun as (resolved & s6 & _ & Hrun).
  apply bind_returned in Hrun as (adrFiles & s7 & Hall & Hrun).
  unfold ret in Hrun. injection Hrun as <- _.
  match type of Hall with
  | promise_all ?pages _ _ = _ => set (toPublish := pages) in *
  end.
  assert (Forall2
            (fun node record =>
               exists s1 s2 : State W,
                 publishFile node s1 = (Returned record, s2))
            toPublish adrFiles) as Hruns.
  { eapply (promise_all_returned _ publishFile toPublish); [|exact Hall].
    apply Forall_forall. intros node _ st r st' Hr. by exists st, st'. }
  assert (forall node, node ∈ toPublish ->
            truthy publishFilter = true ->
            Some (absoluteFilePath (cn_file node)) = publishFilter) as Hpath.
  { intros node Hnode Hfilter. subst toPublish. rewrite Hfilter in Hnode.
    apply list_elem_of_In, List.filter_In in Hnode as [_ Hkept].
    by apply bool_decide_eq_true in Hkept. }
  destruct (tally_counts adrFiles) as [Hcount Hfailed].
  pose proof (tally_errorMessage adrFiles) as Hnull.
  exists toPublish, adrFiles. split; [|split].
  - apply Forall2_same_length_lookup. split; [by eapply Forall2_length|].
    intros i node record Hnode Hrecord. split.
    + apply Hpath. apply list_elem_of_lookup. by exists i.
    + destruct (Forall2_lookup_l _ _ _ _ _ Hruns Hnode)
        as (record' & Hrecord' & Hran).
      by assert (record' = record) as <- by congruence.
  - destruct (tally adrFiles) as [count message entries]. simpl in *.
    by subst.
  - rewrite Hfailed. apply Forall_fmap, Forall_forall.
    intros record Hrecord%list_elem_of_In%List.filter_In.
    destruct Hrecord as [Hin%list_elem_of_In Hunsuccessful].
    apply list_elem_of_lookup in Hin as [i Hi].
    destruct (Forall2_lookup_r _ _ _ _ _ Hruns Hi)
      as (node & Hnode & st1 & st2 & Hran).
    destruct (publishFile_record node st1 st2 record Hran)
      as [-> | (e & -> & Hthrown)]; [done|].
    exists node, e, st1, st2.
    split; [apply list_elem_of_lookup; by exists i|].
    split; [done|]. split; [exact Hthrown | done].
Qed.

(** ** Resolved assets in the body rewrite *)

Lemma get_set_eq k v (o : Attrs) : Obj.get k (Obj.set k v o) = Some v.
Proof.
  induction o as [|[k' v'] o IH]; simpl.
  - by rewrite String.eqb_refl.
  - destruct (String.eqb k' k) eqn:Hk; simpl; by rewrite Hk.
Qed.

Lemma get_set_ne k k' v (o : Attrs) :
  k <> k' -> Obj.get k' (Obj.set k v o) = Obj.get k' o.
Proof.
  intros Hne. induction o as [|[k0 v0] o IH]; simpl.
  - by rewrite (proj2 (String.eqb_neq k k')).
  - destruct (String.eqb k0 k) eqn:Hk; simpl; [|by rewrite IH].
    apply String.eqb_eq in Hk as ->.
    by rewrite (proj2 (String.eqb_neq k k')).
Qed.

Lemma get_delete_eq k (o : Attrs) : Obj.get k (Obj.delete k o) = None.
Proof.
  induction o as [|[k' v'] o IH]; simpl; [done|].
  destruct (String.eqb k' k) eqn:Hk; simpl; [done|]. by rewrite Hk.
Qed.

Lemma get_delete_ne k k' (o : Attrs) :
  k <> k' -> Obj.get k' (Obj.delete k o) = Obj.get k' o.
Proof.
  intros Hne. induction o as [|[k0 v0] o IH]; simpl; [done|].
  destruct (String.eqb k0 k) eqn:Hk; simpl; [|by rewrite IH].
  apply String.eqb_eq in Hk as ->.
  by rewrite IH, (proj2 (String.eqb_neq k k')).
Qed.

(** X18: the body rewrite of a [file] media node whose reference has an
    uploaded image in the image map gives a media node that names the
    image's collection and file id and no longer has a [url]; its type,
    marks, text and every other attribute are those of the node. *)
Theorem resolved_file_media_names_the_attachment `{Platform}
    (imageMap : gmap string (option UploadedImageData)) (m : ADFEntity)
    (mappedImage : UploadedImageData) (fuel : nat) :
  type m = "media" ->
  Obj.is_str "type" "file" (attrsOrEmpty m) = true ->
  content m = None ->
  imageMap !! propertyKey (attr "url" m) = Some (Some mappedImage) ->
  exists m',
    traverse (S fuel) m (rewriteVisitors imageMap) = Returned (Some m') /\
    type m' = "media" /\ content m' = None /\
    marks m' = marks m /\ text m' = text m /\
    attr "id" m' = Some (AStr (img_id mappedImage)) /\
    attr "collection" m' = Some (AStr (img_collection mappedImage)) /\
    attr "url" m' = None /\
    attr "type" m' = Some (AStr "file") /\
    forall k, k <> "id" -> k <> "collection" -> k <> "url" ->
      attr k m' = attr k m.
Proof.
  intros Htype Hfile Hleaf Hmapped. unfold traverse. cbn [traverseNode].
  rewrite (visitorFor_media imageMap m Htype). unfold mediaVisitor.
  rewrite Hfile, Hmapped. cbn [content]. rewrite Hleaf.
  eexists. split; [done|]. unfold attr, attrsOrEmpty. cbn [type content marks text attrs].
  repeat split; try done.
  - by rewrite get_delete_ne, get_set_eq.
  - by rewrite get_delete_ne, get_set_ne, get_set_eq.
  - by rewrite get_delete_eq.
  - rewrite get_delete_ne, !get_set_ne by done.
    unfold Obj.is_str, attrsOrEmpty in Hfile.
    destruct (Obj.get "type" _) as [[kind|]|]; [|done..].
    by apply String.eqb_eq in Hfile as ->.
  - intros k Hid Hcollection Hurl.
    by rewrite get_delete_ne, !get_set_ne by done.
Qed.

(** X19: the body rewrite of a mermaid block whose first content node has
    text and whose chart has an uploaded image gives a [mediaSingle] node,
    centred and without the [language] attribute, whose only content is a
    [file] media node for that image. The traversal visits that media node
    too, with an undefined [url]; the image map is taken to have no entry
    under that key. *)
Theorem resolved_mermaid_block_becomes_media_single `{Platform}
    (imageMap : gmap string (option UploadedImageData)) (block : ADFEntity)
    (mappedImage : UploadedImageData) (fuel : nat) :
  type block = "codeBlock" ->
  Obj.is_str "language" "mermaid" (attrsOrEmpty block) = true ->
  truthy (firstText block) = true ->
  imageMap !! fst (getMermaidFileName (firstText block))
    = Some (Some mappedImage) ->
  imageMap !! "undefined" = None ->
  traverse (S (S fuel)) block (rewriteVisitors imageMap)
    = Returned (Some
        (Node "mediaSingle"
           (Some (Obj.delete "language"
                    (Obj.set "layout" (AStr "center") (attrsOrEmpty block))))
           (Some [Node "media"
                    (Some [("type", AStr "file");
                           ("collection", AStr (img_collection mappedImage));
                           ("id", AStr (img_id mappedImage))])
                    None None None])
           (marks block) (text block))).
Proof.
  intros Htype Hmermaid Htext Hmapped Hundefined.
  unfold traverse. cbn [traverseNode].
  rewrite (visitorFor_codeBlock imageMap block Htype).
  unfold codeBlockVisitor at 1. rewrite Hmermaid, Htext, Hmapped. cbn [negb].
  assert (exists cs, content block = Some cs) as [cs Hcs].
  { unfold firstText in Htext. destruct (content block) as [cs|]; [by exists cs|done]. }
  rewrite Hcs. cbn [content traverseContent].
  rewrite visitorFor_media by done.
  unfold mediaVisitor. cbn. by rewrite Hundefined.
Qed.

(** ** Rendered charts as attachments *)

(** X20: [uploadBuffer] makes no call at all when the index holds an
    attachment of the given name whose stored fingerprint is that of the
    buffer, and returns the stored identifiers. In every other case it
    issues one upload of the buffer as [image/png] with the fingerprint as
    comment; it returns the identifiers of the first uploaded attachment,
    and throws a [TypeError] when the remote answers with none. *)
Theorem uploadBuffer_uploads_unless_fingerprint_matches
    `{Platform} {W : Type} `{Collaborators W}
    (pageId uploadFilename : string) (fileBuffer : Buffer)
    (currentAttachments : gmap string CurrentAttachment) (s : State W) :
  let currentFileMd5 := md5_buffer fileBuffer in
  let upload :=
    CreateOrUpdateAttachments pageId uploadFilename currentFileMd5 fileBuffer
      (Some "image/png") in
  let run := uploadBuffer pageId uploadFilename fileBuffer currentAttachments s in
  match currentAttachments !! uploadFilename with
  | Some existing =>
      if bool_decide (filehash existing = Some currentFileMd5) then
        run = (Returned (Some {| img_filename := Some uploadFilename;
                                 img_id := attachmentId existing;
                                 img_collection := collectionName existing |}),
               s)
      else trace run.2 = trace s ++ [upload]
  | None => trace run.2 = trace s ++ [upload]
  end /\
  (forall uploaded others w1,
     trace run.2 = trace s ++ [upload] ->
     on_createOrUpdateAttachments pageId uploadFilename currentFileMd5
       fileBuffer (Some "image/png") (world s)
       = (inr (uploaded :: others), w1) ->
     run.1 = Returned (Some {| img_filename := Some uploadFilename;
                               img_id := up_fileId uploaded;
                               img_collection :=
                                 "contentId-" +:+ up_containerId uploaded |})) /\
  (forall w1,
     trace run.2 = trace s ++ [upload] ->
     on_createOrUpdateAttachments pageId uploadFilename currentFileMd5
       fileBuffer (Some "image/png") (world s) = (inr [], w1) ->
     run.1 = Threw (TypeError
       "Cannot read properties of undefined (reading 'extensions')")).
Proof.
  intros currentFileMd5 upload run. subst run upload.
  unfold uploadBuffer, sameAttachment. fold currentFileMd5.
  assert (forall st : State W,
            trace (createAttachment pageId uploadFilename currentFileMd5
                     fileBuffer (Some "image/png") (Some uploadFilename) st).2
            = trace st ++
              [CreateOrUpdateAttachments pageId uploadFilename currentFileMd5
                 fileBuffer (Some "image/png")]) as Huploads.
  { intros st. unfold createAttachment, bind, call.
    by destruct (on_createOrUpdateAttachments _ _ _ _ _ _) as [[p|[|u us]] w]. }
  destruct (currentAttachments !! uploadFilename) as [existing|].
  - case_bool_decide.
    + split; [done|]. unfold ret. simpl.
      split; [intros uploaded others w1 Htrace | intros w1 Htrace].
      all: apply (f_equal length) in Htrace; rewrite length_app in Htrace;
        simpl in Htrace; lia.
    + split; [apply Huploads|].
      unfold createAttachment, bind, call.
      split; [intros uploaded others w1 _ -> | intros w1 _ ->]; done.
  - split; [apply Huploads|].
    unfold createAttachment, bind, call.
    split; [intros uploaded others w1 _ -> | intros w1 _ ->]; done.
Qed.

(** ** Adopting a page found by title *)

(** X21: without a stored page id, a title match whose ancestor chain holds
    the top page is adopted: after the search the only call is the one that
    hands the found page's id to the adaptor (nothing is created), and what
    is returned is that page's id, version (1 when it has none) and body,
    under the document's title and the space key the search was made
    with. *)
Theorem ensurePageExists_adopts_page_inside_tree
    `{Platform} {W : Type} `{Collaborators W}
    (file : AdfFile) (spaceKey parentPageId topPageId : string) (s : State W)
    (found : SearchResult) (w1 : W) (currentPage : Page) (others : list Page) :
  truthy (pageId file) = false ->
  on_getContent spaceKey (pageTitle file) (world s) = (inr found, w1) ->
  (0 < sr_size found)%Z ->
  sr_results found = currentPage :: others ->
  ancestorsInclude topPageId currentPage = true ->
  let run := ensurePageExists file spaceKey parentPageId topPageId s in
  trace run.2 = trace s ++
    [GetContent spaceKey (pageTitle file);
     UpdateMarkdownPageId (absoluteFilePath file) (page_id currentPage)] /\
  (run.1 = Returned {| pd_id := page_id currentPage;
                       pd_title := pageTitle file;
                       pd_version := default 1%Z (page_version currentPage);
                       pd_existingAdf := page_body currentPage;
                       pd_spaceKey := spaceKey |} \/
   exists payload, run.1 = Threw (Rejected payload)).
Proof.
  intros Hid Hsearch Hsize Hresults Hinside run. subst run.
  destruct (ensurePageExists file spaceKey parentPageId topPageId s)
    as [r s'] eqn:Hrun.
  unfold ensurePageExists in Hrun. rewrite Hid in Hrun.
  unfold bind, call in Hrun. rewrite Hsearch in Hrun.
  rewrite bool_decide_true in Hrun by done.
  rewrite Hresults, Hinside in Hrun. simpl in Hrun.
  destruct (on_updateMarkdownPageId _ _ w1) as [[payload|[]] w2];
    injection Hrun as <- <-; simpl; rewrite <- !app_assoc.
  - split; [done|]. right. by exists payload.
  - split; [done|]. by left.
Qed.

(** X22: a search answer that reports a positive size and lists no page
    makes [ensurePageExists] throw a [TypeError] right after the search:
    the first result is read without a check. *)
Theorem ensurePageExists_throws_on_empty_result_list
    `{Platform} {W : Type} `{Collaborators W}
    (file : AdfFile) (spaceKey parentPageId topPageId : string) (s : State W)
    (found : SearchResult) (w1 : W) :
  truthy (pageId file) = false ->
  on_getContent spaceKey (pageTitle file) (world s) = (inr found, w1) ->
  (0 < sr_size found)%Z ->
  sr_results found = [] ->
  ensurePageExists file spaceKey parentPageId topPageId s
    = (Threw (TypeError
         "Cannot read properties of undefined (reading 'ancestors')"),
       mkState w1 (trace s ++ [GetContent spaceKey (pageTitle file)])).
Proof.
  intros Hid Hsearch Hsize Hresults.
  unfold ensurePageExists. rewrite Hid.
  unfold bind, call. rewrite Hsearch.
  rewrite bool_decide_true by done. by rewrite Hresults.
Qed.

(** ** The further properties on concrete documents *)

Module Sample.

(** The index document of the vault, and the vault with one document. *)
Definition docRoot : AdfFile :=
  {| folderName := "vault";
     absoluteFilePath := "/vault/vault.md";
     fileName := "vault.md";
     contents := Demo.paragraph "root";
     pageTitle := "Vault";
     frontmatter := [];
     tags := [];
     pageId := None;
     dontChangeParentPageId := false;
     spaceKey := None |}.

Definition vault : TreeNode :=
  TNode "/vault" [TNode "a.md" [] (Some Demo.docA)] (Some docRoot).

Definition blank : string := "doc(paragraph(text(Page not published yet);););)".

Definition pageTree : ConfluenceTreeNode :=
  CTNode (with_page docRoot (Some "top") (Some "SP")) 0 EmptyString
    [CTNode Demo.boundA 1 blank []].

(** A page tree in which one folder has no page id: the folder is listed
    under the root, the document in it is not listed, and the documents
    under a bound page are. *)
Definition unboundFolder : ConfluenceTreeNode :=
  CTNode (with_page docRoot (Some "top") (Some "SP")) 0 EmptyString
    [CTNode docRoot 2 EmptyString [CTNode Demo.boundA 5 "y" []];
     CTNode Demo.boundA 1 blank [CTNode Demo.boundA 3 "x" []]].

(** What the converter makes of [Demo.mdDocs]. *)
Definition adfDocs : AdfFile :=
  {| folderName := "docs";
     absoluteFilePath := "/vault/docs/a.md";
     fileName := "a.md";
     contents := Demo.paragraph "hello";
     pageTitle := "A";
     frontmatter := [];
     tags := [];
     pageId := None;
     dontChangeParentPageId := false;
     spaceKey := None |}.

Definition mdB : MarkdownFile :=
  mkMarkdownFile "notes" "/vault/notes/b.md" "b.md" "world" "B" [] ["t2"].

(** A folder that holds its own index document and one more document. *)
Definition docsFolder : TreeNode :=
  TNode "docs"
    [TNode "docs.md" [] (Some docRoot); TNode "a.md" [] (Some adfDocs)] None.

Definition pageA : Page :=
  {| page_id := "id-A";
     page_space := Some "SP";
     page_version := Some 3%Z;
     page_body := Some "x";
     page_ancestors := Some ["top"] |}.

Definition topPage : Page :=
  {| page_id := "top";
     page_space := Some "SP";
     page_version := Some 7%Z;
     page_body := Some "x";
     page_ancestors := Some [] |}.

Definition remoteWithA : Demo.Remote :=
  {| Demo.r_pages := [pageA]; Demo.r_search := [pageA];
     Demo.r_attachments := []; Demo.r_labels := []; Demo.r_files := [];
     Demo.r_binaries := [] |}.

Definition remoteWithTop : Demo.Remote :=
  {| Demo.r_pages := [topPage]; Demo.r_search := [];
     Demo.r_attachments := []; Demo.r_labels := []; Demo.r_files := [];
     Demo.r_binaries := [] |}.

Definition remoteWithFiles : Demo.Remote :=
  {| Demo.r_pages := [topPage]; Demo.r_search := [];
     Demo.r_attachments := []; Demo.r_labels := [];
     Demo.r_files := [Demo.mdDocs; mdB]; Demo.r_binaries := [] |}.

Definition remoteWithLabels : Demo.Remote :=
  {| Demo.r_pages := []; Demo.r_search := []; Demo.r_attachments := [];
     Demo.r_labels := [mkLabel "stale" "stale-name"; mkLabel "t1" "t1-name"];
     Demo.r_files := []; Demo.r_binaries := [] |}.

Definition picture : Binary :=
  {| bin_contents := list_byte_of_string "PNG";
     bin_filePath := "/vault/pic.png";
     bin_filename := "pic.png" |}.

Definition remoteWithPicture : Demo.Remote :=
  {| Demo.r_pages := []; Demo.r_search := []; Demo.r_attachments := [];
     Demo.r_labels := []; Demo.r_files := [];
     Demo.r_binaries := [("pic.png", picture)] |}.

Definition storedPicture : CurrentAttachment :=
  {| filehash := Some "PNG"; attachmentId := "f1"; collectionName := "c1" |}.

Definition uploadedPicture : UploadedImageData :=
  {| img_filename := Some "pic.png"; img_id := "f1"; img_collection := "c1" |}.

(** Two references to the same unreadable image. *)
Definition twiceMissing : ADFEntity :=
  Demo.doc [Node "mediaSingle" None (Some [Demo.missingImage]) None None;
            Node "mediaSingle" None (Some [Demo.missingImage]) None None].

Definition pictureNode : ADFEntity :=
  Node "media"
    (Some [("type", AStr "file"); ("url", AStr "file://pic.png");
           ("alt", AStr "a picture")])
    None None None.

Definition noMarks : ADFEntity := Node "text" None None (Some []) (Some "x").

(** A mermaid block whose first content node has the empty string as
    text. *)
Definition blankDiagram : ADFEntity :=
  Node "codeBlock" (Some [("language", AStr "mermaid")])
    (Some [Node "text" None None None (Some EmptyString)]) None None.

Definition nodeWith (body : ADFEntity) : ConfluenceNode :=
  {| cn_file := with_contents Demo.boundA body;
     cn_version := 3;
     cn_existingAdf := "x";
     cn_parentPageId := "top" |}.

(** A remote that rejects every update of the page titled [B]. *)
Definition rejectingB : Collaborators Demo.Remote :=
  {| on_getContentById := @on_getContentById _ Demo.collaborators;
     on_getContent := @on_getContent _ Demo.collaborators;
     on_createContent := @on_createContent _ Demo.collaborators;
     on_updateContent := fun details w =>
       (if String.eqb (upd_title details) "B" then inl "409" else inr tt, w);
     on_getLabelsForContent := @on_getLabelsForContent _ Demo.collaborators;
     on_removeLabelFromContent := @on_removeLabelFromContent _ Demo.collaborators;
     on_addLabelsToContent := @on_addLabelsToContent _ Demo.collaborators;
     on_getAttachments := @on_getAttachments _ Demo.collaborators;
     on_createOrUpdateAttachments :=
       @on_createOrUpdateAttachments _ Demo.collaborators;
     on_getMarkdownFilesToUpload :=
       @on_getMarkdownFilesToUpload _ Demo.collaborators;
     on_readBinary := @on_readBinary _ Demo.collaborators;
     on_updateMarkdownPageId := @on_updateMarkdownPageId _ Demo.collaborators;
     on_captureMermaidCharts := @on_captureMermaidCharts _ Demo.collaborators |}.

(** A remote whose search reports one match and lists none. *)
Definition miscounting : Collaborators Demo.Remote :=
  {| on_getContentById := @on_getContentById _ Demo.collaborators;
     on_getContent := fun _ _ w =>
       (inr {| sr_size := 1; sr_results := [] |}, w);
     on_createContent := @on_createContent _ Demo.collaborators;
     on_updateContent := @on_updateContent _ Demo.collaborators;
     on_getLabelsForContent := @on_getLabelsForContent _ Demo.collaborators;
     on_removeLabelFromContent := @on_removeLabelFromContent _ Demo.collaborators;
     on_addLabelsToContent := @on_addLabelsToContent _ Demo.collaborators;
     on_getAttachments := @on_getAttachments _ Demo.collaborators;
     on_createOrUpdateAttachments :=
       @on_createOrUpdateAttachments _ Demo.collaborators;
     on_getMarkdownFilesToUpload :=
       @on_getMarkdownFilesToUpload _ Demo.collaborators;
     on_readBinary := @on_readBinary _ Demo.collaborators;
     on_updateMarkdownPageId := @on_updateMarkdownPageId _ Demo.collaborators;
     on_captureMermaidCharts := @on_captureMermaidCharts _ Demo.collaborators |}.

End Sample.

Lemma flattenTree_lists_all_but_root_witness :
  flattenTree Sample.unboundFolder None
    = [mkConfluenceNode Sample.docRoot 2 EmptyString "top";
       mkConfluenceNode Demo.boundA 1 Sample.blank "top";
       mkConfluenceNode Demo.boundA 3 "x" "id-A"] /\
  edges Sample.unboundFolder
    = [(with_page Sample.docRoot (Some "top") (Some "SP"),
        CTNode Sample.docRoot 2 EmptyString [CTNode Demo.boundA 5 "y" []]);
       (Sample.docRoot, CTNode Demo.boundA 5 "y" []);
       (with_page Sample.docRoot (Some "top") (Some "SP"),
        CTNode Demo.boundA 1 Sample.blank [CTNode Demo.boundA 3 "x" []]);
       (Demo.boundA, CTNode Demo.boundA 3 "x" [])] /\
  Forall (fun binding => cn_parentPageId binding <> EmptyString)
    (flattenTree Sample.unboundFolder None) /\
  flattenTree Sample.pageTree None
    = [mkConfluenceNode Demo.boundA 1 Sample.blank "top"] /\
  length (flattenTree Sample.pageTree None) + 1 = nodeCount Sample.pageTree.
Proof.
  split; [reflexivity|]. split; [reflexivity|].
  split; [apply (flattenTree_lists_all_but_root Sample.unboundFolder)|].
  split; [reflexivity|].
  apply (flattenTree_lists_all_but_root Sample.pageTree). reflexivity.
Defined.

Lemma ensurePageExists_stored_id_only_fetches_witness :
  let run :=
    @ensurePageExists Demo.platform Demo.Remote Demo.collaborators
      Demo.boundA "SP" "top" "top" (Demo.start Sample.remoteWithA) in
  trace run.2 = [GetContentById "id-A"] /\
  (forall details,
     run.1 = Returned details ->
     exists page w',
       @on_getContentById Demo.Remote Demo.collaborators "id-A"
         Sample.remoteWithA = (inr page, w') /\
       pd_id details = page_id page /\
       pd_title details = "A" /\
       pd_version details = default 1%Z (page_version page) /\
       pd_existingAdf details = page_body page /\
       page_space page = Some (pd_spaceKey details) /\
       pd_spaceKey details <> EmptyString) /\
  (forall page w',
     @on_getContentById Demo.Remote Demo.collaborators "id-A"
       Sample.remoteWithA = (inr page, w') ->
     truthy (page_space page) = false ->
     run.1 = Threw (Error "Missing Space Key")).
Proof.
  apply (@ensurePageExists_stored_id_only_fetches
           Demo.platform Demo.Remote Demo.collaborators
           Demo.boundA "SP" "top" "top" (Demo.start Sample.remoteWithA)).
  reflexivity.
Defined.

Lemma ensurePageExists_creates_under_parent_witness :
  let run :=
    @ensurePageExists Demo.platform Demo.Remote Demo.collaborators
      Demo.docA "SP" "top" "top" (Demo.start Demo.emptyRemote) in
  trace run.2 =
    [GetContent "SP" "A";
     CreateContent "SP" "top" "A" Sample.blank;
     UpdateMarkdownPageId "/vault/docs/a.md" "id-A"] /\
  (run.1 = Returned {| pd_id := "id-A";
                       pd_title := "A";
                       pd_version := 1;
                       pd_existingAdf := Some Sample.blank;
                       pd_spaceKey := "SP" |} \/
   exists payload, run.1 = Threw (Rejected payload)).
Proof.
  apply (@ensurePageExists_creates_under_parent
           Demo.platform Demo.Remote Demo.collaborators
           Demo.docA "SP" "top" "top" (Demo.start Demo.emptyRemote)
           {| sr_size := 0; sr_results := [] |}
           Demo.emptyRemote Demo.emptyRemote
           {| page_id := "id-A";
              page_space := Some "SP";
              page_version := Some 1%Z;
              page_body := Some Sample.blank;
              page_ancestors := Some ["top"] |}).
  - reflexivity.
  - reflexivity.
  - simpl. lia.
  - reflexivity.
Defined.

Lemma createFileStructureInConfluence_binds_every_document_witness :
  let s := Demo.start Demo.emptyRemote in
  let s' :=
    mkState Demo.emptyRemote
      [GetContent "SP" "A";
       CreateContent "SP" "top" "A" Sample.blank;
       UpdateMarkdownPageId "/vault/docs/a.md" "id-A"] in
  @createFileStructureInConfluence Demo.platform Demo.Remote Demo.collaborators
    Sample.vault "SP" "top" "top" false s = (Returned Sample.pageTree, s') /\
  allBound Sample.pageTree /\
  nodeCount Sample.pageTree = folderCount Sample.vault /\
  (false = false ->
   exists file children,
     tn_file Sample.vault = Some file /\
     Sample.pageTree
       = CTNode (with_page file (Some "top") (Some "SP")) 0 EmptyString
           children /\
     (tn_children Sample.vault = [] -> s' = s)).
Proof.
  split; [reflexivity|].
  apply (@createFileStructureInConfluence_binds_every_document
           Demo.platform Demo.Remote Demo.collaborators
           Sample.vault "SP" "top" "top" false
           (Demo.start Demo.emptyRemote)).
  reflexivity.
Defined.

Lemma addFileToTree_adds_one_document_witness :
  let treeNode := createTreeNode "/vault" in
  let treeNode' :=
    TNode "/vault"
      [TNode "docs" [TNode "a.md" [] (Some Sample.adfDocs)] None] None in
  let fileNames : gset string := ∅ in
  let fileNames' : gset string := {["a.md"]} ∪ ∅ in
  @addFileToTree Demo.platform treeNode Demo.mdDocs "docs/a.md" fileNames
    = Returned (treeNode', fileNames') /\
  tn_name treeNode' = tn_name treeNode /\
  tn_file treeNode' = tn_file treeNode /\
  ((tn_name <$> tn_children treeNode)
     `prefix_of` (tn_name <$> tn_children treeNode')) /\
  docCount treeNode' = S (docCount treeNode) /\
  ("a.md" ∉ fileNames) /\
  fileNames' = {["a.md"]} ∪ fileNames.
Proof.
  split; [reflexivity|].
  apply (@addFileToTree_adds_one_document Demo.platform
           (createTreeNode "/vault")
           (TNode "/vault"
              [TNode "docs" [TNode "a.md" [] (Some Sample.adfDocs)] None] None)
           Demo.mdDocs "docs/a.md" ∅ ({["a.md"]} ∪ ∅)).
  reflexivity.
Defined.

Lemma createFolderStructure_returns_on_distinct_names_witness :
  exists tree,
    @createFolderStructure Demo.platform [Demo.mdDocs; Sample.mdB]
      = Returned tree /\
    findCommonPath (@path_sep Demo.platform)
      (md_absoluteFilePath <$> [Demo.mdDocs; Sample.mdB])
      = Returned (tn_name tree).
Proof.
  apply (@createFolderStructure_returns_on_distinct_names Demo.platform
           [Demo.mdDocs; Sample.mdB]).
  - discriminate.
  - apply (bool_decide_unpack _). vm_compute. exact I.
  - intros f _. eexists. reflexivity.
Defined.

Lemma processNode_gives_every_node_a_document_witness :
  everyNodeHasDocument
    (@processNode Demo.platform "/vault" Sample.docsFolder) /\
  tn_name (@processNode Demo.platform "/vault" Sample.docsFolder) = "docs".
Proof.
  apply (@processNode_gives_every_node_a_document Demo.platform
           "/vault" Sample.docsFolder).
  constructor.
  - intros _ i child Hfound. vm_compute in Hfound.
    injection Hfound as _ <-. eexists. reflexivity.
  - repeat (apply Forall_cons; split;
            [constructor; [discriminate | apply Forall_nil_2]|]).
    apply Forall_nil_2.
Defined.

Lemma doPublish_without_documents_throws_witness :
  @doPublish Demo.platform Demo.Remote Demo.collaborators Demo.settings None
    (Demo.start Sample.remoteWithTop)
  = (Threw (TypeError "Cannot read properties of undefined (reading 'split')"),
     mkState Sample.remoteWithTop
       [GetContentById "top"; GetMarkdownFilesToUpload]).
Proof.
  apply (@doPublish_without_documents_throws
           Demo.platform Demo.Remote Demo.collaborators Demo.settings None
           (Demo.start Sample.remoteWithTop) Sample.topPage "SP"
           Sample.remoteWithTop Sample.remoteWithTop);
    reflexivity.
Defined.

Lemma uploadFile_uploads_unless_fingerprint_matches_witness :
  let currentAttachments : gmap string CurrentAttachment :=
    {[ "/vault/pic.png-pic.png" := Sample.storedPicture ]} in
  let run :=
    @uploadFile Demo.platform Demo.Remote Demo.collaborators
      "id-A" "/vault/docs/a.md" (Some "pic.png") currentAttachments
      (Demo.start Sample.remoteWithPicture) in
  (forall existing,
     currentAttachments !! "/vault/pic.png-pic.png" = Some existing ->
     filehash existing = Some "PNG" ->
     run = (Returned (Some {| img_filename := Some "pic.png";
                              img_id := attachmentId existing;
                              img_collection := collectionName existing |}),
            mkState Sample.remoteWithPicture
              [ReadBinary (Some "pic.png") "/vault/docs/a.md"])) /\
  ((forall existing,
      currentAttachments !! "/vault/pic.png-pic.png" = Some existing ->
      filehash existing <> Some "PNG") ->
   trace run.2 =
     [ReadBinary (Some "pic.png") "/vault/docs/a.md";
      CreateOrUpdateAttachments "id-A" "/vault/pic.png-pic.png" "PNG"
        (list_byte_of_string "PNG") None]).
Proof.
  apply (@uploadFile_uploads_unless_fingerprint_matches
           Demo.platform Demo.Remote Demo.collaborators
           "id-A" "/vault/docs/a.md" (Some "pic.png")
           {[ "/vault/pic.png-pic.png" := Sample.storedPicture ]}
           (Demo.start Sample.remoteWithPicture)
           Sample.picture Sample.remoteWithPicture).
  reflexivity.
Defined.

Lemma uploadFiles_reads_each_reference_once_witness :
  let s' :=
    mkState Demo.emptyRemote
      [CaptureMermaidCharts []; GetAttachments "id-A";
       ReadBinary (Some "missing.png") "/vault/docs/a.md"] in
  let references := attr "url" <$> filter_adf isFileMedia Sample.twiceMissing in
  let imagesToUpload := Set_values [] references in
  @uploadFiles Demo.platform Demo.Remote Demo.collaborators
    "id-A" "/vault/docs/a.md" Sample.twiceMissing
    (Demo.start Demo.emptyRemote) = (Returned (Some Sample.twiceMissing), s') /\
  length references = 2 /\
  NoDup imagesToUpload /\
  (forall imageUrl, imageUrl ∈ imagesToUpload <-> imageUrl ∈ references) /\
  Forall (fun imageUrl => exists url, imageUrl = Some (AStr url)) references /\
  List.filter is_read (trace s')
    = [] ++
      ((fun imageUrl => ReadBinary (binaryName imageUrl) "/vault/docs/a.md")
         <$> imagesToUpload).
Proof.
  split; [reflexivity|]. split; [reflexivity|].
  apply (@uploadFiles_reads_each_reference_once
           Demo.platform Demo.Remote Demo.collaborators
           "id-A" "/vault/docs/a.md" Sample.twiceMissing
           (Demo.start Demo.emptyRemote)
           (mkState Demo.emptyRemote
              [CaptureMermaidCharts []; GetAttachments "id-A";
               ReadBinary (Some "missing.png") "/vault/docs/a.md"])
           (Some Sample.twiceMissing)).
  reflexivity.
Defined.

Lemma uploadFiles_without_assets_returns_body_witness :
  let run :=
    @uploadFiles Demo.platform Demo.Remote Demo.collaborators
      "id-A" "/vault/docs/a.md" (Demo.paragraph "hello")
      (Demo.start Demo.emptyRemote) in
  run.1 = Returned (Some (Demo.paragraph "hello")) /\
  Some (Demo.paragraph "hello") = Some (Demo.paragraph "hello") /\
  CaptureMermaidCharts [] ∈ trace run.2 /\
  List.filter is_read (trace run.2) = [].
Proof.
  split; [reflexivity|].
  apply (@uploadFiles_without_assets_returns_body
           Demo.platform Demo.Remote Demo.collaborators
           "id-A" "/vault/docs/a.md" (Demo.paragraph "hello")
           (Demo.start Demo.emptyRemote)
           (mkState Demo.emptyRemote
              [CaptureMermaidCharts []; GetAttachments "id-A"])
           (Some (Demo.paragraph "hello")));
    reflexivity.
Defined.

Lemma resolveLinks_without_wikilinks_is_identity_witness :
  let node :=
    Sample.nodeWith
      (Demo.doc [Node "paragraph" None (Some [Demo.boldLink]) None None]) in
  @resolveLinks Demo.platform Demo.settings Demo.fileMap node = Returned node.
Proof.
  apply (@resolveLinks_without_wikilinks_is_identity
           Demo.platform Demo.settings Demo.fileMap
           (Sample.nodeWith
              (Demo.doc [Node "paragraph" None (Some [Demo.boldLink]) None None]))).
  repeat (apply Forall_cons; split; [intros _; split; reflexivity|]).
  apply Forall_nil_2.
Defined.

Lemma resolveLinks_throws_on_empty_marks_witness :
  let node :=
    Sample.nodeWith
      (Demo.doc [Node "paragraph" None (Some [Sample.noMarks]) None None]) in
  let run := @resolveLinks Demo.platform Demo.settings Demo.fileMap node in
  (run = Threw readingType \/
   run = Threw (TypeError "Invalid URL") \/
   run = Threw (TypeError "node.marks.remove is not a function")) /\
  (Forall (fun n => type n = "text" -> leadsWithWikilink n = false)
     (subnodes (contents (cn_file node))) ->
   run = Threw readingType).
Proof.
  apply (@resolveLinks_throws_on_empty_marks
           Demo.platform Demo.settings Demo.fileMap
           (Sample.nodeWith
              (Demo.doc [Node "paragraph" None (Some [Sample.noMarks]) None None]))
           Sample.noMarks).
  - apply list_elem_of_further, list_elem_of_further, list_elem_of_here.
  - reflexivity.
Defined.

Lemma updatePageContent_reconciles_labels_witness :
  let s := Demo.start Sample.remoteWithLabels in
  let details :=
    {| upd_id := "id-A";
       upd_ancestors := Some ["top"];
       upd_version := 4;
       upd_title := "A";
       upd_body := "doc(paragraph(text(hello););)" |} in
  let s' :=
    mkState Sample.remoteWithLabels
      [CaptureMermaidCharts []; GetAttachments "id-A";
       UpdateContent details; GetLabelsForContent "id-A";
       RemoveLabelFromContent "id-A" "stale-name";
       AddLabelsToContent "id-A" ["t2"]] in
  @updatePageContent Demo.platform Demo.Remote Demo.collaborators
    "id-A" "/vault/docs/a.md" (Demo.paragraph "hello") "top" 3 "A"
    "doc(paragraph(text(old););)" ["t1"; "t2"] Demo.boundA s
    = (Returned None, s') /\
  exists (s1 : State Demo.Remote) (updatedAdf : option ADFEntity)
         (w2 w3 : Demo.Remote) (size : Z) (currentLabels : list Label),
    let sent :=
      {| upd_id := "id-A";
         upd_ancestors := Some ["top"];
         upd_version := (3 + 1)%Z;
         upd_title := "A";
         upd_body := @JSON_stringify Demo.platform updatedAdf |} in
    @uploadFiles Demo.platform Demo.Remote Demo.collaborators
      "id-A" "/vault/docs/a.md" (Demo.paragraph "hello") s
      = (Returned updatedAdf, s1) /\
    @on_updateContent Demo.Remote Demo.collaborators sent (world s1)
      = (inr tt, w2) /\
    @on_getLabelsForContent Demo.Remote Demo.collaborators "id-A" w2
      = (inr (size, currentLabels), w3) /\
    trace s' =
      trace s1 ++
      [UpdateContent sent; GetLabelsForContent "id-A"] ++
      ((fun existingLabel =>
          RemoveLabelFromContent "id-A" (label_name existingLabel)) <$>
         List.filter
           (fun existingLabel =>
              negb (existsb (String.eqb (label_label existingLabel))
                      ["t1"; "t2"]))
           currentLabels) ++
      match
        List.filter
          (fun newLabel =>
             negb (existsb
                     (fun item => String.eqb (label_label item) newLabel)
                     currentLabels))
          ["t1"; "t2"]
      with
      | [] => []
      | missing => [AddLabelsToContent "id-A" missing]
      end.
Proof.
  split; [reflexivity|].
  apply (@updatePageContent_reconciles_labels
           Demo.platform Demo.Remote Demo.collaborators
           "id-A" "/vault/docs/a.md" (Demo.paragraph "hello") "top" 3%Z "A"
           "doc(paragraph(text(old););)" ["t1"; "t2"] Demo.boundA
           (Demo.start Sample.remoteWithLabels)).
  reflexivity.
Defined.

Lemma doPublish_outcome_lists_caught_failures_witness :
  let run :=
    @doPublish Demo.platform Demo.Remote Sample.rejectingB Demo.settings
      None (Demo.start Sample.remoteWithFiles) in
  let results :=
    {| successfulUploads := 3;
       errorMessage := None;
       failedFiles :=
         [{| ff_fileName := "/vault/notes/b.md"; ff_reason := "409" |}] |} in
  run.1 = Returned results /\
  exists (pages : list ConfluenceNode) (records : list FilePublishResult),
    Forall2
      (fun node record =>
         (truthy None = true ->
          Some (absoluteFilePath (cn_file node)) = None) /\
         exists s1 s2 : State Demo.Remote,
           @publishFile Demo.platform Demo.Remote Sample.rejectingB node s1
             = (Returned record, s2))
      pages records /\
    results =
      {| successfulUploads :=
           Z.of_nat (length (List.filter successfulUpload records));
         errorMessage := None;
         failedFiles :=
           (fun record =>
              {| ff_fileName := fpr_absoluteFilePath record;
                 ff_reason := default "No Reason Provided" (reason record) |})
           <$> List.filter (fun record => negb (successfulUpload record))
                 records |} /\
    Forall
      (fun entry =>
         exists node e (s1 s2 : State Demo.Remote),
           node ∈ pages /\
           @publishFile Demo.platform Demo.Remote Sample.rejectingB node s1
             = (Returned {| successfulUpload := false;
                            fpr_absoluteFilePath :=
                              absoluteFilePath (cn_file node);
                            reason :=
                              Some (@stringifyObject Demo.platform e) |}, s2) /\
           (truthy (pageId (cn_file node)) = false /\
            e = Error "Missing Page ID" \/
            @updatePageContent Demo.platform Demo.Remote Sample.rejectingB
              (interpolate (pageId (cn_file node)))
              (absoluteFilePath (cn_file node))
              (contents (cn_file node))
              (cn_parentPageId node)
              (cn_version node)
              (pageTitle (cn_file node))
              (cn_existingAdf node)
              (tags (cn_file node))
              (cn_file node) s1 = (Threw e, s2)) /\
           entry = {| ff_fileName := absoluteFilePath (cn_file node);
                      ff_reason := @stringifyObject Demo.platform e |})
      (failedFiles results).
Proof.
  split; [vm_compute; reflexivity|].
  eapply (@doPublish_outcome_lists_caught_failures
            Demo.platform Demo.Remote Sample.rejectingB Demo.settings
            None (Demo.start Sample.remoteWithFiles)).
  vm_compute. reflexivity.
Defined.

Lemma resolved_file_media_names_the_attachment_witness :
  let imageMap : gmap string (option UploadedImageData) :=
    {[ "file://pic.png" := Some Sample.uploadedPicture ]} in
  exists m',
    traverse 1 Sample.pictureNode (@rewriteVisitors Demo.platform imageMap)
      = Returned (Some m') /\
    type m' = "media" /\ content m' = None /\
    marks m' = None /\ text m' = None /\
    attr "id" m' = Some (AStr "f1") /\
    attr "collection" m' = Some (AStr "c1") /\
    attr "url" m' = None /\
    attr "type" m' = Some (AStr "file") /\
    forall k, k <> "id" -> k <> "collection" -> k <> "url" ->
      attr k m' = attr k Sample.pictureNode.
Proof.
  apply (@resolved_file_media_names_the_attachment Demo.platform
           {[ "file://pic.png" := Some Sample.uploadedPicture ]}
           Sample.pictureNode Sample.uploadedPicture 0);
    reflexivity.
Defined.

Lemma resolved_mermaid_block_becomes_media_single_witness :
  let imageMap : gmap string (option UploadedImageData) :=
    {[ "RenderedMermaidChart-graph TD; A-->B.png"
         := Some Sample.uploadedPicture ]} in
  traverse 2 Demo.diagram (@rewriteVisitors Demo.platform imageMap)
    = Returned (Some
        (Node "mediaSingle" (Some [("layout", AStr "center")])
           (Some [Node "media"
                    (Some [("type", AStr "file");
                           ("collection", AStr "c1");
                           ("id", AStr "f1")])
                    None None None])
           None None)).
Proof.
  apply (@resolved_mermaid_block_becomes_media_single Demo.platform
           {[ "RenderedMermaidChart-graph TD; A-->B.png"
                := Some Sample.uploadedPicture ]}
           Demo.diagram Sample.uploadedPicture 0);
    reflexivity.
Defined.

Lemma ensurePageExists_adopts_page_inside_tree_witness :
  let run :=
    @ensurePageExists Demo.platform Demo.Remote Demo.collaborators
      Demo.docA "SP" "parent" "top" (Demo.start Sample.remoteWithA) in
  trace run.2 =
    [GetContent "SP" "A"; UpdateMarkdownPageId "/vault/docs/a.md" "id-A"] /\
  (run.1 = Returned {| pd_id := "id-A";
                       pd_title := "A";
                       pd_version := 3;
                       pd_existingAdf := Some "x";
                       pd_spaceKey := "SP" |} \/
   exists payload, run.1 = Threw (Rejected payload)).
Proof.
  apply (@ensurePageExists_adopts_page_inside_tree
           Demo.platform Demo.Remote Demo.collaborators
           Demo.docA "SP" "parent" "top" (Demo.start Sample.remoteWithA)
           {| sr_size := 1; sr_results := [Sample.pageA] |}
           Sample.remoteWithA Sample.pageA []);
    reflexivity.
Defined.

Lemma ensurePageExists_throws_on_empty_result_list_witness :
  @ensurePageExists Demo.platform Demo.Remote Sample.miscounting
    Demo.docA "SP" "parent" "top" (Demo.start Demo.emptyRemote)
  = (Threw (TypeError
       "Cannot read properties of undefined (reading 'ancestors')"),
     mkState Demo.emptyRemote [GetContent "SP" "A"]).
Proof.
  apply (@ensurePageExists_throws_on_empty_result_list
           Demo.platform Demo.Remote Sample.miscounting
           Demo.docA "SP" "parent" "top" (Demo.start Demo.emptyRemote)
           {| sr_size := 1; sr_results := [] |} Demo.emptyRemote);
    reflexivity.
Defined.

(** C10, as stated, fails: the first content node of [Sample.blankDiagram]
    has the empty string as text, so it has no text to render, but [??]
    only replaces a missing text: the renderer is asked for a chart whose
    source is the empty string, under the file name of that empty source,
    and the placeholder appears nowhere in the run. *)
Lemma blank_mermaid_block_is_rendered_without_placeholder :
  let run :=
    @uploadFiles Demo.platform Demo.Remote Demo.collaborators
      "id-A" "/vault/docs/a.md" (Demo.doc [Sample.blankDiagram])
      (Demo.start Demo.emptyRemote) in
  let placeholder := "flowchart LR" +:+ String "010" "id1[Missing Chart]" in
  firstText Sample.blankDiagram = Some EmptyString /\
  truthy (firstText Sample.blankDiagram) = false /\
  @getMermaidFileName Demo.platform (firstText Sample.blankDiagram)
    = ("RenderedMermaidChart-.png", EmptyString) /\
  @getMermaidFileName Demo.platform (firstText Sample.blankDiagram)
    <> ("RenderedMermaidChart-" +:+ @md5 Demo.platform placeholder +:+ ".png",
        placeholder) /\
  run = (Returned (Some (Demo.doc [Sample.blankDiagram])),
         mkState Demo.emptyRemote
           [CaptureMermaidCharts
              [{| chart_name := "RenderedMermaidChart-.png";
                  chart_data := EmptyString |}];
            GetAttachments "id-A";
            CreateOrUpdateAttachments "id-A" "RenderedMermaidChart-.png"
              EmptyString [] (Some "image/png")]).
Proof.
  split; [reflexivity|]. split; [reflexivity|]. split; [reflexivity|].
  split; [discriminate | reflexivity].
Qed.
